(** * Operational efficiency analyzer: a shallow embedding of
      [efficiency-analyzer.py] (class [OperationalEfficiencyAnalyzer]).

    Embedded: [__init__] and [generate_sample_data] (the random draws are
    an argument), [analyze_with_gpt], [detect_anomalies],
    [forecast_resources], [generate_insights_report] and [main].

    Numbers.  The structure of the program (which rows, in which order,
    which calls, which exceptions) is embedded over frames of real
    numbers: a column value is a real and a computed float a [num], an
    exact real or one of the IEEE specials (inf, -inf, nan); rounding and
    overflow are left out there.  What depends on the arithmetic of the
    program, the z-score test of [detect_anomalies] and the savings of the
    report, is embedded again in the module [Double] over IEEE 754
    binary64 numbers, every operation rounded as the program rounds it.

    Exceptions are values of [result]; input and output are events
    appended to a trace ([IO]).

    What the program obtains from outside its own text (the chat
    completion service, [json.loads], [str] of the summary dictionary, the
    clock, the Prophet model, the order in which pandas adds the terms of
    a sum up) is a field of the records [Runtime], [Prophet] and
    [Double.Pandas], and every function that uses it takes the record as
    an argument. *)

From Stdlib Require Import Reals Lra Lia String Ascii ZArith Bool List Sorted.
Import ListNotations.

Local Open Scope R_scope.

(* ================================================================== *)
(** * Floats: reals extended with the IEEE special values *)

Module Num.

Inductive num : Type :=
| Fin (x : R)
| PInf
| NInf
| NaN.

Definition Rltb (x y : R) : bool := if Rlt_dec x y then true else false.
Definition Reqb (x y : R) : bool := if Req_dec_T x y then true else false.

(** [x * inf] and [x / 0] for a real [x]: nan at zero, else an infinity
    of the sign of [x]. *)
Definition signed_inf (x : R) : num :=
  if Reqb x 0 then NaN else if Rltb 0 x then PInf else NInf.

Definition nneg (a : num) : num :=
  match a with
  | Fin x => Fin (- x)
  | PInf => NInf
  | NInf => PInf
  | NaN => NaN
  end.

Definition nsub (a b : num) : num :=
  match a, b with
  | NaN, _ | _, NaN => NaN
  | Fin x, Fin y => Fin (x - y)
  | PInf, PInf | NInf, NInf => NaN
  | PInf, _ => PInf
  | NInf, _ => NInf
  | Fin _, PInf => NInf
  | Fin _, NInf => PInf
  end.

Definition nmul (a b : num) : num :=
  match a, b with
  | NaN, _ | _, NaN => NaN
  | Fin x, Fin y => Fin (x * y)
  | Fin x, PInf | PInf, Fin x => signed_inf x
  | Fin x, NInf | NInf, Fin x => nneg (signed_inf x)
  | PInf, PInf | NInf, NInf => PInf
  | PInf, NInf | NInf, PInf => NInf
  end.

(** Division as numpy does it on float64: no exception, [0/0] is nan and
    [x/0] an infinity.  The sign of a zero is not tracked: a zero divisor
    is read as [+0.0]. *)
Definition ndiv (a b : num) : num :=
  match a, b with
  | NaN, _ | _, NaN => NaN
  | Fin x, Fin y => if Reqb y 0 then signed_inf x else Fin (x / y)
  | Fin _, (PInf | NInf) => Fin 0
  | PInf, Fin y => if Rltb y 0 then NInf else PInf
  | NInf, Fin y => if Rltb y 0 then PInf else NInf
  | (PInf | NInf), (PInf | NInf) => NaN
  end.

Definition nabs (a : num) : num :=
  match a with
  | Fin x => Fin (Rabs x)
  | PInf | NInf => PInf
  | NaN => NaN
  end.

Definition nsqrt (a : num) : num :=
  match a with
  | Fin x => if Rltb x 0 then NaN else Fin (sqrt x)
  | PInf => PInf
  | NInf | NaN => NaN
  end.

(** [a > b]; every comparison with nan is [False]. *)
Definition ngtb (a b : num) : bool :=
  match a, b with
  | NaN, _ | _, NaN => false
  | Fin x, Fin y => Rltb y x
  | PInf, (Fin _ | NInf) => true
  | Fin _, NInf => true
  | _, _ => false
  end.

End Num.
Export Num.

(* ================================================================== *)
(** * Exceptions *)

Inductive exn : Type :=
| IndexError
| KeyError (key : string)
| TypeError
| AttributeError
| ValueError
| JSONDecodeError
| OpenAIError (msg : string)
| ProphetError (msg : string).

Inductive result (A : Type) : Type :=
| Ok (a : A)
| Raise (e : exn).
Arguments Ok {A} a.
Arguments Raise {A} e.

Definition rbind {A B} (r : result A) (k : A -> result B) : result B :=
  match r with
  | Ok a => k a
  | Raise e => Raise e
  end.

Declare Scope result_scope.
Delimit Scope result_scope with result.
Notation "x <- c ;; k" := (rbind c (fun x => k))
  (at level 61, c at next level, right associativity) : result_scope.

(** A [for] loop whose body may raise: the first exception ends it. *)
Fixpoint mapM {A B} (f : A -> result B) (l : list A) : result (list B) :=
  match l with
  | [] => Ok []
  | x :: xs => (y <- f x ;; ys <- mapM f xs ;; Ok (y :: ys))%result
  end.

(* ================================================================== *)
(** * The data frame *)

(** A timestamp is a day number. *)
Definition timestamp := Z.

Record MetricRecord : Type := {
  date : timestamp;
  department : string;
  staff_hours : R;
  budget_spent : R;
  resource_utilization : R;
  productivity_score : R
}.

Definition DataFrame := list MetricRecord.

(** The three columns [detect_anomalies] scans, in its order. *)
Inductive Metric : Type := StaffHours | BudgetSpent | ResourceUtilization.

Definition metric_name (m : Metric) : string :=
  match m with
  | StaffHours => "staff_hours"
  | BudgetSpent => "budget_spent"
  | ResourceUtilization => "resource_utilization"
  end.

Definition Metric_eqb (a b : Metric) : bool :=
  match a, b with
  | StaffHours, StaffHours
  | BudgetSpent, BudgetSpent
  | ResourceUtilization, ResourceUtilization => true
  | _, _ => false
  end.

Definition cell (m : Metric) (r : MetricRecord) : R :=
  match m with
  | StaffHours => staff_hours r
  | BudgetSpent => budget_spent r
  | ResourceUtilization => resource_utilization r
  end.

(** [df[name]] for a numeric column. *)
Definition column (m : Metric) (df : DataFrame) : list R := map (cell m) df.

(** [Series.unique()]: the distinct values in order of first appearance. *)
Fixpoint unique_from (seen l : list string) : list string :=
  match l with
  | [] => []
  | x :: xs =>
      if existsb (String.eqb x) seen then unique_from seen xs
      else x :: unique_from (x :: seen) xs
  end.

Definition unique (l : list string) : list string := unique_from [] l.

(** [df[df['department'] == dept]]. *)
Definition dept_rows (df : DataFrame) (dept : string) : DataFrame :=
  filter (fun r => String.eqb (department r) dept) df.

(** [df[df['date'] == d]]. *)
Definition date_rows (df : DataFrame) (d : timestamp) : DataFrame :=
  filter (fun r => Z.eqb (date r) d) df.

(** [df[mask]] for a boolean mask aligned with the rows. *)
Definition boolean_index {A} (rows : list A) (mask : list bool) : list A :=
  map fst (filter snd (combine rows mask)).

(** [.iloc[0]]. *)
Definition iloc0 {A} (l : list A) : result A :=
  match l with
  | [] => Raise IndexError
  | x :: _ => Ok x
  end.

(* ------------------------------------------------------------------ *)
(** ** Reductions of a numeric series *)

Definition Rsum (xs : list R) : R := fold_right Rplus 0 xs.

(** [Series.sum()]: zero on an empty series. *)
Definition series_sum (xs : list R) : num := Fin (Rsum xs).

(** [Series.mean()]: nan on an empty series. *)
Definition mean (xs : list R) : num :=
  match xs with
  | [] => NaN
  | _ => Fin (Rsum xs / INR (length xs))
  end.

(** Sum of the squared deviations from [m]. *)
Definition sum_sq_dev (xs : list R) (m : R) : R :=
  Rsum (map (fun x => (x - m) * (x - m)) xs).

(** [Series.var()] with pandas' default [ddof = 1]: nan when the series has
    at most one element. *)
Definition var (xs : list R) : num :=
  if (length xs <=? 1)%nat then NaN
  else Fin (sum_sq_dev xs (Rsum xs / INR (length xs)) / INR (length xs - 1)).

(** [Series.std()]. *)
Definition std (xs : list R) : num := nsqrt (var xs).

(** Sum of the products of the deviations of two aligned series. *)
Definition sum_co_dev (xs ys : list R) (mx my : R) : R :=
  Rsum (map (fun p => (fst p - mx) * (snd p - my)) (combine xs ys)).

(** [Series.corr(other)] (Pearson): covariance over the product of the
    standard deviations; nan when a variance is zero or undefined. *)
Definition corr (xs ys : list R) : num :=
  let n := INR (length xs) in
  let mx := Rsum xs / n in
  let my := Rsum ys / n in
  if (length xs <=? 1)%nat then NaN
  else ndiv (Fin (sum_co_dev xs ys mx my))
            (Fin (sqrt (sum_sq_dev xs mx) * sqrt (sum_sq_dev ys my))).

(* ================================================================== *)
(** * [detect_anomalies] *)

Record Anomaly : Type := {
  anomaly_department : string;
  anomaly_date : timestamp;
  anomaly_metric : Metric;
  anomaly_value : R
}.

(** [np.abs((dept_data[metric] - mean) / std)], element by element. *)
Definition z_scores (xs : list R) : list num :=
  map (fun v => nabs (ndiv (nsub (Fin v) (mean xs)) (std xs))) xs.

(** The body of the loop over the metrics for one department. *)
Definition metric_anomalies (dept : string) (dept_data : DataFrame)
    (metric : Metric) : result (list Anomaly) :=
  let zs := z_scores (column metric dept_data) in
  let anomaly_dates :=
    map date (boolean_index dept_data (map (fun z => ngtb z (Fin 2)) zs)) in
  mapM (fun d =>
          (v <- iloc0 (column metric (date_rows dept_data d)) ;;
           Ok {| anomaly_department := dept;
                 anomaly_date := d;
                 anomaly_metric := metric;
                 anomaly_value := v |})%result)
       anomaly_dates.

Definition detect_anomalies (df : DataFrame) : result (list Anomaly) :=
  (per_dept <-
     mapM (fun dept =>
             let dept_data := dept_rows df dept in
             per_metric <-
               mapM (metric_anomalies dept dept_data)
                    [StaffHours; BudgetSpent; ResourceUtilization] ;;
             Ok (concat per_metric))
          (unique (map department df)) ;;
   Ok (concat per_dept))%result.

(* ================================================================== *)
(** * Python strings and [float()] *)

Module Py.

Local Open Scope char_scope.

(** [s.strip(chars)]: drops from both ends every character that occurs
    in [chars]. *)
Fixpoint lstrip_list (chars : list ascii) (s : list ascii) : list ascii :=
  match s with
  | [] => []
  | c :: rest =>
      if existsb (Ascii.eqb c) chars then lstrip_list chars rest else s
  end.

Definition strip_list (chars : list ascii) (s : list ascii) : list ascii :=
  rev (lstrip_list chars (rev (lstrip_list chars s))).

Definition strip (s chars : string) : string :=
  string_of_list_ascii
    (strip_list (list_ascii_of_string chars) (list_ascii_of_string s)).

(** The characters [float()] drops around the literal in an ASCII
    string: HT, LF, VT, FF, CR and the space. *)
Definition whitespace : list ascii :=
  map ascii_of_nat [9; 10; 11; 12; 13; 32]%nat.

Definition digit_of (c : ascii) : option Z :=
  let n := Z.of_nat (nat_of_ascii c) in
  if ((48 <=? n) && (n <=? 57))%Z then Some (n - 48)%Z else None.

Definition lower (c : ascii) : ascii :=
  let n := nat_of_ascii c in
  if ((65 <=? n) && (n <=? 90))%nat then ascii_of_nat (n + 32) else c.

(** [digit (["_"] digit)*] after its first digit: the value so far, the
    number of digits read so far, and the rest of the text. *)
Fixpoint digits_tail (s : list ascii) (acc : Z) (count : nat)
  : Z * nat * list ascii :=
  match s with
  | c :: rest =>
      match digit_of c with
      | Some d => digits_tail rest (10 * acc + d)%Z (S count)
      | None =>
          if Ascii.eqb c "_" then
            match rest with
            | c' :: rest' =>
                match digit_of c' with
                | Some d => digits_tail rest' (10 * acc + d)%Z (S count)
                | None => (acc, count, s)
                end
            | [] => (acc, count, s)
            end
          else (acc, count, s)
      end
  | [] => (acc, count, s)
  end.

(** [digitpart], continuing the value [acc]; [None] when the text does
    not start with a digit. *)
Definition digitpart (s : list ascii) (acc : Z) : option (Z * nat * list ascii) :=
  match s with
  | c :: rest =>
      match digit_of c with
      | Some d => Some (digits_tail rest (10 * acc + d)%Z 1%nat)
      | None => None
      end
  | [] => None
  end.

(** [number ::= [digitpart] "." digitpart | digitpart ["."]]: the digits
    read as one integer and the number of them after the point. *)
Definition number (s : list ascii) : option (Z * nat * list ascii) :=
  match digitpart s 0%Z with
  | Some (i, _, "." :: rest) =>
      match digitpart rest i with
      | Some (m, k, rest') => Some (m, k, rest')
      | None => Some (i, 0%nat, rest)
      end
  | Some (i, _, rest) => Some (i, 0%nat, rest)
  | None =>
      match s with
      | "." :: rest => digitpart rest 0%Z
      | _ => None
      end
  end.

Definition sign (s : list ascii) : bool * list ascii :=
  match s with
  | "-" :: rest => (true, rest)
  | "+" :: rest => (false, rest)
  | _ => (false, s)
  end.

(** [exponent ::= ("e" | "E") [sign] digitpart]; absent is exponent 0. *)
Definition exponent (s : list ascii) : option (Z * list ascii) :=
  match s with
  | [] => Some (0%Z, [])
  | c :: rest =>
      if Ascii.eqb (lower c) "e" then
        let '(neg, rest') := sign rest in
        match digitpart rest' 0%Z with
        | Some (e, _, rest'') => Some (if neg then (- e)%Z else e, rest'')
        | None => None
        end
      else Some (0%Z, s)
  end.

(** The real [m * 10^e]. *)
Definition decimal (m e : Z) : R :=
  if (0 <=? e)%Z then IZR (m * 10 ^ e) else IZR m / IZR (10 ^ (- e)).

(** [float(s)] for an ASCII string: [ValueError] unless [s], with the
    white space around it dropped, is a float literal, [inf], [infinity]
    or [nan] (in any case) with an optional sign.  The literal is read
    here as the real number it writes; [Double.float] rounds it. *)
Definition float_of_list (s : list ascii) : option num :=
  let '(neg, body) := sign (strip_list whitespace s) in
  let signed (x : num) := if neg then nneg x else x in
  let word := string_of_list_ascii (map lower body) in
  if String.eqb word "inf" || String.eqb word "infinity" then Some (signed PInf)
  else if String.eqb word "nan" then Some NaN
  else
    match number body with
    | Some (m, k, rest) =>
        match exponent rest with
        | Some (e, []) => Some (signed (Fin (decimal m (e - Z.of_nat k))))
        | _ => None
        end
    | None => None
    end.

Definition float (s : string) : result num :=
  match float_of_list (list_ascii_of_string s) with
  | Some x => Ok x
  | None => Raise ValueError
  end.

End Py.

(* ================================================================== *)
(** * JSON values and Python's view of them *)

#[warnings="-register-all"]
Inductive json : Type :=
| JNull
| JBool (b : bool)
| JInt (n : Z)
| JFloat (x : num)
| JString (s : string)
| JArray (items : list json)
| JObject (fields : list (string * json)).

(** [d[k] = v] on a dict kept in insertion order. *)
Fixpoint dict_set (d : list (string * json)) (k : string) (v : json)
  : list (string * json) :=
  match d with
  | [] => [(k, v)]
  | (k', v') :: rest =>
      if String.eqb k' k then (k, v) :: rest else (k', v') :: dict_set rest k v
  end.

Fixpoint dict_get (d : list (string * json)) (k : string) : option json :=
  match d with
  | [] => None
  | (k', v) :: rest => if String.eqb k' k then Some v else dict_get rest k
  end.

(** [obj[key]] for a string key: only a dict can be indexed by it. *)
Definition getitem (obj : json) (key : string) : result json :=
  match obj with
  | JObject d =>
      match dict_get d key with
      | Some v => Ok v
      | None => Raise (KeyError key)
      end
  | _ => Raise TypeError
  end.

(** [obj.strip(chars)]: only a [str] has the method. *)
Definition method_strip (obj : json) (chars : string) : result string :=
  match obj with
  | JString s => Ok (Py.strip s chars)
  | _ => Raise AttributeError
  end.

(** A decoder for JSON text, used to run the examples: the grammar of
    RFC 8259 with the [NaN], [Infinity] and [-Infinity] literals Python
    accepts, and without [\u] escapes (a text that uses one is rejected). *)
Module JsonText.

Local Open Scope char_scope.

(** The double quote. *)
Definition dquote : ascii := ascii_of_nat 34.

Definition is_ws (c : ascii) : bool :=
  existsb (Ascii.eqb c) (map ascii_of_nat [32; 9; 10; 13]%nat).

Fixpoint skip_ws (s : list ascii) : list ascii :=
  match s with
  | c :: rest => if is_ws c then skip_ws rest else s
  | [] => []
  end.

(** [prefix p s]: the rest of [s] after the prefix [p]. *)
Fixpoint prefix (p s : list ascii) : option (list ascii) :=
  match p, s with
  | [], _ => Some s
  | a :: p', b :: s' => if Ascii.eqb a b then prefix p' s' else None
  | _ :: _, [] => None
  end.

Definition escape (c : ascii) : option ascii :=
  if Ascii.eqb c dquote then Some dquote
  else if Ascii.eqb c "\" then Some "\"
  else if Ascii.eqb c "/" then Some "/"
  else if Ascii.eqb c "b" then Some (ascii_of_nat 8)
  else if Ascii.eqb c "f" then Some (ascii_of_nat 12)
  else if Ascii.eqb c "n" then Some (ascii_of_nat 10)
  else if Ascii.eqb c "r" then Some (ascii_of_nat 13)
  else if Ascii.eqb c "t" then Some (ascii_of_nat 9)
  else None.

(** The characters of a string literal after its opening quote. *)
Fixpoint string_body (s : list ascii) (acc : list ascii)
  : option (string * list ascii) :=
  match s with
  | [] => None
  | c :: rest =>
      if Ascii.eqb c dquote then Some (string_of_list_ascii (rev acc), rest)
      else if Ascii.eqb c "\" then
        match rest with
        | e :: rest' =>
            match escape e with
            | Some x => string_body rest' (x :: acc)
            | None => None
            end
        | [] => None
        end
      else if (nat_of_ascii c <? 32)%nat then None
      else string_body rest (c :: acc)
  end.

Fixpoint digits (s : list ascii) (acc : Z) (count : nat) : Z * nat * list ascii :=
  match s with
  | c :: rest =>
      match Py.digit_of c with
      | Some d => digits rest (10 * acc + d)%Z (S count)
      | None => (acc, count, s)
      end
  | [] => (acc, count, s)
  end.

(** A number: an optional minus, an integer part ([0], or digits that
    do not start with [0]), an optional fraction (a point and digits) and
    an optional exponent ([e] or [E], an optional sign, digits).  Python
    reads an [int] when there is neither fraction nor exponent, a [float]
    otherwise. *)
Definition number (s : list ascii) : option (json * list ascii) :=
  let '(neg, body) := match s with "-" :: r => (true, r) | _ => (false, s) end in
  let int_part :=
    match body with
    | "0" :: r => Some (0%Z, r)
    | c :: _ =>
        match Py.digit_of c with
        | Some _ => let '(i, _, r) := digits body 0%Z 0%nat in Some (i, r)
        | None => None
        end
    | [] => None
    end in
  match int_part with
  | None => None
  | Some (i, r) =>
      let '(m, k, r1, has_frac) :=
        match r with
        | "." :: f =>
            let '(m, k, r') := digits f i 0%nat in
            if (k =? 0)%nat then (i, 0%nat, r, false) else (m, k, r', true)
        | _ => (i, 0%nat, r, false)
        end in
      let '(e, r2, has_exp) :=
        match r1 with
        | c :: x =>
            if Ascii.eqb (Py.lower c) "e" then
              let '(eneg, x') :=
                match x with
                | "-" :: y => (true, y)
                | "+" :: y => (false, y)
                | _ => (false, x)
                end in
              let '(e, n, r') := digits x' 0%Z 0%nat in
              if (n =? 0)%nat then (0%Z, r1, false)
              else (if eneg then (- e)%Z else e, r', true)
            else (0%Z, r1, false)
        | [] => (0%Z, r1, false)
        end in
      if has_frac || has_exp then
        let x := Py.decimal m (e - Z.of_nat k) in
        Some (JFloat (Fin (if neg then - x else x)), r2)
      else Some (JInt (if neg then (- i)%Z else i), r2)
  end.

Definition literal (s : list ascii) : option (json * list ascii) :=
  let try (word : string) (v : json) :=
    option_map (fun r => (v, r)) (prefix (list_ascii_of_string word) s) in
  match try "null"%string JNull with Some x => Some x | None =>
  match try "true"%string (JBool true) with Some x => Some x | None =>
  match try "false"%string (JBool false) with Some x => Some x | None =>
  match try "NaN"%string (JFloat NaN) with Some x => Some x | None =>
  match try "Infinity"%string (JFloat PInf) with Some x => Some x | None =>
  try "-Infinity"%string (JFloat NInf)
  end end end end end.

Section Containers.
Variable value : list ascii -> option (json * list ascii).

(** The items of an array after the first, up to the closing bracket. *)
Fixpoint elements (fuel : nat) (s : list ascii) (acc : list json)
  : option (json * list ascii) :=
  match fuel with
  | O => None
  | S n =>
      match skip_ws s with
      | "]" :: rest => Some (JArray (rev acc), rest)
      | "," :: rest =>
          match value rest with
          | Some (v, rest') => elements n rest' (v :: acc)
          | None => None
          end
      | _ => None
      end
  end.

(** A member of an object: a string, a colon, a value. *)
Definition member (s : list ascii) : option (string * json * list ascii) :=
  match skip_ws s with
  | c :: rest =>
      if Ascii.eqb c dquote then
        match string_body rest [] with
        | Some (k, rest') =>
            match skip_ws rest' with
            | ":" :: rest'' =>
                match value rest'' with
                | Some (v, r) => Some (k, v, r)
                | None => None
                end
            | _ => None
            end
        | None => None
        end
      else None
  | [] => None
  end.

(** The members of an object after the first, up to the closing brace. *)
Fixpoint members (fuel : nat) (s : list ascii) (acc : list (string * json))
  : option (json * list ascii) :=
  match fuel with
  | O => None
  | S n =>
      match skip_ws s with
      | "}" :: rest => Some (JObject acc, rest)
      | "," :: rest =>
          match member rest with
          | Some (k, v, rest') => members n rest' (dict_set acc k v)
          | None => None
          end
      | _ => None
      end
  end.

End Containers.

Fixpoint value (fuel : nat) (s : list ascii) : option (json * list ascii) :=
  match fuel with
  | O => None
  | S n =>
      match skip_ws s with
      | "[" :: rest =>
          match skip_ws rest with
          | "]" :: rest' => Some (JArray [], rest')
          | _ =>
              match value n rest with
              | Some (v, rest') => elements (value n) n rest' [v]
              | None => None
              end
          end
      | "{" :: rest =>
          match skip_ws rest with
          | "}" :: rest' => Some (JObject [], rest')
          | _ =>
              match member (value n) rest with
              | Some (k, v, rest') => members (value n) n rest' [(k, v)]
              | None => None
              end
          end
      | c :: rest =>
          if Ascii.eqb c dquote then
            option_map (fun p => (JString (fst p), snd p)) (string_body rest [])
          else
            match literal (c :: rest) with
            | Some x => Some x
            | None => number (c :: rest)
            end
      | [] => None
      end
  end.

(** [json.loads(text)]. *)
Definition loads (text : string) : result json :=
  let s := list_ascii_of_string text in
  match value (S (List.length s)) s with
  | Some (v, rest) =>
      match skip_ws rest with
      | [] => Ok v
      | _ => Raise JSONDecodeError
      end
  | None => Raise JSONDecodeError
  end.

End JsonText.

(* ================================================================== *)
(** * The analyzer object and what it reaches outside itself *)

Local Open Scope string_scope.

Record Analyzer : Type := {
  api_key : string;
  df : DataFrame
}.

(** The arguments of [openai.ChatCompletion.create]; [chat_api_key] is
    the module attribute [openai.api_key] that [__init__] sets. *)
Record ChatRequest : Type := {
  chat_api_key : string;
  chat_model : string;
  chat_messages : list (string * string);
  chat_temperature : R
}.

(** [groupby(...)] visits its keys in increasing order, each once. *)
Fixpoint insert_key {K} (cmp : K -> K -> comparison) (k : K) (l : list K)
  : list K :=
  match l with
  | [] => [k]
  | x :: xs =>
      match cmp k x with
      | Lt => k :: l
      | Eq => l
      | Gt => x :: insert_key cmp k xs
      end
  end.

Definition group_keys {K} (cmp : K -> K -> comparison) (l : list K) : list K :=
  fold_right (insert_key cmp) [] l.

(** [df.groupby('department').agg({...}).to_dict()]: one dictionary per
    aggregated column, keyed by department. *)
Record DepartmentMetrics : Type := {
  dm_resource_utilization : list (string * num);
  dm_budget_spent : list (string * num);
  dm_productivity_score : list (string * num)
}.

Definition department_metrics_of (df : DataFrame) : DepartmentMetrics :=
  let depts := group_keys String.compare (map department df) in
  let per (f : DataFrame -> num) := map (fun d => (d, f (dept_rows df d))) depts in
  {| dm_resource_utilization := per (fun g => mean (map resource_utilization g));
     dm_budget_spent := per (fun g => series_sum (map budget_spent g));
     dm_productivity_score := per (fun g => mean (map productivity_score g)) |}.

Record MetricsSummary : Type := {
  avg_utilization : num;
  total_budget : num;
  productivity_correlation : num;
  department_metrics : DepartmentMetrics
}.

Definition metrics_summary_of (df : DataFrame) : MetricsSummary :=
  {| avg_utilization := mean (map resource_utilization df);
     total_budget := series_sum (map budget_spent df);
     productivity_correlation :=
       corr (map resource_utilization df) (map productivity_score df);
     department_metrics := department_metrics_of df |}.

(** The figures handed to plotly. *)
Inductive Figure : Type :=
| BoxPlot (title : string) (points : list (string * R))
| LinePlot (title : string) (points : list (timestamp * R)).

(** [px.box(self.df, x='department', y='resource_utilization', ...)]. *)
Definition util_by_dept_figure (df : DataFrame) : Figure :=
  BoxPlot "Resource Utilization by Department"
          (map (fun r => (department r, resource_utilization r)) df).

(** [px.line(self.df.groupby('date')['budget_spent'].sum().reset_index(), ...)]. *)
Definition budget_trend_figure (df : DataFrame) : Figure :=
  LinePlot "Budget Trend Over Time"
           (map (fun d => (d, Rsum (map budget_spent (date_rows df d))))
                (group_keys Z.compare (map date df))).

(** What the Python process obtains from outside the program text. *)
Record Runtime : Type := {
  (** [openai.ChatCompletion.create(...).choices[0].message.content], or the
      exception the call raises. *)
  chat_completion : ChatRequest -> result string;
  (** [json.loads]. *)
  json_loads : string -> result json;
  (** [str(metrics_summary)]. *)
  summary_str : MetricsSummary -> string;
  (** [datetime.now().strftime("%Y-%m-%d")]. *)
  today : string
}.

(* ------------------------------------------------------------------ *)
(** ** Input and output as a trace of events *)

Inductive event : Type :=
| ChatCompletionCreate (req : ChatRequest)
| HtmlWritten (path : string) (fig : Figure)
| ClockRead.

(** A computation appends the events it performs to the trace; an
    exception keeps the events performed before it. *)
Definition IO (A : Type) : Type := list event -> result A * list event.

Definition ret {A} (a : A) : IO A := fun tr => (Ok a, tr).

Definition bind {A B} (m : IO A) (k : A -> IO B) : IO B :=
  fun tr =>
    match m tr with
    | (Ok a, tr') => k a tr'
    | (Raise e, tr') => (Raise e, tr')
    end.

Definition lift {A} (r : result A) : IO A := fun tr => (r, tr).

Definition emit (e : event) : IO unit := fun tr => (Ok tt, (tr ++ [e])%list).

Declare Scope io_scope.
Delimit Scope io_scope with io.
Notation "x <- c ;; k" := (bind c (fun x => k))
  (at level 61, c at next level, right associativity) : io_scope.
Notation "c ;;; k" := (bind c (fun _ => k))
  (at level 61, right associativity) : io_scope.

(** [fig.write_html(path)]; the write is taken to succeed. *)
Definition write_html (fig : Figure) (path : string) : IO unit :=
  emit (HtmlWritten path fig).

Definition datetime_now_strftime (rt : Runtime) : IO string :=
  (emit ClockRead ;;; ret (today rt))%io.

(* ================================================================== *)
(** * [analyze_with_gpt] *)

Definition nl : string := String (ascii_of_nat 10) EmptyString.

Definition prompt_of (metrics_summary : string) : string :=
  "Analyze these operational metrics and provide recommendations in JSON format:" ++ nl ++
  "        1. identified_inefficiencies: (list of specific inefficiencies)" ++ nl ++
  "        2. optimization_suggestions: (list of actionable recommendations)" ++ nl ++
  "        3. potential_savings: (estimated percentage savings)" ++ nl ++
  "        4. priority_actions: (list of top 3 priority actions)" ++ nl ++
  nl ++
  "        Metrics Summary: " ++ metrics_summary ++ nl ++
  nl ++
  "        Return only valid JSON.".

Definition chat_request_of (self : Analyzer) (metrics_summary : string)
  : ChatRequest :=
  {| chat_api_key := api_key self;
     chat_model := "gpt-3.5-turbo";
     chat_messages :=
       [("system", "You are an operational efficiency expert.");
        ("user", prompt_of metrics_summary)];
     chat_temperature := 3 / 10 |}.

Definition analyze_with_gpt (rt : Runtime) (self : Analyzer)
    (metrics_summary : string) : IO json :=
  let req := chat_request_of self metrics_summary in
  (emit (ChatCompletionCreate req) ;;;
   content <- lift (chat_completion rt req) ;;
   lift (json_loads rt content))%io.

(* ================================================================== *)
(** * [forecast_resources] *)

(** A row of the frame [Prophet.predict] returns. *)
Record ForecastPoint : Type := {
  ds : timestamp;
  yhat : R;
  yhat_lower : R;
  yhat_upper : R
}.

(** The Prophet library: a model built with
    [Prophet(yearly_seasonality=True, weekly_seasonality=True)], its
    [fit] (which may raise), [make_future_dataframe] and [predict]. *)
Record Prophet : Type := {
  fitted : Type;
  fit : list (timestamp * R) -> result fitted;
  make_future_dataframe : fitted -> nat -> list timestamp;
  predict : fitted -> list timestamp -> list ForecastPoint
}.

(** The frame [{'ds': dept_data['date'], 'y': dept_data['resource_utilization']}]. *)
Definition df_prophet (dept_data : DataFrame) : list (timestamp * R) :=
  map (fun r => (date r, resource_utilization r)) dept_data.

(** The body of the loop over the departments. *)
Definition forecast_department (P : Prophet) (df : DataFrame) (dept : string)
  : result (string * list ForecastPoint) :=
  let dept_data := dept_rows df dept in
  (model <- fit P (df_prophet dept_data) ;;
   let future := make_future_dataframe P model 90 in
   let forecast := predict P model future in
   Ok (dept, forecast))%result.

(** The dictionary [forecasts], in insertion order. *)
Definition forecast_resources (P : Prophet) (self : Analyzer)
  : result (list (string * list ForecastPoint)) :=
  mapM (forecast_department P (df self)) (unique (map department (df self))).

(* ================================================================== *)
(** * [generate_insights_report] *)

Record Report : Type := {
  metrics_summary : MetricsSummary;
  ai_recommendations : json;
  anomalies : nat;
  potential_annual_savings : num;
  analysis_date : string
}.

(** [(100 - avg_utilization) * total_budget * pct / 10000]. *)
Definition savings_of (summary : MetricsSummary) (pct : num) : num :=
  ndiv (nmul (nmul (nsub (Fin 100) (avg_utilization summary))
                   (total_budget summary))
             pct)
       (Fin 10000).

Definition generate_insights_report (rt : Runtime) (self : Analyzer)
  : IO Report :=
  let summary := metrics_summary_of (df self) in
  (ai_analysis <- analyze_with_gpt rt self (summary_str rt summary) ;;
   write_html (util_by_dept_figure (df self)) "utilization_by_dept.html" ;;;
   write_html (budget_trend_figure (df self)) "budget_trend.html" ;;;
   savings_field <- lift (getitem ai_analysis "potential_savings") ;;
   savings_text <- lift (method_strip savings_field "%") ;;
   pct <- lift (Py.float savings_text) ;;
   found <- lift (detect_anomalies (df self)) ;;
   date_text <- datetime_now_strftime rt ;;
   ret {| metrics_summary := summary;
          ai_recommendations := ai_analysis;
          anomalies := List.length found;
          potential_annual_savings := savings_of summary pct;
          analysis_date := date_text |})%io.

(** A run starts with an empty trace. *)
Definition run {A} (m : IO A) : result A * list event := m [].

(* ================================================================== *)
(** * The specification's own words, for comparison with the code *)

Module Spec.

(** Section 4.1: the sample mean and the sample standard deviation of a
    series, and the z-score of a value, as real numbers. *)
Definition sample_mean (xs : list R) : R := Rsum xs / INR (length xs).

Definition sample_std (xs : list R) : R :=
  sqrt (sum_sq_dev xs (sample_mean xs) / INR (length xs - 1)).

Definition z_score (xs : list R) (v : R) : R :=
  Rabs (v - sample_mean xs) / sample_std xs.

(** "flag the record if z > 2.0". *)
Definition flagged (xs : list R) (v : R) : bool := Rltb 2 (z_score xs v).

(** The days that follow [last], [n] of them, one per day. *)
Definition next_days (last : timestamp) (n : nat) : list timestamp :=
  map (fun k => (last + Z.of_nat k)%Z) (seq 1 n).

(** The latest date of a history. *)
Definition last_observed (dates : list timestamp) : timestamp :=
  match dates with
  | [] => 0%Z
  | d :: rest => fold_right Z.max d rest
  end.

(** The dates of a history as the forecasting model keeps them: each
    date once, in increasing order. *)
Definition history_dates (dates : list timestamp) : list timestamp :=
  group_keys Z.compare dates.


End Spec.

(* ================================================================== *)
(** * Example data *)

Module Demo.

Definition row (d : Z) (dept : string) (hours budget util prod : R)
  : MetricRecord :=
  {| date := d; department := dept; staff_hours := hours;
     budget_spent := budget; resource_utilization := util;
     productivity_score := prod |}.

(** Six days of one department: constant hours and budget, utilization 75
    except 10 on the last day. *)
Definition it_rows : DataFrame :=
  [ row 1 "IT" 80 10000 75 85; row 2 "IT" 80 10000 75 85;
    row 3 "IT" 80 10000 75 85; row 4 "IT" 80 10000 75 85;
    row 5 "IT" 80 10000 75 85; row 6 "IT" 80 10000 10 85 ].

(** A second department with a single day. *)
Definition two_departments : DataFrame :=
  (it_rows ++ [ row 1 "HR" 70 9000 60 90 ])%list.

(** Two rows of one department on the same date. *)
Definition duplicated_date : DataFrame :=
  [ row 1 "IT" 80 10000 75 85; row 1 "IT" 80 10000 10 85;
    row 2 "IT" 80 10000 75 85; row 3 "IT" 80 10000 75 85;
    row 4 "IT" 80 10000 75 85; row 5 "IT" 80 10000 75 85 ].

Definition analyzer (rows : DataFrame) : Analyzer :=
  {| api_key := "your-api-key-here"; df := rows |}.

(** A runtime whose service always answers with [content]. *)
Definition runtime (content : string) (day : string) : Runtime :=
  {| chat_completion := fun _ => Ok content;
     json_loads := JsonText.loads;
     summary_str := fun _ => "{...}";
     today := day |}.

(** JSON text is written with [q] for the double quote. *)
Definition q : string := String JsonText.dquote EmptyString.

Definition quoted (s : string) : string := q ++ s ++ q.

Definition field (name value : string) : string := quoted name ++ ": " ++ value.

(** A complete reply. *)
Definition full_reply : string :=
  "{" ++ field "identified_inefficiencies" ("[" ++ quoted "idle capacity" ++ "]") ++
  ", " ++ field "optimization_suggestions" ("[" ++ quoted "rebalance staff" ++ "]") ++
  ", " ++ field "potential_savings" (quoted "10%") ++
  ", " ++ field "priority_actions"
            ("[" ++ quoted "a" ++ ", " ++ quoted "b" ++ ", " ++ quoted "c" ++ "]") ++
  "}".

(** A reply without [priority_actions]. *)
Definition partial_reply : string :=
  "{" ++ field "identified_inefficiencies" "[]" ++
  ", " ++ field "optimization_suggestions" "[]" ++
  ", " ++ field "potential_savings" (quoted "10%") ++
  "}".

(** A reply whose savings are above 100 percent. *)
Definition out_of_range_reply : string :=
  "{" ++ field "identified_inefficiencies" "[]" ++
  ", " ++ field "optimization_suggestions" "[]" ++
  ", " ++ field "potential_savings" (quoted "150%") ++
  ", " ++ field "priority_actions" ("[" ++ quoted "a" ++ "]") ++
  "}".

(** What the three replies decode to. *)
Definition full_recommendations : json :=
  JObject [("identified_inefficiencies", JArray [JString "idle capacity"]);
           ("optimization_suggestions", JArray [JString "rebalance staff"]);
           ("potential_savings", JString "10%");
           ("priority_actions", JArray [JString "a"; JString "b"; JString "c"])].

Definition partial_recommendations : json :=
  JObject [("identified_inefficiencies", JArray []);
           ("optimization_suggestions", JArray []);
           ("potential_savings", JString "10%")].

Definition out_of_range_recommendations : json :=
  JObject [("identified_inefficiencies", JArray []);
           ("optimization_suggestions", JArray []);
           ("potential_savings", JString "150%");
           ("priority_actions", JArray [JString "a"])].

Definition day : string := "2024-06-30".

(** A forecaster that refuses a history of fewer than two rows, as
    Prophet does, and otherwise predicts, for the dates of the history in
    increasing order, each once, and for the days that follow, the
    historical mean with a band of one unit around it. *)
Definition naive_prophet : Prophet :=
  {| fitted := list (timestamp * R);
     fit := fun history =>
       if (length history <? 2)%nat
       then Raise (ProphetError "Dataframe has less than 2 non-NaN rows.")
       else Ok history;
     make_future_dataframe := fun history periods =>
       (Spec.history_dates (map fst history) ++
        Spec.next_days (Spec.last_observed (map fst history)) periods)%list;
     predict := fun history dates =>
       let m := Spec.sample_mean (map snd history) in
       map (fun d => {| ds := d; yhat := m;
                        yhat_lower := m - 1; yhat_upper := m + 1 |}) dates |}.

End Demo.

(* ================================================================== *)
(** * [detect_anomalies] read as a filter *)

(** The test the loop applies to a value [v] of the series [xs]. *)
Definition is_anomaly (xs : list R) (v : R) : bool :=
  ngtb (nabs (ndiv (nsub (Fin v) (mean xs)) (std xs))) (Fin 2).

(** The record built for a flagged row [r] of [dept_data]: the value is
    read from the first row of the slice that has the date of [r]. *)
Definition anomaly_of (dept : string) (dept_data : DataFrame) (m : Metric)
    (r : MetricRecord) : Anomaly :=
  {| anomaly_department := dept;
     anomaly_date := date r;
     anomaly_metric := m;
     anomaly_value := cell m (hd r (date_rows dept_data (date r))) |}.

Definition flagged_rows (dept_data : DataFrame) (m : Metric) : DataFrame :=
  filter (fun r => is_anomaly (column m dept_data) (cell m r)) dept_data.

Definition dept_anomalies (df : DataFrame) (dept : string) : list Anomaly :=
  flat_map (fun m => map (anomaly_of dept (dept_rows df dept) m)
                         (flagged_rows (dept_rows df dept) m))
           [StaffHours; BudgetSpent; ResourceUtilization].

(** The anomalies reported for one department and one metric. *)
Definition anomalies_for (dept : string) (m : Metric) (out : list Anomaly)
  : list Anomaly :=
  filter (fun a => String.eqb (anomaly_department a) dept
                   && Metric_eqb (anomaly_metric a) m) out.

(** The key of a row: the data model has one row per department and date. *)
Definition row_key (r : MetricRecord) : string * timestamp :=
  (department r, date r).

(** The synthesizer's reply to a summary text: the decoded content, or
    the exception raised by the call or by the decoder. *)
Definition synthesized (rt : Runtime) (self : Analyzer) (text : string)
  : result json :=
  (content <- chat_completion rt (chat_request_of self text) ;;
   json_loads rt content)%result.

(** [float(ai_analysis['potential_savings'].strip('%'))]. *)
Definition savings_percent (ai_analysis : json) : result num :=
  (field <- getitem ai_analysis "potential_savings" ;;
   text <- method_strip field "%" ;;
   Py.float text)%result.


From Stdlib Require DecimalString.

(* ================================================================== *)
(** * Orders on the keys of [groupby] *)

(** The order of department names and of dates in which [groupby] lists
    its groups. *)
Definition name_before (a b : string) : Prop := String.compare a b = Lt.
Definition day_before (a b : timestamp) : Prop := Z.compare a b = Lt.

(* ================================================================== *)
(** * [generate_sample_data] and [__init__] *)

(** The values [np.random.normal] returns: for each department the three
    arrays drawn before the loop over the dates, by position, and the
    productivity score drawn for each row. *)
Record Draws : Type := {
  base_staff_hours : string -> nat -> R;
  base_budget : string -> nat -> R;
  resource_usage : string -> nat -> R;
  productivity_draw : string -> nat -> R
}.

(** [pd.date_range(start, end, freq='D')] on day numbers. *)
Definition date_range (start stop : timestamp) : list timestamp :=
  map (fun i => (start + Z.of_nat i)%Z) (seq 0 (Z.to_nat (stop - start + 1))).

(** 2023-01-01 and 2023-12-31 as days since 1970-01-01. *)
Definition first_day : timestamp := 19358%Z.
Definition last_day : timestamp := 19722%Z.

Definition dates : list timestamp := date_range first_day last_day.

Definition departments : list string :=
  ["IT"; "Sales"; "Operations"; "HR"; "Marketing"].

(** [np.linspace(0, 2*np.pi, n)[i]]: [n] points from 0 to [2 pi], ends
    included. *)
Definition linspace_2pi (n i : nat) : R := INR i * (2 * PI / INR (n - 1)).

(** [np.sin(np.linspace(0, 2*np.pi, len(dates))) * 10], at position [i]. *)
Definition seasonal_factor (i : nat) : R :=
  sin (linspace_2pi (length dates) i) * 10.

(** The row appended for department [dept] and the [i]-th date. *)
Definition sample_row (draws : Draws) (dept : string) (i : nat) (day : timestamp)
  : MetricRecord :=
  {| date := day;
     department := dept;
     staff_hours := Rmax 0 (base_staff_hours draws dept i + seasonal_factor i);
     budget_spent := Rmax 0 (base_budget draws dept i + seasonal_factor i * 100);
     resource_utilization :=
       Rmin 100 (Rmax 0 (resource_usage draws dept i + seasonal_factor i));
     productivity_score := productivity_draw draws dept i |}.

Definition generate_sample_data (draws : Draws) : DataFrame :=
  flat_map (fun dept =>
              map (fun p => sample_row draws dept (fst p) (snd p))
                  (combine (seq 0 (length dates)) dates))
           departments.

(** [OperationalEfficiencyAnalyzer(api_key)]. *)
Definition init (key : string) (draws : Draws) : Analyzer :=
  {| api_key := key; df := generate_sample_data draws |}.

(* ================================================================== *)
(** * [main] *)

(** What a run of the program shows: the lines it prints, and the events
    of the calls it makes, in the order in which they happen. *)
Inductive output : Type :=
| Printed (line : string)
| Performed (e : event).

Definition printed (out : list output) : list string :=
  flat_map (fun o => match o with Printed line => [line] | Performed _ => [] end) out.

Definition performed (out : list output) : list event :=
  flat_map (fun o => match o with Printed _ => [] | Performed e => [e] end) out.

(** Python's formatting of the floats and of the containers [main] puts
    in an f-string. *)
Record Console : Type := {
  (** [format(x, '.1f')]. *)
  format_1f : num -> string;
  (** [format(x, ',.2f')]. *)
  format_comma_2f : num -> string;
  (** [str(v)] for a float, a list or a dict. *)
  repr_value : json -> string
}.

(** [str(n)] for a non-negative [int]. *)
Definition str_nat (n : nat) : string :=
  DecimalString.NilEmpty.string_of_uint (Nat.to_uint n).

(** [str(v)], as [{action}] formats a decoded JSON value. *)
Definition format_value (console : Console) (v : json) : string :=
  match v with
  | JString s => s
  | JNull => "None"
  | JBool true => "True"
  | JBool false => "False"
  | JInt n => DecimalString.NilEmpty.string_of_int (Z.to_int n)
  | _ => repr_value console v
  end.

(** The values a [for] loop takes from a decoded JSON value: the items of
    a list, the characters of a string, the keys of a dict; anything else
    is not iterable. *)
Definition iter (v : json) : result (list json) :=
  match v with
  | JArray items => Ok items
  | JString s =>
      Ok (map (fun c => JString (String c EmptyString)) (list_ascii_of_string s))
  | JObject fields => Ok (map (fun kv => JString (fst kv)) fields)
  | _ => Raise TypeError
  end.

(** A script appends what it prints and performs to the output; an
    exception keeps the output produced before it. *)
Definition Script (A : Type) : Type := list output -> result A * list output.

Definition sret {A} (a : A) : Script A := fun out => (Ok a, out).

Definition sbind {A B} (m : Script A) (k : A -> Script B) : Script B :=
  fun out =>
    match m out with
    | (Ok a, out') => k a out'
    | (Raise e, out') => (Raise e, out')
    end.

(** [print(line)]; the write to the standard output is taken to succeed. *)
Definition print (line : string) : Script unit :=
  fun out => (Ok tt, (out ++ [Printed line])%list).

(** A method call, with the events it performs. *)
Definition perform {A} (m : IO A) : Script A :=
  fun out => let (r, tr) := run m in (r, (out ++ map Performed tr)%list).

Definition check {A} (r : result A) : Script A := fun out => (r, out).

Declare Scope script_scope.
Delimit Scope script_scope with script.
Notation "x <- c ;; k" := (sbind c (fun x => k))
  (at level 61, c at next level, right associativity) : script_scope.
Notation "c ;;; k" := (sbind c (fun _ => k))
  (at level 61, right associativity) : script_scope.

(** The loop [for i, action in enumerate(actions, i): print(f"{i}. {action}")]. *)
Fixpoint print_actions (console : Console) (i : nat) (actions : list json)
  : Script unit :=
  match actions with
  | [] => sret tt
  | action :: rest =>
      (print (str_nat i ++ ". " ++ format_value console action) ;;;
       print_actions console (S i) rest)%script
  end.

Definition placeholder_key : string := "your-api-key-here".

Definition main (rt : Runtime) (P : Prophet) (console : Console) (draws : Draws)
  : Script unit :=
  let api_key := placeholder_key in
  (print "Initializing Operational Efficiency Analyzer..." ;;;
   let analyzer := init api_key draws in
   print "Generating insights and forecasts..." ;;;
   insights <- perform (generate_insights_report rt analyzer) ;;
   forecasts <- check (forecast_resources P analyzer) ;;
   print (nl ++ "Analysis Complete! Key Findings:") ;;;
   print ("Average Resource Utilization: " ++
          format_1f console (avg_utilization (metrics_summary insights)) ++ "%") ;;;
   print ("Potential Annual Savings: $" ++
          format_comma_2f console (potential_annual_savings insights)) ;;;
   print ("Anomalies Detected: " ++ str_nat (anomalies insights)) ;;;
   print (nl ++ "Top Priority Actions:") ;;;
   priority_actions <- check (getitem (ai_recommendations insights) "priority_actions") ;;
   actions <- check (iter priority_actions) ;;
   print_actions console 1 actions ;;;
   print (nl ++ "Files generated:") ;;;
   print "- utilization_by_dept.html" ;;;
   print "- budget_trend.html")%script.

(** A run of the program starts with nothing printed. *)
Definition run_script {A} (m : Script A) : result A * list output := m [].

(* ------------------------------------------------------------------ *)
(** ** The lines of a run, for the statements about [main] *)

Definition opening_lines : list string :=
  ["Initializing Operational Efficiency Analyzer...";
   "Generating insights and forecasts..."].

Definition findings_lines (console : Console) (insights : Report) : list string :=
  [nl ++ "Analysis Complete! Key Findings:";
   "Average Resource Utilization: " ++
     format_1f console (avg_utilization (metrics_summary insights)) ++ "%";
   "Potential Annual Savings: $" ++
     format_comma_2f console (potential_annual_savings insights);
   "Anomalies Detected: " ++ str_nat (anomalies insights);
   nl ++ "Top Priority Actions:"].

(** The lines of the loop over [items], numbered from [i]. *)
Definition action_lines (console : Console) (i : nat) (items : list json)
  : list string :=
  map (fun p => str_nat (fst p) ++ ". " ++ format_value console (snd p))
      (combine (seq i (length items)) items).

Definition closing_lines : list string :=
  [nl ++ "Files generated:"; "- utilization_by_dept.html"; "- budget_trend.html"].

(** The analyzer [main] builds. *)
Definition main_analyzer (draws : Draws) : Analyzer := init placeholder_key draws.

(** Values for the examples of [main]: draws that all fall on the mean of
    their distribution, a console that shows a float as [#], and
    forecasters whose fit always fails or always succeeds. *)
Module Trial.

Definition draws : Draws :=
  {| base_staff_hours := fun _ _ => 80;
     base_budget := fun _ _ => 10000;
     resource_usage := fun _ _ => 75;
     productivity_draw := fun _ _ => 85 |}.

Definition console : Console :=
  {| format_1f := fun _ => "#";
     format_comma_2f := fun _ => "#";
     repr_value := fun _ => "#" |}.

Definition failing_prophet : Prophet :=
  {| fitted := unit;
     fit := fun _ => Raise (ProphetError "fit failed");
     make_future_dataframe := fun _ _ => [];
     predict := fun _ _ => [] |}.

(** A forecaster that fits any history and predicts nothing. *)
Definition silent_prophet : Prophet :=
  {| fitted := unit;
     fit := fun _ => Ok tt;
     make_future_dataframe := fun _ _ => [];
     predict := fun _ _ => [] |}.

(** A forecaster that refuses a history of fewer than two rows with one
    error and a history of two rows with another, and otherwise does as
    [Demo.naive_prophet]. *)
Definition strict_prophet : Prophet :=
  {| fitted := list (timestamp * R);
     fit := fun history =>
       if (length history <? 2)%nat
       then Raise (ProphetError "Dataframe has less than 2 non-NaN rows.")
       else if (length history <? 3)%nat
       then Raise (ProphetError "Too few rows for the seasonalities.")
       else Ok history;
     make_future_dataframe := make_future_dataframe Demo.naive_prophet;
     predict := predict Demo.naive_prophet |}.

(** Three departments, in this order: IT with six days, HR with one and
    Sales with two. *)
Definition three_departments : DataFrame :=
  (Demo.two_departments ++
   [ Demo.row 1 "Sales" 60 8000 50 80; Demo.row 2 "Sales" 60 8000 55 80 ])%list.

(** A reply whose [priority_actions] is one sentence, not a list. *)
Definition sentence_reply : string :=
  "{" ++ Demo.field "potential_savings" (Demo.quoted "10%") ++
  ", " ++ Demo.field "priority_actions" (Demo.quoted "Hire") ++
  "}".

Definition sentence_recommendations : json :=
  JObject [("potential_savings", JString "10%");
           ("priority_actions", JString "Hire")].

End Trial.


From Stdlib Require SpecFloat.

(* ================================================================== *)
(** * Double precision: the arithmetic as the program runs it *)

(** The floats of the program ([float64] of numpy, [float] of Python) are
    IEEE 754 binary64 numbers, and every operation rounds to the nearest
    one, ties to even.  [Double] embeds, with this arithmetic, the parts
    of the program whose result depends on it: the z-score test of
    [detect_anomalies] and the savings of [generate_insights_report]. *)
Module Double.

Local Open Scope Z_scope.

Definition float64 : Type := SpecFloat.spec_float.

Definition prec : Z := 53.
Definition emax : Z := 1024.

Definition pzero : float64 := SpecFloat.S754_zero false.
Definition pinf : float64 := SpecFloat.S754_infinity false.
Definition nan : float64 := SpecFloat.S754_nan.

Definition add : float64 -> float64 -> float64 := SpecFloat.SFadd prec emax.
Definition sub : float64 -> float64 -> float64 := SpecFloat.SFsub prec emax.
Definition mul : float64 -> float64 -> float64 := SpecFloat.SFmul prec emax.
Definition div : float64 -> float64 -> float64 := SpecFloat.SFdiv prec emax.
Definition sqrt : float64 -> float64 := SpecFloat.SFsqrt prec emax.
Definition abs : float64 -> float64 := SpecFloat.SFabs.
Definition opp : float64 -> float64 := SpecFloat.SFopp.

(** [x > y]: false when an operand is nan. *)
Definition gtb (x y : float64) : bool := SpecFloat.SFltb y x.

(** The double nearest to [m * 2^e]. *)
Definition scaled (m e : Z) : float64 :=
  SpecFloat.binary_normalize prec emax m e false.

(** An [int] operand of a float operation. *)
Definition of_Z (n : Z) : float64 := scaled n 0.

Definition of_nat (n : nat) : float64 := of_Z (Z.of_nat n).

(** The sign bit; a nan has none. *)
Definition negative (x : float64) : bool :=
  match x with
  | SpecFloat.S754_zero s
  | SpecFloat.S754_infinity s
  | SpecFloat.S754_finite s _ _ => s
  | SpecFloat.S754_nan => false
  end.

(** Neither a zero nor a nan: a number other than zero, or an infinity. *)
Definition nonzero (x : float64) : bool :=
  match x with
  | SpecFloat.S754_finite _ _ _ | SpecFloat.S754_infinity _ => true
  | SpecFloat.S754_zero _ | SpecFloat.S754_nan => false
  end.

(** The real number a finite double stands for (0 for the values that
    stand for none). *)
Definition to_R (x : float64) : R :=
  match x with
  | SpecFloat.S754_finite s m e =>
      ((if s then -1 else 1) * IZR (Zpos m) * powerRZ 2 e)%R
  | _ => 0%R
  end.

(* ------------------------------------------------------------------ *)
(** ** The reductions of pandas *)

(** [Series.sum()], [Series.mean()] and [Series.std()] of a float64
    series without nan, as [pandas.core.nanops] computes them.  The order
    in which the terms of a sum are added up is the library's (numpy adds
    pairwise from eight values on, bottleneck from left to right, and
    pandas uses one or the other for each reduction), so the sum of each
    reduction is taken from the environment. *)
Record Pandas : Type := {
  (** The sum that [Series.sum()] returns. *)
  sum : list float64 -> float64;
  (** The sum that [Series.mean()] divides by the count. *)
  mean_sum : list float64 -> float64;
  (** The sums of [Series.std()]: of the values, and of the squares. *)
  std_sum : list float64 -> float64
}.

Definition series_sum (pd : Pandas) (xs : list float64) : float64 := sum pd xs.

(** [nanmean]: the sum over the count, nan on an empty series. *)
Definition series_mean (pd : Pandas) (xs : list float64) : float64 :=
  match xs with
  | [] => nan
  | _ => div (mean_sum pd xs) (of_nat (length xs))
  end.

(** [nanvar] with [ddof = 1]: the mean, then the sum of the squared
    differences from it over the count less one; nan when the series has
    at most one value. *)
Definition series_var (pd : Pandas) (xs : list float64) : float64 :=
  if (length xs <=? 1)%nat then nan
  else
    let avg := div (std_sum pd xs) (of_nat (length xs)) in
    let sqr := map (fun x => let d := sub avg x in mul d d) xs in
    div (std_sum pd sqr) (of_nat (length xs - 1)).

(** [nanstd]: the square root of the variance. *)
Definition series_std (pd : Pandas) (xs : list float64) : float64 :=
  sqrt (series_var pd xs).

(** The additions done from left to right: what numpy does for a series
    of fewer than eight values, and bottleneck for any. *)
Definition sum_left (xs : list float64) : float64 := fold_left add xs pzero.

Definition sequential : Pandas :=
  {| sum := sum_left; mean_sum := sum_left; std_sum := sum_left |}.

(* ------------------------------------------------------------------ *)
(** ** The data frame *)

Record MetricRecord : Type := {
  date : timestamp;
  department : string;
  staff_hours : float64;
  budget_spent : float64;
  resource_utilization : float64;
  productivity_score : float64
}.

Definition DataFrame := list MetricRecord.

Definition cell (m : Metric) (r : MetricRecord) : float64 :=
  match m with
  | StaffHours => staff_hours r
  | BudgetSpent => budget_spent r
  | ResourceUtilization => resource_utilization r
  end.

Definition column (m : Metric) (df : DataFrame) : list float64 := map (cell m) df.

Definition dept_rows (df : DataFrame) (dept : string) : DataFrame :=
  filter (fun r => String.eqb (department r) dept) df.

Definition date_rows (df : DataFrame) (d : timestamp) : DataFrame :=
  filter (fun r => Z.eqb (date r) d) df.

(* ------------------------------------------------------------------ *)
(** ** [detect_anomalies] *)

Record Anomaly : Type := {
  anomaly_department : string;
  anomaly_date : timestamp;
  anomaly_metric : Metric;
  anomaly_value : float64
}.

(** [np.abs((dept_data[metric] - dept_data[metric].mean()) /
    dept_data[metric].std())], element by element. *)
Definition z_scores (pd : Pandas) (xs : list float64) : list float64 :=
  map (fun v => abs (div (sub v (series_mean pd xs)) (series_std pd xs))) xs.

Definition metric_anomalies (pd : Pandas) (dept : string) (dept_data : DataFrame)
    (metric : Metric) : result (list Anomaly) :=
  let zs := z_scores pd (column metric dept_data) in
  let anomaly_dates :=
    map date (boolean_index dept_data (map (fun z => gtb z (of_Z 2)) zs)) in
  mapM (fun d =>
          (v <- iloc0 (column metric (date_rows dept_data d)) ;;
           Ok {| anomaly_department := dept;
                 anomaly_date := d;
                 anomaly_metric := metric;
                 anomaly_value := v |})%result)
       anomaly_dates.

Definition detect_anomalies (pd : Pandas) (df : DataFrame) : result (list Anomaly) :=
  (per_dept <-
     mapM (fun dept =>
             let dept_data := dept_rows df dept in
             per_metric <-
               mapM (metric_anomalies pd dept dept_data)
                    [StaffHours; BudgetSpent; ResourceUtilization] ;;
             Ok (concat per_metric))
          (unique (map department df)) ;;
   Ok (concat per_dept))%result.

(** The test of line 80 on a value [v] of the series [xs]. *)
Definition is_anomaly (pd : Pandas) (xs : list float64) (v : float64) : bool :=
  gtb (abs (div (sub v (series_mean pd xs)) (series_std pd xs))) (of_Z 2).

(** The record appended for a flagged row [r] of [dept_data]. *)
Definition anomaly_of (dept : string) (dept_data : DataFrame) (m : Metric)
    (r : MetricRecord) : Anomaly :=
  {| anomaly_department := dept;
     anomaly_date := date r;
     anomaly_metric := m;
     anomaly_value := cell m (hd r (date_rows dept_data (date r))) |}.

Definition flagged_rows (pd : Pandas) (dept_data : DataFrame) (m : Metric)
  : DataFrame :=
  filter (fun r => is_anomaly pd (column m dept_data) (cell m r)) dept_data.

Definition dept_anomalies (pd : Pandas) (df : DataFrame) (dept : string)
  : list Anomaly :=
  flat_map (fun m => map (anomaly_of dept (dept_rows df dept) m)
                         (flagged_rows pd (dept_rows df dept) m))
           [StaffHours; BudgetSpent; ResourceUtilization].

(** The anomalies reported for one department and one metric. *)
Definition anomalies_for (dept : string) (m : Metric) (out : list Anomaly)
  : list Anomaly :=
  filter (fun a => String.eqb (anomaly_department a) dept
                   && Metric_eqb (anomaly_metric a) m) out.

(** The z-score in the words of the specification's section 4.1,
    [|value - mean| / std], each operation rounded. *)
Definition spec_z_score (mean std v : float64) : float64 :=
  div (abs (sub v mean)) std.

(* ------------------------------------------------------------------ *)
(** ** [float()] and the savings *)

(** The double nearest to [m * 10^e], for [m >= 0]. *)
Definition of_decimal (m e : Z) : float64 :=
  match m with
  | Zpos p =>
      if 0 <=? e then of_Z (m * 10 ^ e)
      else div (SpecFloat.S754_finite false p 0)
               (SpecFloat.S754_finite false (Z.to_pos (10 ^ (- e))) 0)
  | _ => pzero
  end.

(** [float(s)] for an ASCII string: the literal is rounded to the nearest
    double, to an infinity when it is too large. *)
Definition float_of_list (s : list ascii) : option float64 :=
  let '(neg, body) := Py.sign (Py.strip_list Py.whitespace s) in
  let signed (x : float64) := if neg then opp x else x in
  let word := string_of_list_ascii (map Py.lower body) in
  if String.eqb word "inf" || String.eqb word "infinity" then Some (signed pinf)
  else if String.eqb word "nan" then Some nan
  else
    match Py.number body with
    | Some (m, k, rest) =>
        match Py.exponent rest with
        | Some (e, []) => Some (signed (of_decimal m (e - Z.of_nat k)))
        | _ => None
        end
    | None => None
    end.

Definition float (s : string) : result float64 :=
  match float_of_list (list_ascii_of_string s) with
  | Some x => Ok x
  | None => Raise ValueError
  end.

(** [float(ai_analysis['potential_savings'].strip('%'))]. *)
Definition savings_percent (ai_analysis : json) : result float64 :=
  (field <- getitem ai_analysis "potential_savings" ;;
   text <- method_strip field "%" ;;
   float text)%result.

(** [(100 - avg_utilization) * total_budget * pct / 10000], from left to
    right. *)
Definition savings_of (avg_utilization total_budget pct : float64) : float64 :=
  div (mul (mul (sub (of_Z 100) avg_utilization) total_budget) pct) (of_Z 10000).

(** The value of [potential_annual_savings] at lines 142-144, which the
    report carries unchanged, or the exception the expression raises. *)
Definition potential_annual_savings (pd : Pandas) (df : DataFrame)
    (ai_analysis : json) : result float64 :=
  let avg_utilization := series_mean pd (map resource_utilization df) in
  let total_budget := series_sum pd (map budget_spent df) in
  (pct <- savings_percent ai_analysis ;;
   Ok (savings_of avg_utilization total_budget pct))%result.


End Double.

(** The frame of real numbers that a frame of finite doubles stands for. *)
Definition exact_row (r : Double.MetricRecord) : MetricRecord :=
  {| date := Double.date r;
     department := Double.department r;
     staff_hours := Double.to_R (Double.staff_hours r);
     budget_spent := Double.to_R (Double.budget_spent r);
     resource_utilization := Double.to_R (Double.resource_utilization r);
     productivity_score := Double.to_R (Double.productivity_score r) |}.

Definition exact_frame (df : Double.DataFrame) : DataFrame := map exact_row df.

(** Frames of doubles for the examples. *)
Module DoubleDemo.

Definition row (d : Z) (dept : string) (hours budget util prod : Double.float64)
  : Double.MetricRecord :=
  {| Double.date := d; Double.department := dept; Double.staff_hours := hours;
     Double.budget_spent := budget; Double.resource_utilization := util;
     Double.productivity_score := prod |}.

(** A row of department IT with the utilization [util] and nothing else
    that varies. *)
Definition it (d : Z) (util : Double.float64) : Double.MetricRecord :=
  row d "IT" (Double.of_Z 80) (Double.of_Z 10000) util (Double.of_Z 85).

(** Six days: utilization 75 except 10 on the last day. *)
Definition six_days : Double.DataFrame :=
  [ it 1 (Double.of_Z 75); it 2 (Double.of_Z 75); it 3 (Double.of_Z 75);
    it 4 (Double.of_Z 75); it 5 (Double.of_Z 75); it 6 (Double.of_Z 10) ].

(** The doubles written 0.1, 0.2 and 0.4. *)
Definition tenth : Double.float64 := Double.of_decimal 1 (-1).
Definition fifth : Double.float64 := Double.of_decimal 2 (-1).
Definition two_fifths : Double.float64 := Double.of_decimal 4 (-1).

(** Seven days with the utilizations 0.4, 0.1, 0.1, 0.2, 0.2, 0.2, 0.2:
    in real numbers the mean is 0.2, the standard deviation 0.1 and the
    z-score of the first day exactly 2. *)
Definition on_the_threshold : Double.DataFrame :=
  [ it 1 two_fifths; it 2 tenth; it 3 tenth; it 4 fifth;
    it 5 fifth; it 6 fifth; it 7 fifth ].

(** Three days with the constant utilization 7e-165. *)
Definition tiny : Double.float64 := Double.of_decimal 7 (-165).

Definition constant_tiny : Double.DataFrame := [ it 1 tiny; it 2 tiny; it 3 tiny ].

(** Three days with the constant utilization 75. *)
Definition constant_75 : Double.DataFrame :=
  [ it 1 (Double.of_Z 75); it 2 (Double.of_Z 75); it 3 (Double.of_Z 75) ].



End DoubleDemo.

(* ================================================================== *)
(** * Facts about floats *)

Local Open Scope list_scope.

Lemma Rltb_true x y : Rltb x y = true <-> x < y.
Proof. unfold Rltb; destruct (Rlt_dec x y); split; intros; try easy. Qed.

Lemma Rltb_false x y : Rltb x y = false <-> ~ x < y.
Proof. unfold Rltb; destruct (Rlt_dec x y); split; intros; try easy. Qed.

Lemma Reqb_true x y : Reqb x y = true <-> x = y.
Proof. unfold Reqb; destruct (Req_dec_T x y); split; intros; try easy. Qed.

Lemma Reqb_false x y : Reqb x y = false <-> x <> y.
Proof. unfold Reqb; destruct (Req_dec_T x y); split; intros; try easy. Qed.

(** Decides the comparisons met in a goal about [num] operations. *)
Ltac split_cmp :=
  repeat match goal with
  | |- context [Req_dec_T ?a ?b] => destruct (Req_dec_T a b)
  | |- context [Rlt_dec ?a ?b] => destruct (Rlt_dec a b)
  end.

Ltac num_crush :=
  cbn [ndiv nmul nsub nabs ngtb nneg nsqrt];
  unfold signed_inf, Reqb, Rltb;
  repeat (split_cmp; cbn [ndiv nmul nsub nabs ngtb nneg nsqrt];
          unfold signed_inf, Reqb, Rltb);
  try reflexivity; try lra; try (f_equal; field; lra); try (exfalso; nra).

Lemma zero_over_zero_is_nan : ndiv (Fin 0) (Fin 0) = NaN.
Proof. num_crush. Qed.

(* ================================================================== *)
(** * Facts about lists, loops and frames *)

Lemma mapM_ok {A B} (f : A -> result B) (g : A -> B) (l : list A) :
  (forall x, In x l -> f x = Ok (g x)) -> mapM f l = Ok (map g l).
Proof.
  induction l as [|x xs IH]; intros H; simpl; [reflexivity|].
  rewrite (H x (or_introl eq_refl)); simpl.
  rewrite IH by (intros y Hy; apply H; now right).
  reflexivity.
Qed.

Lemma mapM_map {A B C} (f : B -> result C) (g : A -> B) (l : list A) :
  mapM f (map g l) = mapM (fun x => f (g x)) l.
Proof.
  induction l as [|x xs IH]; simpl; [reflexivity|].
  now rewrite IH.
Qed.

Lemma mapM_raise {A B} (f : A -> result B) (l : list A) x e :
  In x l -> f x = Raise e -> exists e', mapM f l = Raise e'.
Proof.
  induction l as [|y ys IH]; intros Hin Hf; [easy|].
  simpl. destruct Hin as [->|Hin].
  - rewrite Hf. now exists e.
  - destruct (f y); simpl.
    + destruct (IH Hin Hf) as [e' ->]. simpl. eauto.
    + eauto.
Qed.


Lemma boolean_index_map {A} (p : A -> bool) (rows : list A) :
  boolean_index rows (map p rows) = filter p rows.
Proof.
  unfold boolean_index.
  induction rows as [|r rows IH]; simpl; [reflexivity|].
  destruct (p r); simpl; now rewrite IH.
Qed.

Lemma existsb_eqb_In x seen :
  existsb (String.eqb x) seen = true <-> In x seen.
Proof.
  rewrite existsb_exists. split.
  - intros [y [Hy Heq]]. apply String.eqb_eq in Heq. now subst.
  - intros H. exists x. split; [assumption|apply String.eqb_refl].
Qed.

Lemma unique_from_In seen l x :
  In x (unique_from seen l) <-> In x l /\ ~ In x seen.
Proof.
  revert seen; induction l as [|y ys IH]; intros seen; simpl; [tauto|].
  destruct (existsb (String.eqb y) seen) eqn:E.
  - apply existsb_eqb_In in E. rewrite IH. split.
    + tauto.
    + intros [[->|H] Hn]; [contradiction|tauto].
  - assert (Hy : ~ In y seen) by (rewrite <- existsb_eqb_In, E; discriminate).
    simpl. rewrite IH. simpl. split.
    + intros [->|[H Hn]]; [tauto|]. split; [tauto|]. intros Hs; apply Hn; now right.
    + intros [[->|H] Hn]; [now left|].
      destruct (string_dec y x) as [->|Hne]; [now left|right].
      split; [assumption|]. intros [?|?]; [contradiction|contradiction].
Qed.

Lemma unique_from_NoDup seen l : NoDup (unique_from seen l).
Proof.
  revert seen; induction l as [|y ys IH]; intros seen; simpl; [constructor|].
  destruct (existsb (String.eqb y) seen); [apply IH|].
  constructor; [|apply IH].
  rewrite unique_from_In. simpl. tauto.
Qed.

Lemma unique_In l x : In x (unique l) <-> In x l.
Proof. unfold unique. rewrite unique_from_In. simpl. tauto. Qed.

Lemma unique_NoDup l : NoDup (unique l).
Proof. apply unique_from_NoDup. Qed.

Lemma dept_rows_In df dept r :
  In r (dept_rows df dept) <-> In r df /\ department r = dept.
Proof.
  unfold dept_rows. rewrite filter_In, String.eqb_eq. tauto.
Qed.

Lemma date_rows_In df d r :
  In r (date_rows df d) <-> In r df /\ date r = d.
Proof.
  unfold date_rows. rewrite filter_In, Z.eqb_eq. tauto.
Qed.

(* ================================================================== *)
(** * [detect_anomalies] is total and is a filter *)

Lemma metric_anomalies_eq dept dept_data m :
  metric_anomalies dept dept_data m =
  Ok (map (anomaly_of dept dept_data m) (flagged_rows dept_data m)).
Proof.
  unfold metric_anomalies, z_scores, column, flagged_rows.
  rewrite !map_map, boolean_index_map, mapM_map.
  apply mapM_ok. intros r Hr.
  apply filter_In in Hr as [Hr _].
  assert (Hin : In r (date_rows dept_data (date r)))
    by (apply date_rows_In; split; [assumption|reflexivity]).
  unfold anomaly_of.
  destruct (date_rows dept_data (date r)) as [|r0 rest]; [easy|].
  reflexivity.
Qed.

Lemma concat_map_flat_map {A B} (f : A -> list B) l :
  concat (map f l) = flat_map f l.
Proof. induction l; simpl; [reflexivity|now f_equal]. Qed.

Theorem detect_anomalies_eq df :
  detect_anomalies df =
  Ok (flat_map (dept_anomalies df) (unique (map department df))).
Proof.
  unfold detect_anomalies.
  rewrite (mapM_ok _ (dept_anomalies df)).
  - simpl. now rewrite concat_map_flat_map.
  - intros dept _.
    rewrite (mapM_ok _ (fun m => map (anomaly_of dept (dept_rows df dept) m)
                                     (flagged_rows (dept_rows df dept) m))).
    + simpl. unfold dept_anomalies. simpl. now rewrite !app_nil_r.
    + intros m _. apply metric_anomalies_eq.
Qed.

(* ================================================================== *)
(** * Statistics *)

Lemma Rsum_nonneg (l : list R) :
  (forall x, In x l -> 0 <= x) -> 0 <= Rsum l.
Proof.
  induction l as [|a l IH]; intros H; simpl; [lra|].
  assert (0 <= a) by (apply H; now left).
  assert (0 <= Rsum l) by (apply IH; intros; apply H; now right).
  lra.
Qed.

Lemma Rsum_zero_terms (l : list R) :
  (forall x, In x l -> 0 <= x) -> Rsum l = 0 -> forall x, In x l -> x = 0.
Proof.
  induction l as [|a l IH]; intros Hpos Hsum x Hin; [easy|].
  simpl in Hsum.
  assert (0 <= a) by (apply Hpos; now left).
  assert (0 <= Rsum l) by (apply Rsum_nonneg; intros; apply Hpos; now right).
  destruct Hin as [<-|Hin]; [lra|].
  apply IH; [intros; apply Hpos; now right|lra|assumption].
Qed.

Lemma sum_sq_dev_nonneg xs m : 0 <= sum_sq_dev xs m.
Proof.
  apply Rsum_nonneg. intros y Hy. apply in_map_iff in Hy as [x [<- _]]. apply Rle_0_sqr.
Qed.

Lemma sum_sq_dev_zero xs m :
  sum_sq_dev xs m = 0 -> forall x, In x xs -> x = m.
Proof.
  intros H x Hx.
  assert (Hz : (x - m) * (x - m) = 0).
  { apply (Rsum_zero_terms (map (fun x => (x - m) * (x - m)) xs)).
    - intros y Hy. apply in_map_iff in Hy as [z [<- _]]. apply Rle_0_sqr.
    - exact H.
    - apply in_map_iff. now exists x. }
  apply Rmult_integral in Hz. lra.
Qed.

Lemma Rsum_constant xs c :
  (forall x, In x xs -> x = c) -> Rsum xs = c * INR (length xs).
Proof.
  induction xs as [|a xs IH]; intros H.
  - simpl. lra.
  - change (Rsum (a :: xs)) with (a + Rsum xs).
    change (length (a :: xs)) with (S (length xs)). rewrite S_INR.
    rewrite IH by (intros; apply H; now right).
    rewrite (H a) by now left. lra.
Qed.

Lemma sum_sq_dev_constant xs c :
  (forall x, In x xs -> x = c) -> sum_sq_dev xs c = 0.
Proof.
  unfold sum_sq_dev. induction xs as [|a xs IH]; intros H; simpl; [reflexivity|].
  rewrite IH by (intros; apply H; now right).
  rewrite (H a) by now left. lra.
Qed.

Lemma mean_spec xs :
  (1 <= length xs)%nat -> mean xs = Fin (Spec.sample_mean xs).
Proof. destruct xs; simpl; [lia|reflexivity]. Qed.

Lemma var_spec xs :
  (2 <= length xs)%nat ->
  var xs = Fin (sum_sq_dev xs (Spec.sample_mean xs) / INR (length xs - 1)).
Proof.
  intros H. unfold var.
  destruct (Nat.leb_spec (length xs) 1); [lia|reflexivity].
Qed.

Lemma std_spec xs :
  (2 <= length xs)%nat -> std xs = Fin (Spec.sample_std xs).
Proof.
  intros H. unfold std. rewrite var_spec by assumption.
  unfold nsqrt, Spec.sample_std.
  assert (Hn : 0 < INR (length xs - 1)) by (apply lt_0_INR; lia).
  assert (Hq : 0 <= sum_sq_dev xs (Spec.sample_mean xs) / INR (length xs - 1)).
  { apply Rmult_le_pos; [apply sum_sq_dev_nonneg|].
    left. now apply Rinv_0_lt_compat. }
  destruct (Rltb _ 0) eqn:E; [apply Rltb_true in E; lra|reflexivity].
Qed.

(** A finite standard deviation is the sample standard deviation of a
    series of at least two values. *)
Lemma std_Fin_inv xs s :
  std xs = Fin s -> (2 <= length xs)%nat /\ s = Spec.sample_std xs.
Proof.
  intros H. destruct (Nat.le_gt_cases (length xs) 1) as [Hs|Hl].
  - unfold std, var in H. apply Nat.leb_le in Hs. rewrite Hs in H. discriminate.
  - split; [lia|]. rewrite std_spec in H by lia. now injection H as <-.
Qed.

(** A series of at most one value has no spread. *)
Lemma sample_std_short xs : (length xs <= 1)%nat -> Spec.sample_std xs = 0.
Proof.
  intros H. unfold Spec.sample_std.
  replace (INR (length xs - 1)) with 0
    by (replace (length xs - 1)%nat with 0%nat by lia; reflexivity).
  unfold Rdiv. rewrite Rinv_0, Rmult_0_r. apply sqrt_0.
Qed.

Lemma sample_std_nonzero_length xs :
  Spec.sample_std xs <> 0 -> (2 <= length xs)%nat.
Proof.
  intros H. destruct (Nat.le_gt_cases (length xs) 1) as [Hs|Hl]; [|lia].
  now apply sample_std_short in Hs.
Qed.

(** With a non-zero standard deviation the test of the code is the
    z-score test of the specification. *)
Lemma is_anomaly_spec xs v :
  Spec.sample_std xs <> 0 -> is_anomaly xs v = Spec.flagged xs v.
Proof.
  intros Hs. pose proof (sample_std_nonzero_length xs Hs) as Hlen.
  unfold is_anomaly, Spec.flagged, Spec.z_score.
  rewrite mean_spec by lia. rewrite std_spec by assumption.
  cbn [nsub ndiv].
  destruct (Reqb (Spec.sample_std xs) 0) eqn:E; [apply Reqb_true in E; contradiction|].
  cbn [nabs ngtb].
  assert (Hpos : 0 < Spec.sample_std xs).
  { pose proof (sqrt_pos (sum_sq_dev xs (Spec.sample_mean xs) / INR (length xs - 1))) as Hp.
    fold (Spec.sample_std xs) in Hp. lra. }
  unfold Rdiv at 1. rewrite Rabs_mult, (Rabs_pos_eq (/ _)); [reflexivity|].
  left. now apply Rinv_0_lt_compat.
Qed.

(** A zero standard deviation: every value is the mean and its z-score is
    [0/0], a nan. *)
Lemma z_score_std_zero xs v :
  std xs = Fin 0 -> In v xs ->
  nabs (ndiv (nsub (Fin v) (mean xs)) (std xs)) = NaN.
Proof.
  intros Hstd Hv.
  assert (Hlen : (2 <= length xs)%nat).
  { destruct (Nat.le_gt_cases (length xs) 1) as [Hs|Hl]; [|lia].
    unfold std, var in Hstd. apply Nat.leb_le in Hs. rewrite Hs in Hstd. discriminate. }
  pose proof Hstd as Hstd'. rewrite std_spec in Hstd' by assumption.
  injection Hstd' as Hs0.
  assert (Hn : 0 < INR (length xs - 1)) by (apply lt_0_INR; lia).
  assert (Hss : sum_sq_dev xs (Spec.sample_mean xs) = 0).
  { unfold Spec.sample_std in Hs0. apply sqrt_eq_0 in Hs0.
    - apply (Rmult_eq_compat_r (INR (length xs - 1))) in Hs0.
      unfold Rdiv in Hs0. rewrite Rmult_assoc, Rinv_l, Rmult_1_r, Rmult_0_l in Hs0 by lra.
      exact Hs0.
    - apply Rmult_le_pos; [apply sum_sq_dev_nonneg|]. left. now apply Rinv_0_lt_compat. }
  rewrite Hstd, mean_spec by lia.
  rewrite (sum_sq_dev_zero _ _ Hss v Hv).
  cbn [nsub]. replace (Spec.sample_mean xs - Spec.sample_mean xs) with 0 by lra.
  rewrite zero_over_zero_is_nan. reflexivity.
Qed.

(** ... and [nan > 2] is false. *)
Lemma is_anomaly_std_zero xs :
  std xs = Fin 0 -> forall v, In v xs -> is_anomaly xs v = false.
Proof.
  intros Hstd v Hv. unfold is_anomaly.
  now rewrite z_score_std_zero.
Qed.

Lemma std_constant xs c :
  (forall x, In x xs -> x = c) -> std xs = Fin 0 \/ std xs = NaN.
Proof.
  intros Hc. destruct (Nat.le_gt_cases (length xs) 1) as [Hs|Hl].
  - right. unfold std, var. apply Nat.leb_le in Hs. now rewrite Hs.
  - left. rewrite std_spec by lia. f_equal. unfold Spec.sample_std.
    assert (Hm : Spec.sample_mean xs = c).
    { unfold Spec.sample_mean. rewrite (Rsum_constant xs c Hc).
      field. apply Rgt_not_eq. apply lt_0_INR. lia. }
    rewrite Hm, (sum_sq_dev_constant xs c Hc).
    unfold Rdiv. rewrite Rmult_0_l. apply sqrt_0.
Qed.

Lemma is_anomaly_std_nan xs v : std xs = NaN -> is_anomaly xs v = false.
Proof.
  intros H. unfold is_anomaly. rewrite H.
  destruct (nsub (Fin v) (mean xs)); reflexivity.
Qed.

Lemma is_anomaly_constant xs c :
  (forall x, In x xs -> x = c) -> forall v, In v xs -> is_anomaly xs v = false.
Proof.
  intros Hc v Hv. destruct (std_constant xs c Hc) as [H|H].
  - now apply is_anomaly_std_zero.
  - now apply is_anomaly_std_nan.
Qed.

(* ================================================================== *)
(** * The anomalies of one department and one metric *)

Lemma filter_map_const {A B} (p : B -> bool) (f : A -> B) (l : list A) b :
  (forall x, p (f x) = b) ->
  filter p (map f l) = if b then map f l else [].
Proof.
  intros H. induction l as [|x l IH]; simpl; [now destruct b|].
  rewrite H, IH. now destruct b.
Qed.

Lemma filter_none {A} (p : A -> bool) (l : list A) :
  (forall x, In x l -> p x = false) -> filter p l = [].
Proof.
  induction l as [|x l IH]; intros H; simpl; [reflexivity|].
  rewrite (H x) by now left. apply IH. intros; apply H; now right.
Qed.

Lemma anomalies_for_block dept m dept' dept_data m' rows :
  anomalies_for dept m (map (anomaly_of dept' dept_data m') rows) =
  if String.eqb dept' dept && Metric_eqb m' m
  then map (anomaly_of dept' dept_data m') rows else [].
Proof. unfold anomalies_for. now apply filter_map_const. Qed.

Lemma anomalies_for_app dept m l1 l2 :
  anomalies_for dept m (l1 ++ l2) = anomalies_for dept m l1 ++ anomalies_for dept m l2.
Proof. apply filter_app. Qed.

Lemma anomalies_for_dept df dept m dept' :
  anomalies_for dept m (dept_anomalies df dept') =
  if String.eqb dept' dept
  then map (anomaly_of dept (dept_rows df dept) m) (flagged_rows (dept_rows df dept) m)
  else [].
Proof.
  unfold dept_anomalies. cbn [flat_map].
  rewrite !anomalies_for_app, !anomalies_for_block.
  destruct (String.eqb_spec dept' dept) as [->|Hne]; [|reflexivity].
  destruct m; cbn; now rewrite ?app_nil_r.
Qed.

Lemma anomalies_for_flat_map df dept m depts :
  NoDup depts ->
  anomalies_for dept m (flat_map (dept_anomalies df) depts) =
  if in_dec string_dec dept depts
  then map (anomaly_of dept (dept_rows df dept) m) (flagged_rows (dept_rows df dept) m)
  else [].
Proof.
  induction 1 as [|d depts Hnotin Hnd IH]; [reflexivity|].
  cbn [flat_map]. rewrite anomalies_for_app, anomalies_for_dept, IH.
  destruct (String.eqb_spec d dept) as [->|Hne].
  - destruct (in_dec string_dec dept depts); [contradiction|].
    destruct (in_dec string_dec dept (dept :: depts)) as [_|Hn];
      [now rewrite app_nil_r|exfalso; apply Hn; now left].
  - cbn [app].
    destruct (in_dec string_dec dept depts) as [Hi|Hn];
      destruct (in_dec string_dec dept (d :: depts)) as [Hi'|Hn']; try reflexivity.
    + exfalso; apply Hn'; now right.
    + destruct Hi' as [->|Hi']; [now contradiction Hne|contradiction].
Qed.

Lemma dept_rows_absent df dept :
  ~ In dept (map department df) -> dept_rows df dept = [].
Proof.
  intros Hn. destruct (dept_rows df dept) as [|r rest] eqn:E; [reflexivity|].
  assert (Hr : In r (dept_rows df dept)) by (rewrite E; now left).
  apply dept_rows_In in Hr as [Hr <-]. exfalso. apply Hn. now apply in_map.
Qed.

(** The anomalies reported for a department and a metric are the records
    built from the flagged rows of the department's slice, in order. *)
Lemma detect_anomalies_for df dept m :
  exists out,
    detect_anomalies df = Ok out /\
    anomalies_for dept m out =
    map (anomaly_of dept (dept_rows df dept) m) (flagged_rows (dept_rows df dept) m).
Proof.
  eexists. split; [apply detect_anomalies_eq|].
  rewrite anomalies_for_flat_map by apply unique_NoDup.
  destruct (in_dec string_dec dept (unique (map department df))) as [_|Hn]; [reflexivity|].
  rewrite dept_rows_absent; [reflexivity|].
  intros H. apply Hn. now apply unique_In.
Qed.

(* ================================================================== *)
(** * The value carried by an anomaly *)

Lemma NoDup_map_inj {A B} (f : A -> B) (l : list A) x y :
  NoDup (map f l) -> In x l -> In y l -> f x = f y -> x = y.
Proof.
  induction l as [|a l IH]; intros Hnd Hx Hy Hf; [easy|].
  simpl in Hnd. inversion Hnd as [|? ? Hnotin Hnd']; subst.
  destruct Hx as [->|Hx], Hy as [->|Hy].
  - reflexivity.
  - exfalso. apply Hnotin. rewrite Hf. now apply in_map.
  - exfalso. apply Hnotin. rewrite <- Hf. now apply in_map.
  - now apply IH.
Qed.

Lemma hd_In {A} (d : A) (l : list A) : l <> [] -> In (hd d l) l.
Proof. destruct l; [easy|now left]. Qed.

(** Every anomaly comes from a flagged row of its department's slice. *)
Lemma detect_anomalies_origin df out a :
  detect_anomalies df = Ok out -> In a out ->
  exists r,
    In r (flagged_rows (dept_rows df (anomaly_department a)) (anomaly_metric a)) /\
    a = anomaly_of (anomaly_department a) (dept_rows df (anomaly_department a))
                   (anomaly_metric a) r.
Proof.
  rewrite detect_anomalies_eq. intros [= <-] Ha.
  apply in_flat_map in Ha as [dept [_ Ha]].
  unfold dept_anomalies in Ha.
  apply in_flat_map in Ha as [m [_ Ha]].
  apply in_map_iff in Ha as [r [<- Hr]].
  exists r. split; [exact Hr|reflexivity].
Qed.

(** C10: in a frame with at most one row per department and date,
    [detect_anomalies] returns (the [.iloc[0]] of the lookup by date never
    meets an empty selection), and every anomaly it reports carries the
    value the frame holds for its department, date and metric: there is
    such a row, and every such row has that value. *)
Theorem anomaly_value_is_table_value (df : DataFrame) :
  NoDup (map row_key df) ->
  exists out,
    detect_anomalies df = Ok out /\
    forall a, In a out ->
      (exists r, In r df /\ department r = anomaly_department a /\
                 date r = anomaly_date a) /\
      (forall r, In r df -> department r = anomaly_department a ->
                 date r = anomaly_date a ->
                 anomaly_value a = cell (anomaly_metric a) r).
Proof.
  intros Hkey. eexists. split; [apply detect_anomalies_eq|].
  intros a Ha.
  destruct (detect_anomalies_origin df _ a (detect_anomalies_eq df) Ha) as [r [Hr Ea]].
  set (dept := anomaly_department a) in *.
  set (m := anomaly_metric a) in *.
  apply filter_In in Hr as [Hr _].
  assert (Hne : date_rows (dept_rows df dept) (date r) <> []).
  { intros E. assert (H : In r (date_rows (dept_rows df dept) (date r)))
      by (apply date_rows_In; split; [assumption|reflexivity]).
    now rewrite E in H. }
  pose proof (hd_In r _ Hne) as H0.
  set (r0 := hd r (date_rows (dept_rows df dept) (date r))) in *.
  apply date_rows_In in H0 as [H0 Hd0]. apply dept_rows_In in H0 as [H0 Hdept0].
  assert (Hdate : anomaly_date a = date r) by (rewrite Ea; reflexivity).
  assert (Hval : anomaly_value a = cell m r0) by (rewrite Ea; reflexivity).
  split.
  - exists r0. repeat split; [assumption|assumption|congruence].
  - intros r' Hr' Hdept' Hdate'.
    rewrite Hval. f_equal.
    apply (NoDup_map_inj row_key df); try assumption.
    unfold row_key. congruence.
Qed.

(* ================================================================== *)
(** * The example frames *)

(** The z-score test without the square root. *)
Lemma flagged_by_squares xs v :
  let mu := Spec.sample_mean xs in
  let q := sum_sq_dev xs mu / INR (length xs - 1) in
  0 < q ->
  Spec.flagged xs v = Rltb (4 * q) ((v - mu) * (v - mu)).
Proof.
  intros mu q Hq. unfold Spec.flagged, Spec.z_score. fold mu.
  unfold Spec.sample_std. fold mu. fold q.
  pose proof (sqrt_lt_R0 q Hq) as Hs.
  pose proof (sqrt_sqrt q (Rlt_le _ _ Hq)) as Hss.
  set (s := sqrt q) in *.
  pose proof (Rabs_pos (v - mu)) as Ha.
  assert (Hsq : Rabs (v - mu) * Rabs (v - mu) = (v - mu) * (v - mu)).
  { rewrite <- Rabs_mult. apply Rabs_pos_eq. apply Rle_0_sqr. }
  set (a := Rabs (v - mu)) in *.
  assert (Hiff : 2 < a / s <-> 4 * q < (v - mu) * (v - mu)).
  { rewrite <- Hsq, <- Hss. split; intros H.
    - assert (2 * s < a).
      { apply (Rmult_lt_compat_r s) in H; [|assumption].
        unfold Rdiv in H. rewrite Rmult_assoc, Rinv_l, Rmult_1_r in H by lra. exact H. }
      nra.
    - apply (Rmult_lt_reg_r s); [assumption|].
      unfold Rdiv. rewrite Rmult_assoc, Rinv_l, Rmult_1_r by lra.
      destruct (Rlt_dec (2 * s) a); [assumption|]. exfalso. nra. }
  destruct (Rltb 2 (a / s)) eqn:E1, (Rltb (4 * q) ((v - mu) * (v - mu))) eqn:E2;
    try reflexivity.
  - apply Rltb_true in E1. apply Rltb_false in E2. tauto.
  - apply Rltb_false in E1. apply Rltb_true in E2. tauto.
Qed.

Lemma it_utilization_mean :
  Spec.sample_mean (column ResourceUtilization Demo.it_rows) = 385 / 6.
Proof. unfold Spec.sample_mean. simpl. field. Qed.

Lemma it_utilization_variance :
  sum_sq_dev (column ResourceUtilization Demo.it_rows) (385 / 6) / INR 5
  = 21125 / 30.
Proof. unfold sum_sq_dev. simpl. field. Qed.

Lemma it_utilization_std_nonzero :
  Spec.sample_std (column ResourceUtilization Demo.it_rows) <> 0.
Proof.
  unfold Spec.sample_std. rewrite it_utilization_mean.
  change (length (column ResourceUtilization Demo.it_rows) - 1)%nat with 5%nat.
  rewrite it_utilization_variance.
  apply Rgt_not_eq. apply sqrt_lt_R0. lra.
Qed.

Lemma it_utilization_std :
  std (column ResourceUtilization (dept_rows Demo.it_rows "IT")) = Fin (sqrt (21125 / 30)).
Proof.
  change (dept_rows Demo.it_rows "IT") with Demo.it_rows.
  rewrite std_spec by (cbn; lia). f_equal.
  unfold Spec.sample_std. rewrite it_utilization_mean.
  change (length (column ResourceUtilization Demo.it_rows) - 1)%nat with 5%nat.
  now rewrite it_utilization_variance.
Qed.

Lemma it_utilization_flagged v :
  Spec.flagged (column ResourceUtilization Demo.it_rows) v =
  Rltb (4 * (21125 / 30)) ((v - 385 / 6) * (v - 385 / 6)).
Proof.
  rewrite flagged_by_squares.
  - rewrite it_utilization_mean.
    change (length (column ResourceUtilization Demo.it_rows) - 1)%nat with 5%nat.
    now rewrite it_utilization_variance.
  - rewrite it_utilization_mean.
    change (length (column ResourceUtilization Demo.it_rows) - 1)%nat with 5%nat.
    rewrite it_utilization_variance. lra.
Qed.


Ltac decide_Rltb :=
  repeat match goal with
  | |- context [Rltb ?a ?b] =>
      first [ rewrite (proj2 (Rltb_true a b)) by lra
            | rewrite (proj2 (Rltb_false a b)) by lra ]
  end.

Lemma flagged_rows_constant dept_data m c :
  (forall r, In r dept_data -> cell m r = c) -> flagged_rows dept_data m = [].
Proof.
  intros H. unfold flagged_rows. apply filter_none. intros r Hr.
  apply (is_anomaly_constant _ c).
  - intros x Hx. apply in_map_iff in Hx as [r' [<- Hr']]. now apply H.
  - unfold column. now apply in_map.
Qed.

Lemma it_rows_constant m r :
  m <> ResourceUtilization -> In r Demo.it_rows ->
  cell m r = match m with StaffHours => 80 | _ => 10000 end.
Proof.
  intros Hm Hr. simpl in Hr.
  destruct m; [| |contradiction];
    repeat (destruct Hr as [<-|Hr]; [reflexivity|]); contradiction.
Qed.

Lemma it_rows_flagged_utilization :
  flagged_rows Demo.it_rows ResourceUtilization =
  [Demo.row 6 "IT" 80 10000 10 85].
Proof.
  unfold flagged_rows.
  rewrite (filter_ext _ (fun r => Spec.flagged (column ResourceUtilization Demo.it_rows)
                                               (cell ResourceUtilization r)))
    by (intros r; apply is_anomaly_spec, it_utilization_std_nonzero).
  rewrite (filter_ext _ (fun r => Rltb (4 * (21125 / 30))
             ((cell ResourceUtilization r - 385 / 6) * (cell ResourceUtilization r - 385 / 6))))
    by (intros r; apply it_utilization_flagged).
  unfold Demo.it_rows, Demo.row.
  cbn [filter cell resource_utilization].
  decide_Rltb. reflexivity.
Qed.

Lemma it_rows_anomalies :
  flat_map (dept_anomalies Demo.it_rows) (unique (map department Demo.it_rows)) =
  [ {| anomaly_department := "IT"; anomaly_date := 6%Z;
       anomaly_metric := ResourceUtilization; anomaly_value := 10 |} ].
Proof.
  replace (unique (map department Demo.it_rows)) with ["IT"] by reflexivity.
  cbn [flat_map]. rewrite app_nil_r. unfold dept_anomalies.
  replace (dept_rows Demo.it_rows "IT") with Demo.it_rows by reflexivity.
  cbn [flat_map].
  rewrite (flagged_rows_constant _ StaffHours 80)
    by (intros r Hr; now rewrite (it_rows_constant StaffHours r)).
  rewrite (flagged_rows_constant _ BudgetSpent 10000)
    by (intros r Hr; now rewrite (it_rows_constant BudgetSpent r)).
  rewrite it_rows_flagged_utilization.
  reflexivity.
Qed.

(** The six-day frame: one anomaly, the utilization of day 6. *)
Example detect_anomalies_it_rows :
  detect_anomalies Demo.it_rows =
  Ok [ {| anomaly_department := "IT"; anomaly_date := 6%Z;
          anomaly_metric := ResourceUtilization; anomaly_value := 10 |} ].
Proof. rewrite detect_anomalies_eq. f_equal. apply it_rows_anomalies. Qed.

(* ================================================================== *)
(** * The synthesizer and the report *)

(** What [analyze_with_gpt] returns for the request of a report: the
    decoded reply, or the exception of the call or of the decoder. *)
Lemma analyze_with_gpt_run rt self text tr :
  analyze_with_gpt rt self text tr =
  (synthesized rt self text, tr ++ [ChatCompletionCreate (chat_request_of self text)]).
Proof.
  unfold analyze_with_gpt, synthesized, bind, emit, lift.
  destruct (chat_completion rt (chat_request_of self text)); reflexivity.
Qed.

Lemma generate_insights_report_run rt self tr :
  generate_insights_report rt self tr =
  let summary := metrics_summary_of (df self) in
  let text := summary_str rt summary in
  let tr1 := tr ++ [ChatCompletionCreate (chat_request_of self text)] in
  let tr2 := tr1 ++ [HtmlWritten "utilization_by_dept.html" (util_by_dept_figure (df self));
                     HtmlWritten "budget_trend.html" (budget_trend_figure (df self))] in
  match synthesized rt self text with
  | Raise e => (Raise e, tr1)
  | Ok ai =>
      match savings_percent ai with
      | Raise e => (Raise e, tr2)
      | Ok pct =>
          (Ok {| metrics_summary := summary;
                 ai_recommendations := ai;
                 anomalies := length (flat_map (dept_anomalies (df self))
                                               (unique (map department (df self))));
                 potential_annual_savings := savings_of summary pct;
                 analysis_date := today rt |},
           tr2 ++ [ClockRead])
      end
  end.
Proof.
  unfold generate_insights_report. cbv zeta.
  unfold bind at 1. rewrite analyze_with_gpt_run.
  destruct (synthesized rt self _) as [ai|e]; [|reflexivity].
  unfold savings_percent, write_html, datetime_now_strftime, bind, emit, lift, ret.
  rewrite <- ?app_assoc. cbn [app].
  destruct (getitem ai "potential_savings") as [field|e]; [|reflexivity].
  cbn [rbind].
  destruct (method_strip field "%") as [s|e]; [|reflexivity].
  cbn [rbind].
  destruct (Py.float s) as [pct|e]; [|reflexivity].
  rewrite detect_anomalies_eq.
  rewrite <- ?app_assoc. reflexivity.
Qed.

Lemma full_reply_decoded :
  JsonText.loads Demo.full_reply = Ok Demo.full_recommendations.
Proof. vm_compute. reflexivity. Qed.

Lemma partial_reply_decoded :
  JsonText.loads Demo.partial_reply = Ok Demo.partial_recommendations.
Proof. vm_compute. reflexivity. Qed.

Lemma out_of_range_reply_decoded :
  JsonText.loads Demo.out_of_range_reply = Ok Demo.out_of_range_recommendations.
Proof. vm_compute. reflexivity. Qed.

Example float_of_ten_percent : Py.float (Py.strip "10%" "%") = Ok (Fin 10).
Proof. reflexivity. Qed.

Example float_of_150_percent : Py.float (Py.strip "150%" "%") = Ok (Fin 150).
Proof. reflexivity. Qed.

Example float_of_text : Py.float "ten" = Raise ValueError.
Proof. reflexivity. Qed.

Example float_of_decimal : Py.float " 12.5 " = Ok (Fin (125 / 10)).
Proof. reflexivity. Qed.

Example strip_both_ends : Py.strip "%%10%" "%" = "10".
Proof. reflexivity. Qed.

(** C5, as the code has it: [analyze_with_gpt] performs the call and hands
    back whatever value [json.loads] decodes from the reply's content,
    unchanged and unchecked, whichever fields it has; it raises only what
    the call or the decoder raises. *)
Theorem analyze_with_gpt_returns_decoded_reply
    (rt : Runtime) (self : Analyzer) (text : string) :
  fst (run (analyze_with_gpt rt self text)) =
  match chat_completion rt (chat_request_of self text) with
  | Raise e => Raise e
  | Ok content => json_loads rt content
  end.
Proof.
  unfold run. rewrite analyze_with_gpt_run. unfold synthesized.
  now destruct (chat_completion rt (chat_request_of self text)).
Qed.

(** C6, as the code has it: the synthesizer passes any decoded reply on.
    The report builder then reads [potential_savings]: when it is a string
    that [float] accepts once stripped of percent signs, the report is
    returned with the reply kept as it came and the savings computed from
    the value read, whatever that value; otherwise the exception of the
    lookup, of [strip] or of [float] ends the report. *)
Theorem potential_savings_is_not_validated
    (rt : Runtime) (self : Analyzer) (ai : json) :
  let summary := metrics_summary_of (df self) in
  synthesized rt self (summary_str rt summary) = Ok ai ->
  fst (run (analyze_with_gpt rt self (summary_str rt summary))) = Ok ai /\
  match savings_percent ai with
  | Ok pct =>
      exists report,
        fst (run (generate_insights_report rt self)) = Ok report /\
        ai_recommendations report = ai /\
        potential_annual_savings report = savings_of summary pct
  | Raise e => fst (run (generate_insights_report rt self)) = Raise e
  end.
Proof.
  intros summary Hs. split.
  - unfold run. rewrite analyze_with_gpt_run. exact Hs.
  - unfold run. rewrite generate_insights_report_run. cbv zeta.
    fold summary. rewrite Hs.
    destruct (savings_percent ai) as [pct|e]; [|reflexivity].
    eexists. repeat split.
Qed.

(** C8: two runs of [generate_insights_report] on the same frame, with the
    same reply from the synthesizer, end alike whatever the clock, the API
    key and the prior trace of each: both return a report, with equal
    [metrics_summary], anomaly count, recommendations and savings, or both
    raise the same exception. *)
Theorem report_is_reproducible
    (rt1 rt2 : Runtime) (self1 self2 : Analyzer) (tr1 tr2 : list event) :
  df self1 = df self2 ->
  synthesized rt1 self1 (summary_str rt1 (metrics_summary_of (df self1))) =
  synthesized rt2 self2 (summary_str rt2 (metrics_summary_of (df self2))) ->
  match fst (generate_insights_report rt1 self1 tr1),
        fst (generate_insights_report rt2 self2 tr2) with
  | Ok r1, Ok r2 =>
      metrics_summary r1 = metrics_summary r2 /\
      anomalies r1 = anomalies r2 /\
      ai_recommendations r1 = ai_recommendations r2 /\
      potential_annual_savings r1 = potential_annual_savings r2
  | Raise e1, Raise e2 => e1 = e2
  | _, _ => False
  end.
Proof.
  intros Hdf Hs. rewrite !generate_insights_report_run. cbv zeta.
  rewrite Hs, Hdf.
  destruct (synthesized rt2 self2 _) as [ai|e]; [|reflexivity].
  destruct (savings_percent ai) as [pct|e]; [|reflexivity].
  cbn. repeat split.
Qed.

(** C9, as the code has it: a run of [generate_insights_report] calls the
    chat completion service; when the reply decodes it writes the two
    chart files, and when the savings can be read it reads the clock.
    These are its events, in this order, and there are no others. *)
Theorem report_events (rt : Runtime) (self : Analyzer) :
  let text := summary_str rt (metrics_summary_of (df self)) in
  snd (run (generate_insights_report rt self)) =
  ChatCompletionCreate (chat_request_of self text) ::
  match synthesized rt self text with
  | Raise _ => []
  | Ok ai =>
      HtmlWritten "utilization_by_dept.html" (util_by_dept_figure (df self)) ::
      HtmlWritten "budget_trend.html" (budget_trend_figure (df self)) ::
      match savings_percent ai with
      | Raise _ => []
      | Ok _ => [ClockRead]
      end
  end.
Proof.
  intros text. unfold run. rewrite generate_insights_report_run. cbv zeta.
  fold text.
  destruct (synthesized rt self text) as [ai|e]; [|reflexivity].
  destruct (savings_percent ai) as [pct|e]; reflexivity.
Qed.

(* ================================================================== *)
(** * [groupby]: the keys of the groups *)

Section GroupKeys.

Context {K : Type} (cmp : K -> K -> comparison).

Hypothesis cmp_eq : forall x y, cmp x y = Eq <-> x = y.
Hypothesis cmp_antisym : forall x y, cmp y x = CompOpp (cmp x y).
Hypothesis cmp_trans : forall x y z, cmp x y = Lt -> cmp y z = Lt -> cmp x z = Lt.

Let before (x y : K) : Prop := cmp x y = Lt.

Lemma insert_key_In k l x : In x (insert_key cmp k l) <-> x = k \/ In x l.
Proof.
  induction l as [|a l IH]; simpl; [intuition|].
  destruct (cmp k a) eqn:E; simpl.
  - apply cmp_eq in E. subst a. intuition.
  - intuition.
  - rewrite IH. intuition.
Qed.

Lemma insert_key_HdRel a k l :
  before a k -> HdRel before a l -> HdRel before a (insert_key cmp k l).
Proof.
  intros Hak Hal. destruct l as [|b l]; simpl; [now constructor|].
  destruct (cmp k b); [assumption|now constructor|].
  inversion Hal; subst. now constructor.
Qed.

Lemma insert_key_Sorted k l :
  Sorted before l -> Sorted before (insert_key cmp k l).
Proof.
  induction 1 as [|a l Hs IH Hh]; simpl; [repeat constructor|].
  destruct (cmp k a) eqn:E.
  - now constructor.
  - constructor; [now constructor|now constructor].
  - constructor; [exact IH|].
    apply insert_key_HdRel; [|assumption].
    unfold before. rewrite cmp_antisym, E. reflexivity.
Qed.

Lemma group_keys_In l x : In x (group_keys cmp l) <-> In x l.
Proof.
  induction l as [|a l IH]; simpl; [tauto|].
  rewrite insert_key_In, IH. intuition.
Qed.

Lemma group_keys_Sorted l : Sorted before (group_keys cmp l).
Proof.
  induction l as [|a l IH]; simpl; [constructor|].
  now apply insert_key_Sorted.
Qed.

Lemma before_irrefl x : ~ before x x.
Proof.
  unfold before. intros H.
  assert (E : cmp x x = Eq) by now apply cmp_eq.
  congruence.
Qed.

Lemma Sorted_before_NoDup l : Sorted before l -> NoDup l.
Proof.
  intros H. apply Sorted_StronglySorted in H.
  - induction H as [|a l Hs IH Hall]; constructor; [|assumption].
    intros Hin. rewrite Forall_forall in Hall.
    exact (before_irrefl a (Hall a Hin)).
  - intros x y z. apply cmp_trans.
Qed.

Lemma group_keys_NoDup l : NoDup (group_keys cmp l).
Proof. apply Sorted_before_NoDup, group_keys_Sorted. Qed.

End GroupKeys.

Lemma ascii_compare_trans a b c :
  Ascii.compare a b = Lt -> Ascii.compare b c = Lt -> Ascii.compare a c = Lt.
Proof.
  unfold Ascii.compare. rewrite !N.compare_lt_iff. apply N.lt_trans.
Qed.

Lemma string_compare_trans x y z :
  String.compare x y = Lt -> String.compare y z = Lt -> String.compare x z = Lt.
Proof.
  revert y z. induction x as [|a x IH]; intros [|b y] [|c z]; simpl; try easy.
  destruct (Ascii.compare a b) eqn:Eab; try discriminate;
    destruct (Ascii.compare b c) eqn:Ebc; try discriminate; intros H1 H2.
  - apply Ascii.compare_eq_iff in Eab, Ebc. subst.
    assert (E : Ascii.compare c c = Eq).
    { pose proof (Ascii.compare_antisym c c) as H. destruct (Ascii.compare c c); easy. }
    rewrite E. now apply (IH y z).
  - apply Ascii.compare_eq_iff in Eab. subst. now rewrite Ebc.
  - apply Ascii.compare_eq_iff in Ebc. subst. now rewrite Eab.
  - now rewrite (ascii_compare_trans a b c).
Qed.

Lemma string_compare_eq x y : String.compare x y = Eq <-> x = y.
Proof.
  split; [apply String.compare_eq_iff|]. intros ->.
  pose proof (String.compare_antisym y y) as H.
  destruct (String.compare y y); easy.
Qed.

Lemma string_compare_antisym x y :
  String.compare y x = CompOpp (String.compare x y).
Proof. apply String.compare_antisym. Qed.

Lemma Z_compare_antisym (x y : Z) : Z.compare y x = CompOpp (Z.compare x y).
Proof. apply Z.compare_antisym. Qed.

Lemma Z_compare_trans (x y z : Z) :
  Z.compare x y = Lt -> Z.compare y z = Lt -> Z.compare x z = Lt.
Proof. rewrite !Z.compare_lt_iff. apply Z.lt_trans. Qed.

Lemma Z_compare_eq (x y : Z) : Z.compare x y = Eq <-> x = y.
Proof. apply Z.compare_eq_iff. Qed.



(* ================================================================== *)
(** * [forecast_resources] *)


Lemma mapM_raise_inv {A B} (f : A -> result B) (l : list A) e :
  mapM f l = Raise e -> exists x, In x l /\ f x = Raise e.
Proof.
  induction l as [|a l IH]; intros H; simpl in H; [discriminate|].
  destruct (f a) as [b|e'] eqn:Hfa; simpl in H.
  - destruct (mapM f l) as [ys|e''] eqn:Hl; simpl in H; [discriminate|].
    injection H as ->. destruct (IH eq_refl) as [x [Hx Hfx]].
    exists x. split; [now right|assumption].
  - injection H as ->. exists a. split; [now left|assumption].
Qed.


(** The loop stops at the first department whose body raises. *)
Lemma mapM_first_raise {A B} (f : A -> result B) (l : list A) x e :
  In x l -> f x = Raise e ->
  exists before y after e',
    l = before ++ y :: after /\
    (forall d, In d before -> exists v, f d = Ok v) /\
    f y = Raise e' /\
    mapM f l = Raise e'.
Proof.
  induction l as [|a l IH]; intros Hin Hf; [easy|].
  destruct (f a) as [v|e0] eqn:Hfa.
  - destruct Hin as [->|Hin]; [congruence|].
    destruct (IH Hin Hf) as [before [y [after [e' [Hl [Hok [Hy Hm]]]]]]].
    exists (a :: before), y, after, e'. repeat split.
    + simpl. now rewrite Hl.
    + intros d [<-|Hd]; [now exists v|now apply Hok].
    + exact Hy.
    + simpl. rewrite Hfa. simpl. now rewrite Hm.
  - exists [], a, l, e0. repeat split; [easy|exact Hfa|].
    simpl. now rewrite Hfa.
Qed.

Lemma forecast_department_fit P df dept :
  (forall e, forecast_department P df dept = Raise e <->
             fit P (df_prophet (dept_rows df dept)) = Raise e) /\
  ((exists v, forecast_department P df dept = Ok v) <->
   (exists model, fit P (df_prophet (dept_rows df dept)) = Ok model)).
Proof.
  unfold forecast_department.
  destruct (fit P (df_prophet (dept_rows df dept))) as [model|e0]; simpl; split.
  - intros e. split; discriminate.
  - split; intros _; eexists; reflexivity.
  - intros e. split; intros [= ->]; reflexivity.
  - split; intros [v Hv]; discriminate.
Qed.

(** C7, as the code has it: when [fit] raises for a department of the
    frame, [forecast_resources] raises too and returns no forecast at all.
    The exception is the one [fit] raises for the first department, in
    the order in which the departments first appear in the frame, whose
    fit fails: the departments before it were fitted, and their forecasts
    are lost. *)
Theorem forecast_resources_aborts_on_fit_failure
    (P : Prophet) (self : Analyzer) (dept : string) (e : exn) :
  In dept (map department (df self)) ->
  fit P (df_prophet (dept_rows (df self) dept)) = Raise e ->
  exists before first after e',
    unique (map department (df self)) = before ++ first :: after /\
    (forall d, In d before ->
       exists model, fit P (df_prophet (dept_rows (df self) d)) = Ok model) /\
    fit P (df_prophet (dept_rows (df self) first)) = Raise e' /\
    forecast_resources P self = Raise e'.
Proof.
  intros Hin Hfit. unfold forecast_resources.
  destruct (mapM_first_raise (forecast_department P (df self))
              (unique (map department (df self))) dept e)
    as [before [first [after [e' [Hl [Hok [Hy Hm]]]]]]].
  - now apply unique_In.
  - now apply forecast_department_fit.
  - exists before, first, after, e'. repeat split; try assumption.
    + intros d Hd. apply forecast_department_fit. now apply Hok.
    + now apply forecast_department_fit.
Qed.

(* ------------------------------------------------------------------ *)
(** ** The shape of a forecast under the contract of the specification *)



Lemma next_days_from_sorted last s n :
  Sorted Z.le (map (fun k => (last + Z.of_nat k)%Z) (seq s n)).
Proof.
  revert s; induction n as [|n IH]; intros s; simpl; [constructor|].
  constructor; [apply IH|].
  destruct n; simpl; constructor. lia.
Qed.










(* ================================================================== *)
(** * Runs on the example data *)

Lemma it_rows_anomaly_count :
  length (flat_map (dept_anomalies Demo.it_rows)
                   (unique (map department Demo.it_rows))) = 1%nat.
Proof.
  now rewrite it_rows_anomalies.
Qed.

Lemma it_rows_savings pct :
  savings_of (metrics_summary_of Demo.it_rows) (Fin pct) = Fin (215 * pct).
Proof.
  unfold savings_of, metrics_summary_of, avg_utilization, total_budget.
  cbn. unfold Reqb. destruct (Req_dec_T 10000 0) as [H|_]; [lra|].
  f_equal. field.
Qed.

(** The run of the report on the six-day frame with a reply [content]
    that decodes to [ai] and a percentage that reads as [pct]. *)
Lemma it_rows_report_run content ai pct :
  JsonText.loads content = Ok ai ->
  savings_percent ai = Ok (Fin pct) ->
  let self := Demo.analyzer Demo.it_rows in
  run (generate_insights_report (Demo.runtime content Demo.day) self) =
  (Ok {| metrics_summary := metrics_summary_of Demo.it_rows;
         ai_recommendations := ai;
         anomalies := 1;
         potential_annual_savings := Fin (215 * pct);
         analysis_date := Demo.day |},
   [ChatCompletionCreate (chat_request_of self "{...}");
    HtmlWritten "utilization_by_dept.html" (util_by_dept_figure Demo.it_rows);
    HtmlWritten "budget_trend.html" (budget_trend_figure Demo.it_rows);
    ClockRead]).
Proof.
  intros Hai Hpct self. unfold run. rewrite generate_insights_report_run. cbv zeta.
  unfold synthesized. cbn [Demo.runtime chat_completion json_loads summary_str rbind today].
  rewrite Hai, Hpct.
  cbn [df self Demo.analyzer]. rewrite it_rows_anomaly_count, it_rows_savings.
  reflexivity.
Qed.

(* ================================================================== *)
(** * The theorems at the example data *)

Lemma it_rows_keys_NoDup : NoDup (map row_key Demo.it_rows).
Proof.
  unfold Demo.it_rows, Demo.row, row_key. cbn [map department date].
  repeat (constructor; [cbn [In]; intuition congruence|]). constructor.
Qed.

(** C10 on the six-day frame, which has one row per day. *)
Lemma anomaly_value_is_table_value_witness :
  NoDup (map row_key Demo.it_rows) /\
  exists out,
    detect_anomalies Demo.it_rows = Ok out /\
    forall a, In a out ->
      (exists r, In r Demo.it_rows /\ department r = anomaly_department a /\
                 date r = anomaly_date a) /\
      (forall r, In r Demo.it_rows -> department r = anomaly_department a ->
                 date r = anomaly_date a ->
                 anomaly_value a = cell (anomaly_metric a) r).
Proof.
  split; [exact it_rows_keys_NoDup|].
  exact (anomaly_value_is_table_value Demo.it_rows it_rows_keys_NoDup).
Defined.

(** Without the key, the value may be that of another row: with two rows
    of one department on day 1, the flagged row holds 10 and the anomaly
    carries the 75 of the row before it. *)
Example duplicated_date_value :
  exists out,
    detect_anomalies Demo.duplicated_date = Ok out /\
    anomalies_for "IT" ResourceUtilization out =
    [ {| anomaly_department := "IT"; anomaly_date := 1%Z;
         anomaly_metric := ResourceUtilization; anomaly_value := 75 |} ].
Proof.
  destruct (detect_anomalies_for Demo.duplicated_date "IT" ResourceUtilization)
    as [out [Hout Hfor]].
  exists out. split; [exact Hout|]. rewrite Hfor.
  change (dept_rows Demo.duplicated_date "IT") with Demo.duplicated_date.
  assert (Hmean : Spec.sample_mean (column ResourceUtilization Demo.duplicated_date) = 385 / 6)
    by (unfold Spec.sample_mean; simpl; field).
  assert (Hvar : sum_sq_dev (column ResourceUtilization Demo.duplicated_date) (385 / 6) / INR 5
                 = 21125 / 30)
    by (unfold sum_sq_dev; simpl; field).
  assert (Hstd : Spec.sample_std (column ResourceUtilization Demo.duplicated_date) <> 0).
  { unfold Spec.sample_std. rewrite Hmean.
    change (length (column ResourceUtilization Demo.duplicated_date) - 1)%nat with 5%nat.
    rewrite Hvar. apply Rgt_not_eq, sqrt_lt_R0. lra. }
  unfold flagged_rows.
  rewrite (filter_ext _ (fun r => Rltb (4 * (21125 / 30))
             ((cell ResourceUtilization r - 385 / 6) * (cell ResourceUtilization r - 385 / 6)))).
  - unfold Demo.duplicated_date, Demo.row.
    cbn [filter cell resource_utilization]. decide_Rltb. reflexivity.
  - intros r. rewrite is_anomaly_spec by exact Hstd.
    rewrite flagged_by_squares; rewrite Hmean;
      change (length (column ResourceUtilization Demo.duplicated_date) - 1)%nat with 5%nat;
      rewrite Hvar; [reflexivity|lra].
Qed.

Lemma savings_percent_full : savings_percent Demo.full_recommendations = Ok (Fin 10).
Proof. reflexivity. Qed.

Lemma savings_percent_partial :
  savings_percent Demo.partial_recommendations = Ok (Fin 10).
Proof. reflexivity. Qed.

Lemma savings_percent_out_of_range :
  savings_percent Demo.out_of_range_recommendations = Ok (Fin 150).
Proof. reflexivity. Qed.

(** C5, as the code has it, at the complete reply. *)
Lemma analyze_with_gpt_returns_decoded_reply_witness :
  let rt := Demo.runtime Demo.full_reply Demo.day in
  let self := Demo.analyzer Demo.it_rows in
  chat_completion rt (chat_request_of self "{...}") = Ok Demo.full_reply /\
  json_loads rt Demo.full_reply = Ok Demo.full_recommendations /\
  fst (run (analyze_with_gpt rt self "{...}")) = Ok Demo.full_recommendations.
Proof.
  cbv zeta. split; [reflexivity|]. split; [exact full_reply_decoded|].
  rewrite analyze_with_gpt_returns_decoded_reply. exact full_reply_decoded.
Defined.

(** C5 at a reply without [priority_actions]: no exception; the object is
    returned with three of the four fields, and the report is built on it. *)
Lemma partial_reply_is_returned :
  let rt := Demo.runtime Demo.partial_reply Demo.day in
  let self := Demo.analyzer Demo.it_rows in
  fst (run (analyze_with_gpt rt self "{...}")) = Ok Demo.partial_recommendations /\
  getitem Demo.partial_recommendations "priority_actions" =
    Raise (KeyError "priority_actions") /\
  exists report,
    fst (run (generate_insights_report rt self)) = Ok report /\
    ai_recommendations report = Demo.partial_recommendations.
Proof.
  cbv zeta. split; [|split].
  - unfold run. rewrite analyze_with_gpt_run. unfold synthesized. cbn.
    exact partial_reply_decoded.
  - reflexivity.
  - pose proof (it_rows_report_run _ _ 10 partial_reply_decoded savings_percent_partial) as Hrun.
    cbv zeta in Hrun. rewrite Hrun. eexists. split; reflexivity.
Qed.

(** C6, as the code has it, at the complete reply. *)
Lemma potential_savings_is_not_validated_witness :
  let rt := Demo.runtime Demo.full_reply Demo.day in
  let self := Demo.analyzer Demo.it_rows in
  synthesized rt self (summary_str rt (metrics_summary_of (df self))) =
    Ok Demo.full_recommendations /\
  exists report,
    fst (run (generate_insights_report rt self)) = Ok report /\
    ai_recommendations report = Demo.full_recommendations /\
    potential_annual_savings report = Fin 2150.
Proof.
  cbv zeta.
  assert (H : synthesized (Demo.runtime Demo.full_reply Demo.day)
                (Demo.analyzer Demo.it_rows)
                (summary_str (Demo.runtime Demo.full_reply Demo.day)
                   (metrics_summary_of (df (Demo.analyzer Demo.it_rows)))) =
              Ok Demo.full_recommendations)
    by exact full_reply_decoded.
  split; [exact H|].
  destruct (potential_savings_is_not_validated _ _ _ H) as [_ Hr].
  rewrite savings_percent_full in Hr. destruct Hr as [report [Hrun [Hai Hs]]].
  exists report. split; [exact Hrun|]. split; [exact Hai|].
  rewrite Hs. change (df (Demo.analyzer Demo.it_rows)) with Demo.it_rows.
  rewrite it_rows_savings. f_equal. lra.
Defined.

(** C6 at a reply of 150 percent: no exception; the report keeps the reply
    and its savings are computed from 150. *)
Lemma out_of_range_savings_are_used :
  let rt := Demo.runtime Demo.out_of_range_reply Demo.day in
  let self := Demo.analyzer Demo.it_rows in
  fst (run (analyze_with_gpt rt self "{...}")) = Ok Demo.out_of_range_recommendations /\
  exists report,
    fst (run (generate_insights_report rt self)) = Ok report /\
    getitem (ai_recommendations report) "potential_savings" = Ok (JString "150%") /\
    potential_annual_savings report = Fin (215 * 150).
Proof.
  cbv zeta. split.
  - unfold run. rewrite analyze_with_gpt_run. unfold synthesized. cbn.
    exact out_of_range_reply_decoded.
  - pose proof (it_rows_report_run _ _ 150 out_of_range_reply_decoded
                  savings_percent_out_of_range) as Hrun.
    cbv zeta in Hrun. rewrite Hrun. eexists. repeat split.
Qed.

(** C8 at two runs that differ in the day, the API key and the prior
    trace. *)
Lemma report_is_reproducible_witness :
  let rt1 := Demo.runtime Demo.full_reply "2024-06-30" in
  let rt2 := Demo.runtime Demo.full_reply "2024-07-01" in
  let self1 := {| api_key := "key-1"; df := Demo.it_rows |} in
  let self2 := {| api_key := "key-2"; df := Demo.it_rows |} in
  df self1 = df self2 /\
  synthesized rt1 self1 (summary_str rt1 (metrics_summary_of (df self1))) =
  synthesized rt2 self2 (summary_str rt2 (metrics_summary_of (df self2))) /\
  match fst (generate_insights_report rt1 self1 []),
        fst (generate_insights_report rt2 self2 [ClockRead]) with
  | Ok r1, Ok r2 =>
      metrics_summary r1 = metrics_summary r2 /\
      anomalies r1 = anomalies r2 /\
      ai_recommendations r1 = ai_recommendations r2 /\
      potential_annual_savings r1 = potential_annual_savings r2
  | Raise e1, Raise e2 => e1 = e2
  | _, _ => False
  end.
Proof.
  cbv zeta. split; [reflexivity|]. split; [reflexivity|].
  apply report_is_reproducible; reflexivity.
Defined.

(** C9 at the six-day frame: the run calls the service, writes both chart
    files and reads the clock. *)
Lemma report_run_writes_files :
  snd (run (generate_insights_report (Demo.runtime Demo.full_reply Demo.day)
                                     (Demo.analyzer Demo.it_rows))) =
  [ChatCompletionCreate (chat_request_of (Demo.analyzer Demo.it_rows) "{...}");
   HtmlWritten "utilization_by_dept.html" (util_by_dept_figure Demo.it_rows);
   HtmlWritten "budget_trend.html" (budget_trend_figure Demo.it_rows);
   ClockRead].
Proof.
  pose proof (it_rows_report_run _ _ 10 full_reply_decoded savings_percent_full) as Hrun.
  cbv zeta in Hrun. now rewrite Hrun.
Qed.





Lemma three_departments_unique :
  unique (map department (df (Demo.analyzer Trial.three_departments))) =
  ["IT"; "HR"; "Sales"].
Proof. reflexivity. Qed.

(** C7, as the code has it, at the frame with three departments of which
    the second and the third cannot be fitted: the exception raised is
    that of the second, HR. *)
Lemma forecast_resources_aborts_on_fit_failure_witness :
  let self := Demo.analyzer Trial.three_departments in
  fit Trial.strict_prophet (df_prophet (dept_rows (df self) "Sales")) =
    Raise (ProphetError "Too few rows for the seasonalities.") /\
  forecast_resources Trial.strict_prophet self =
    Raise (ProphetError "Dataframe has less than 2 non-NaN rows.").
Proof.
  cbv zeta.
  assert (Hsales : fit Trial.strict_prophet
                     (df_prophet (dept_rows (df (Demo.analyzer Trial.three_departments))
                                            "Sales")) =
                   Raise (ProphetError "Too few rows for the seasonalities."))
    by reflexivity.
  split; [exact Hsales|].
  destruct (forecast_resources_aborts_on_fit_failure Trial.strict_prophet
              (Demo.analyzer Trial.three_departments) "Sales"
              (ProphetError "Too few rows for the seasonalities."))
    as [before [first [after [e' [Hl [Hok [Hfirst Hraise]]]]]]];
    [cbn; tauto|exact Hsales|].
  rewrite Hraise. f_equal.
  rewrite three_departments_unique in Hl.
  assert (Hit : forall e, fit Trial.strict_prophet
                  (df_prophet (dept_rows (df (Demo.analyzer Trial.three_departments))
                                         "IT")) <> Raise e)
    by (intros e He; discriminate He).
  assert (Hhr : fit Trial.strict_prophet
                  (df_prophet (dept_rows (df (Demo.analyzer Trial.three_departments))
                                         "HR")) =
                Raise (ProphetError "Dataframe has less than 2 non-NaN rows."))
    by reflexivity.
  destruct before as [|b0 [|b1 before]].
  - injection Hl as <- _. exfalso. exact (Hit e' Hfirst).
  - injection Hl as _ <- _. rewrite Hhr in Hfirst. now injection Hfirst.
  - injection Hl as _ <- _. exfalso.
    destruct (Hok "HR") as [model Hm]; [right; now left|].
    rewrite Hhr in Hm. discriminate Hm.
Defined.

(** C7 at the frame with three departments: the fit of the first, IT,
    succeeds, those of HR and of Sales raise, each its own exception; no
    forecast is returned, that of IT included, and the exception is that
    of HR. *)
Lemma fit_failure_discards_every_forecast :
  let self := Demo.analyzer Trial.three_departments in
  (exists model,
     fit Trial.strict_prophet (df_prophet (dept_rows (df self) "IT")) = Ok model) /\
  fit Trial.strict_prophet (df_prophet (dept_rows (df self) "HR")) =
    Raise (ProphetError "Dataframe has less than 2 non-NaN rows.") /\
  fit Trial.strict_prophet (df_prophet (dept_rows (df self) "Sales")) =
    Raise (ProphetError "Too few rows for the seasonalities.") /\
  forecast_resources Trial.strict_prophet self =
    Raise (ProphetError "Dataframe has less than 2 non-NaN rows.").
Proof.
  cbv zeta. split; [eexists; reflexivity|]. repeat split; reflexivity.
Qed.

(* ================================================================== *)
(** * More on [detect_anomalies]: how many rows can be flagged *)







(** One key of a duplicate-free list of keys matches a given key. *)
Lemma flat_map_ext_In {A B} (f g : A -> list B) (l : list A) :
  (forall x, In x l -> f x = g x) -> flat_map f l = flat_map g l.
Proof.
  induction l as [|x l IH]; intros H; simpl; [reflexivity|].
  rewrite (H x) by now left. f_equal. apply IH. intros; apply H; now right.
Qed.

(** X2: the anomalies come grouped: department after department in the
    order in which the departments first appear in the frame, within a
    department staff hours, then budget, then utilization, and within a
    metric in the order of the rows. *)
Theorem detect_anomalies_grouped (df : DataFrame) :
  exists out,
    detect_anomalies df = Ok out /\
    out = flat_map (fun dept =>
                      anomalies_for dept StaffHours out ++
                      anomalies_for dept BudgetSpent out ++
                      anomalies_for dept ResourceUtilization out)
                   (unique (map department df)) /\
    (forall dept m,
       map anomaly_date (anomalies_for dept m out) =
       map date (flagged_rows (dept_rows df dept) m)).
Proof.
  eexists. split; [apply detect_anomalies_eq|].
  set (out := flat_map (dept_anomalies df) (unique (map department df))).
  assert (Hfor : forall dept m, anomalies_for dept m out =
            map (anomaly_of dept (dept_rows df dept) m) (flagged_rows (dept_rows df dept) m)).
  { intros dept m. destruct (detect_anomalies_for df dept m) as [out' [Hout Hfor]].
    rewrite detect_anomalies_eq in Hout. injection Hout as <-. exact Hfor. }
  split.
  - unfold out at 1. apply flat_map_ext_In. intros dept _.
    rewrite !Hfor. unfold dept_anomalies. cbn [flat_map]. now rewrite app_nil_r.
  - intros dept m. rewrite Hfor, map_map. reflexivity.
Qed.

Lemma filter_head_split {A} (p : A -> bool) (l : list A) x rest :
  filter p l = x :: rest ->
  exists before after,
    l = before ++ x :: after /\ p x = true /\ forall y, In y before -> p y = false.
Proof.
  induction l as [|a l IH]; intros H; [discriminate|].
  simpl in H. destruct (p a) eqn:E.
  - injection H as -> _. exists [], l. repeat split; [assumption|easy].
  - destruct (IH H) as [before [after [-> [Hx Hb]]]].
    exists (a :: before), after. repeat split; [assumption|].
    intros y [<-|Hy]; [assumption|now apply Hb].
Qed.

Lemma date_rows_dept_rows df dept d :
  date_rows (dept_rows df dept) d =
  filter (fun r => String.eqb (department r) dept && Z.eqb (date r) d) df.
Proof.
  unfold date_rows, dept_rows. induction df as [|r df IH]; simpl; [reflexivity|].
  destruct (String.eqb (department r) dept); simpl; [|exact IH].
  destruct (Z.eqb (date r) d); now rewrite IH.
Qed.

(** The row an anomaly's value is read from. *)
Lemma anomaly_first_row (df : DataFrame) out a :
  detect_anomalies df = Ok out -> In a out ->
  exists before r after,
    df = before ++ r :: after /\
    department r = anomaly_department a /\
    date r = anomaly_date a /\
    anomaly_value a = cell (anomaly_metric a) r /\
    forall r', In r' before ->
      ~ (department r' = anomaly_department a /\ date r' = anomaly_date a).
Proof.
  intros Hout Ha.
  destruct (detect_anomalies_origin df _ a Hout Ha) as [r [Hr Ea]].
  set (dept := anomaly_department a) in *. set (m := anomaly_metric a) in *.
  apply filter_In in Hr as [Hr _].
  assert (Hin : In r (date_rows (dept_rows df dept) (date r)))
    by (apply date_rows_In; split; [assumption|reflexivity]).
  assert (Hdate : anomaly_date a = date r) by (rewrite Ea; reflexivity).
  assert (Hval : anomaly_value a =
                 cell m (hd r (date_rows (dept_rows df dept) (date r))))
    by (rewrite Ea; reflexivity).
  destruct (date_rows (dept_rows df dept) (date r)) as [|r0 rest] eqn:E; [easy|].
  rewrite date_rows_dept_rows in E.
  destruct (filter_head_split _ _ _ _ E) as [before [after [Hdf [Hp Hb]]]].
  apply andb_true_iff in Hp as [Hd0 Ht0].
  apply String.eqb_eq in Hd0. apply Z.eqb_eq in Ht0.
  exists before, r0, after. repeat split; try assumption; try congruence.
  intros r' Hr' [Hd' Ht']. specialize (Hb r' Hr').
  rewrite Hd', Ht', Hdate, String.eqb_refl, Z.eqb_refl in Hb. discriminate.
Qed.

(** X3: on every frame, also one where a department has several rows on a
    date, [detect_anomalies] returns, and the value of each anomaly is read
    from the first row of the frame that has the anomaly's department and
    date. *)
Theorem anomaly_value_is_first_row_value (df : DataFrame) :
  exists out,
    detect_anomalies df = Ok out /\
    forall a, In a out ->
      exists before r after,
        df = before ++ r :: after /\
        department r = anomaly_department a /\
        date r = anomaly_date a /\
        anomaly_value a = cell (anomaly_metric a) r /\
        forall r', In r' before ->
          ~ (department r' = anomaly_department a /\ date r' = anomaly_date a).
Proof.
  eexists. split; [apply detect_anomalies_eq|]. intros a Ha.
  exact (anomaly_first_row df _ a (detect_anomalies_eq df) Ha).
Qed.

(** X4: the anomalies of a department depend on the rows of that
    department only. *)
Theorem anomalies_depend_on_own_department
    (df1 df2 : DataFrame) (dept : string) (m : Metric) :
  dept_rows df1 dept = dept_rows df2 dept ->
  exists out1 out2,
    detect_anomalies df1 = Ok out1 /\
    detect_anomalies df2 = Ok out2 /\
    anomalies_for dept m out1 = anomalies_for dept m out2.
Proof.
  intros H.
  destruct (detect_anomalies_for df1 dept m) as [out1 [H1 F1]].
  destruct (detect_anomalies_for df2 dept m) as [out2 [H2 F2]].
  exists out1, out2. repeat split; try assumption.
  now rewrite F1, F2, H.
Qed.

(* ================================================================== *)
(** * The aggregates of the report *)

Lemma department_keys_facts (df : DataFrame) :
  let keys := group_keys String.compare (map department df) in
  Sorted name_before keys /\ NoDup keys /\
  (forall d, In d keys <-> In d (map department df)).
Proof.
  cbv zeta. split; [|split].
  - apply (group_keys_Sorted String.compare string_compare_antisym).
  - apply (group_keys_NoDup String.compare string_compare_eq string_compare_antisym
                            string_compare_trans).
  - intros d. apply (group_keys_In String.compare string_compare_eq).
Qed.

(** X6: the per-department dictionaries of the summary have the same
    keys: every department of the frame once, in increasing order of name,
    and nothing else. *)
Theorem department_metrics_keys (df : DataFrame) :
  let summary := metrics_summary_of df in
  let dm := department_metrics summary in
  let keys := map fst (dm_budget_spent dm) in
  map fst (dm_resource_utilization dm) = keys /\
  map fst (dm_productivity_score dm) = keys /\
  Sorted name_before keys /\
  NoDup keys /\
  (forall d, In d keys <-> In d (map department df)).
Proof.
  cbv zeta. unfold metrics_summary_of, department_metrics_of.
  cbn [department_metrics dm_budget_spent dm_resource_utilization
       dm_productivity_score total_budget].
  rewrite !map_map. cbn [fst snd]. rewrite !map_id.
  destruct (department_keys_facts df) as [Hs [Hnd Hin]].
  repeat split; try assumption; apply Hin.
Qed.

(** X7: the budget trend chart has one point per distinct date of the
    frame, in increasing order of date. *)
Theorem budget_trend_points (df : DataFrame) :
  exists title points,
    budget_trend_figure df = LinePlot title points /\
    Sorted day_before (map fst points) /\
    NoDup (map fst points) /\
    (forall d, In d (map fst points) <-> In d (map date df)).
Proof.
  unfold budget_trend_figure. do 2 eexists. split; [reflexivity|].
  rewrite !map_map. cbn [fst snd]. rewrite map_id.
  assert (Hin : forall d, In d (group_keys Z.compare (map date df)) <-> In d (map date df))
    by (intros d; apply (group_keys_In Z.compare Z_compare_eq)).
  assert (Hnd : NoDup (group_keys Z.compare (map date df)))
    by (apply (group_keys_NoDup Z.compare Z_compare_eq Z_compare_antisym Z_compare_trans)).
  repeat split; try assumption; try apply Hin.
  apply (group_keys_Sorted Z.compare Z_compare_antisym).
Qed.

(* ================================================================== *)
(** * More on [generate_insights_report] *)

Lemma report_fields rt self report tr :
  run (generate_insights_report rt self) = (Ok report, tr) ->
  metrics_summary report = metrics_summary_of (df self) /\
  (exists pct, savings_percent (ai_recommendations report) = Ok pct /\
               potential_annual_savings report = savings_of (metrics_summary_of (df self)) pct) /\
  anomalies report =
    length (flat_map (dept_anomalies (df self)) (unique (map department (df self)))) /\
  analysis_date report = today rt.
Proof.
  unfold run. rewrite generate_insights_report_run. cbv zeta.
  destruct (synthesized rt self _) as [ai|e]; [|discriminate].
  destruct (savings_percent ai) as [pct|e] eqn:Hp; [|discriminate].
  intros [= <- _]. cbn. repeat split. now exists pct.
Qed.

(** X9: when the decoded reply lacks a usable [potential_savings], the
    report fails only after the service was called and both chart files
    were written: with [TypeError] when the reply is not an object, with
    [KeyError] when the object has no such key, with [AttributeError] when
    the value is not a string, and with [ValueError] when [float] rejects
    the string. *)
Theorem report_fails_after_writing_files
    (rt : Runtime) (self : Analyzer) (ai : json) :
  let text := summary_str rt (metrics_summary_of (df self)) in
  let written :=
    [ChatCompletionCreate (chat_request_of self text);
     HtmlWritten "utilization_by_dept.html" (util_by_dept_figure (df self));
     HtmlWritten "budget_trend.html" (budget_trend_figure (df self))] in
  let out := run (generate_insights_report rt self) in
  synthesized rt self text = Ok ai ->
  ((forall d, ai <> JObject d) -> out = (Raise TypeError, written)) /\
  (forall d, ai = JObject d -> dict_get d "potential_savings" = None ->
     out = (Raise (KeyError "potential_savings"), written)) /\
  (forall d v, ai = JObject d -> dict_get d "potential_savings" = Some v ->
     (forall s, v <> JString s) -> out = (Raise AttributeError, written)) /\
  (forall d s, ai = JObject d -> dict_get d "potential_savings" = Some (JString s) ->
     Py.float (Py.strip s "%") = Raise ValueError ->
     out = (Raise ValueError, written)).
Proof.
  intros text written out Hs. unfold out, run.
  rewrite generate_insights_report_run. cbv zeta. fold text. rewrite Hs.
  cbn [app]. fold written.
  repeat split.
  - intros Hno. destruct ai; try reflexivity. now contradiction (Hno fields).
  - intros d -> Hd. unfold savings_percent, getitem. now rewrite Hd.
  - intros d v -> Hd Hv. unfold savings_percent, getitem. rewrite Hd. cbn [rbind].
    destruct v; try reflexivity. now contradiction (Hv s).
  - intros d s -> Hd Hf. unfold savings_percent, getitem. rewrite Hd. cbn [rbind method_strip].
    now rewrite Hf.
Qed.

(** X10: on an empty frame the report, when it is returned, has a nan
    average utilization and nan savings whatever the percentage, a total
    budget of zero, no anomaly, and charts without points. *)
Theorem report_on_empty_frame
    (rt : Runtime) (self : Analyzer) (report : Report) (tr : list event) :
  df self = [] ->
  run (generate_insights_report rt self) = (Ok report, tr) ->
  avg_utilization (metrics_summary report) = NaN /\
  total_budget (metrics_summary report) = Fin 0 /\
  productivity_correlation (metrics_summary report) = NaN /\
  potential_annual_savings report = NaN /\
  anomalies report = 0%nat /\
  In (HtmlWritten "utilization_by_dept.html"
                  (BoxPlot "Resource Utilization by Department" [])) tr /\
  In (HtmlWritten "budget_trend.html" (LinePlot "Budget Trend Over Time" [])) tr.
Proof.
  intros Hdf Hrun.
  destruct (report_fields _ _ _ _ Hrun) as [Hm [[pct [_ Hs]] [Ha _]]].
  assert (Htr : tr =
    [ChatCompletionCreate (chat_request_of self (summary_str rt (metrics_summary_of [])));
     HtmlWritten "utilization_by_dept.html" (util_by_dept_figure []);
     HtmlWritten "budget_trend.html" (budget_trend_figure []);
     ClockRead]).
  { unfold run in Hrun. rewrite generate_insights_report_run in Hrun. cbv zeta in Hrun.
    destruct (synthesized rt self _); [|discriminate].
    destruct (savings_percent a); [|discriminate].
    injection Hrun as _ <-. rewrite Hdf. reflexivity. }
  rewrite Hm, Hs, Ha, Hdf, Htr.
  split; [reflexivity|]. split; [reflexivity|]. split; [reflexivity|].
  split; [unfold savings_of; cbn; now destruct pct|].
  split; [reflexivity|].
  split; cbn; tauto.
Qed.


Section CauchySchwarz.

Variable l : list (R * R).
Variables mx my : R.

Let A := Rsum (map (fun p => (fst p - mx) * (fst p - mx)) l).
Let B := Rsum (map (fun p => (fst p - mx) * (snd p - my)) l).
Let C := Rsum (map (fun p => (snd p - my) * (snd p - my)) l).

Lemma quadratic_nonneg (t : R) : 0 <= A * (t * t) + 2 * B * t + C.
Proof.
  unfold A, B, C. clear A B C. induction l as [|[x y] l' IH]; simpl; [lra|].
  pose proof (Rle_0_sqr ((x - mx) * t + (y - my))) as H. unfold Rsqr in H.
  lra.
Qed.

Lemma devs_nonneg : 0 <= A /\ 0 <= C.
Proof.
  split; apply Rsum_nonneg; intros v Hv; apply in_map_iff in Hv as [p [<- _]];
    apply Rle_0_sqr.
Qed.

Lemma cauchy_schwarz : B * B <= A * C.
Proof.
  destruct devs_nonneg as [HA HC].
  destruct (Req_dec_T A 0) as [HA0|HA0].
  - assert (HB : B = 0).
    { destruct (Req_dec_T B 0) as [|HB]; [assumption|exfalso].
      pose proof (quadratic_nonneg (- (C + 1) / (2 * B))) as H.
      rewrite HA0 in H.
      replace (0 * (- (C + 1) / (2 * B) * (- (C + 1) / (2 * B))) +
               2 * B * (- (C + 1) / (2 * B)) + C) with (-1) in H by (field; assumption).
      lra. }
    rewrite HA0, HB. lra.
  - assert (HApos : 0 < A) by lra.
    pose proof (quadratic_nonneg (- B / A)) as H.
    replace (A * (- B / A * (- B / A)) + 2 * B * (- B / A) + C)
      with ((A * C - B * B) / A) in H by (field; assumption).
    assert (0 <= (A * C - B * B) / A * A) by (apply Rmult_le_pos; lra).
    replace ((A * C - B * B) / A * A) with (A * C - B * B) in * by (field; assumption).
    lra.
Qed.

End CauchySchwarz.

Lemma combine_map_fst_snd {X Y} (l : list (X * Y)) :
  combine (map fst l) (map snd l) = l.
Proof. induction l as [|[x y] l IH]; simpl; [reflexivity|now rewrite IH]. Qed.

(** The correlation of two columns of a frame is nan or lies in [-1, 1]. *)
Lemma corr_range {T} (f g : T -> R) (rows : list T) :
  corr (map f rows) (map g rows) = NaN \/
  exists c, corr (map f rows) (map g rows) = Fin c /\ -1 <= c <= 1.
Proof.
  unfold corr. rewrite !length_map.
  destruct (length rows <=? 1)%nat; [now left|].
  set (mx := Rsum (map f rows) / INR (length rows)).
  set (my := Rsum (map g rows) / INR (length rows)).
  unfold sum_co_dev, sum_sq_dev.
  pose (l := map (fun r => (f r, g r)) rows).
  assert (Hf : map f rows = map fst l) by (unfold l; rewrite map_map; reflexivity).
  assert (Hg : map g rows = map snd l) by (unfold l; rewrite map_map; reflexivity).
  rewrite Hf, Hg, combine_map_fst_snd, !map_map.
  pose proof (cauchy_schwarz l mx my) as HCS.
  destruct (devs_nonneg l mx my) as [HA HC].
  set (A := Rsum (map (fun p => (fst p - mx) * (fst p - mx)) l)) in *.
  set (B := Rsum (map (fun p => (fst p - mx) * (snd p - my)) l)) in *.
  set (C := Rsum (map (fun p => (snd p - my) * (snd p - my)) l)) in *.
  cbn [ndiv]. unfold Reqb.
  destruct (Req_dec_T (sqrt A * sqrt C) 0) as [HD|HD].
  - left. assert (HAC : A * C = 0).
    { apply Rmult_integral in HD. destruct HD as [H|H];
        apply sqrt_eq_0 in H; try assumption; rewrite H; lra. }
    assert (HB' : B = 0).
    { rewrite HAC in HCS. pose proof (Rle_0_sqr B) as H. unfold Rsqr in H.
      assert (HBB : B * B = 0) by lra.
      apply Rmult_integral in HBB. destruct HBB; assumption. }
    rewrite HB'. unfold signed_inf, Reqb. destruct (Req_dec_T 0 0); [reflexivity|lra].
  - right. eexists. split; [reflexivity|].
    assert (HDpos : 0 < sqrt A * sqrt C).
    { pose proof (sqrt_pos A). pose proof (sqrt_pos C).
      assert (0 <= sqrt A * sqrt C) by (apply Rmult_le_pos; assumption). lra. }
    assert (Habs : Rabs B <= sqrt A * sqrt C).
    { rewrite <- sqrt_mult by assumption. rewrite <- sqrt_Rsqr_abs.
      apply sqrt_le_1_alt. unfold Rsqr. exact HCS. }
    assert (Hq : Rabs (B / (sqrt A * sqrt C)) <= 1).
    { unfold Rdiv. rewrite Rabs_mult, Rabs_inv, (Rabs_pos_eq (sqrt A * sqrt C)) by lra.
      apply (Rmult_le_reg_r (sqrt A * sqrt C)); [assumption|].
      rewrite Rmult_assoc, Rinv_l by lra. lra. }
    unfold Rabs in Hq. destruct (Rcase_abs (B / (sqrt A * sqrt C))); lra.
Qed.

(** X12: the correlation between utilization and productivity in the
    summary is nan or a number between -1 and 1; with fewer than two rows
    it is nan. *)
Theorem productivity_correlation_range (df : DataFrame) :
  let c := productivity_correlation (metrics_summary_of df) in
  (c = NaN \/ exists x, c = Fin x /\ -1 <= x <= 1) /\
  ((length df <= 1)%nat -> c = NaN).
Proof.
  cbv zeta. cbn [metrics_summary_of productivity_correlation]. split.
  - apply corr_range.
  - intros H. unfold corr. rewrite length_map.
    apply Nat.leb_le in H. now rewrite H.
Qed.

(* ================================================================== *)
(** * The frame [generate_sample_data] builds *)

Lemma dates_length : length dates = 365%nat.
Proof. reflexivity. Qed.

Lemma date_range_In start stop d :
  In d (date_range start stop) <-> (start <= d <= stop)%Z.
Proof.
  unfold date_range. rewrite in_map_iff. split.
  - intros [i [<- Hi]]. apply in_seq in Hi. lia.
  - intros H. exists (Z.to_nat (d - start)). split; [lia|]. apply in_seq. lia.
Qed.

Lemma NoDup_map_injective {A B} (f : A -> B) (l : list A) :
  (forall x y, In x l -> In y l -> f x = f y -> x = y) ->
  NoDup l -> NoDup (map f l).
Proof.
  intros Hinj. induction 1 as [|a l Hnotin Hnd IH]; simpl; constructor.
  - intros H. apply in_map_iff in H as [y [Hy Hin]].
    apply Hnotin. rewrite (Hinj a y); [assumption|now left|now right|now symmetry].
  - apply IH. intros x y Hx Hy. apply Hinj; now right.
Qed.

Lemma date_range_NoDup start stop : NoDup (date_range start stop).
Proof.
  unfold date_range. apply NoDup_map_injective; [|apply seq_NoDup].
  intros i j _ _ H. lia.
Qed.

Lemma date_range_Sorted start stop : Sorted Z.le (date_range start stop).
Proof. unfold date_range. apply next_days_from_sorted. Qed.

(** The rows built for one department. *)
Lemma sample_block_dates draws dept :
  map date (map (fun p => sample_row draws dept (fst p) (snd p))
                (combine (seq 0 (length dates)) dates)) = dates.
Proof.
  rewrite map_map. cbn [sample_row date].
  assert (H : forall (l : list timestamp) s,
             map (fun p : nat * timestamp => snd p) (combine (seq s (length l)) l) = l).
  { induction l as [|d l IH]; intros s; simpl; [reflexivity|]. now rewrite IH. }
  apply H.
Qed.

Lemma sample_block_department draws dept r :
  In r (map (fun p => sample_row draws dept (fst p) (snd p))
            (combine (seq 0 (length dates)) dates)) ->
  department r = dept.
Proof. intros H. apply in_map_iff in H as [p [<- _]]. reflexivity. Qed.

(** The slice of a department in a frame made of one block per department. *)
Lemma dept_rows_blocks (block : string -> DataFrame) (ks : list string) dept :
  (forall k r, In r (block k) -> department r = k) ->
  NoDup ks -> In dept ks ->
  dept_rows (flat_map block ks) dept = block dept.
Proof.
  intros Hblock. induction 1 as [|k ks Hnotin Hnd IH]; intros Hin; [easy|].
  cbn [flat_map]. unfold dept_rows in *. rewrite filter_app.
  assert (Hself : forall k', filter (fun r => String.eqb (department r) k') (block k') = block k').
  { intros k'. apply forallb_filter_id. apply forallb_forall. intros r Hr.
    apply String.eqb_eq. now apply Hblock. }
  assert (Hother : forall k' l, ~ In dept l -> In k' l ->
            filter (fun r => String.eqb (department r) dept) (block k') = []).
  { intros k' l Hn Hk. apply filter_none. intros r Hr.
    apply String.eqb_neq. rewrite (Hblock k' r Hr). intros ->. contradiction. }
  destruct (string_dec k dept) as [->|Hne].
  - rewrite Hself.
    assert (E : filter (fun r => String.eqb (department r) dept) (flat_map block ks) = []).
    { apply filter_none. intros r Hr. apply in_flat_map in Hr as [k' [Hk' Hr]].
      apply String.eqb_neq. rewrite (Hblock k' r Hr). intros ->. contradiction. }
    rewrite E. apply app_nil_r.
  - destruct Hin as [->|Hin]; [contradiction|].
    rewrite (Hother k [k]); [now apply IH| |now left].
    intros [->|[]]. contradiction.
Qed.

Lemma departments_NoDup : NoDup departments.
Proof.
  unfold departments.
  repeat (constructor; [cbn [In]; intuition discriminate|]). constructor.
Qed.

Lemma sample_dept_rows draws dept :
  In dept departments ->
  dept_rows (generate_sample_data draws) dept =
  map (fun p => sample_row draws dept (fst p) (snd p))
      (combine (seq 0 (length dates)) dates).
Proof.
  intros H. unfold generate_sample_data.
  apply (dept_rows_blocks
           (fun dept => map (fun p => sample_row draws dept (fst p) (snd p))
                            (combine (seq 0 (length dates)) dates)));
    [|apply departments_NoDup|assumption].
  intros k r. apply sample_block_department.
Qed.

Lemma sample_departments draws :
  map department (generate_sample_data draws) =
  flat_map (fun dept => repeat dept (length dates)) departments.
Proof.
  unfold generate_sample_data. rewrite flat_map_concat_map, concat_map, map_map.
  rewrite <- flat_map_concat_map. apply flat_map_ext. intros dept.
  rewrite map_map. cbn [sample_row department].
  assert (H : forall (l : list timestamp) s,
             map (fun _ : nat * timestamp => dept) (combine (seq s (length l)) l) =
             repeat dept (length l)).
  { induction l as [|d l IH]; intros s; simpl; [reflexivity|]. now rewrite IH. }
  apply H.
Qed.

(** X13: whatever the random draws, the frame [generate_sample_data]
    builds has 1825 rows: the five departments in the order IT, Sales,
    Operations, HR, Marketing, each with one row for every day from
    2023-01-01 to 2023-12-31 in increasing order. *)
Theorem sample_data_shape (draws : Draws) :
  let df := generate_sample_data draws in
  length df = 1825%nat /\
  unique (map department df) = ["IT"; "Sales"; "Operations"; "HR"; "Marketing"] /\
  forall dept, In dept departments ->
    map date (dept_rows df dept) = map (fun i => (19358 + Z.of_nat i)%Z) (seq 0 365) /\
    map department (dept_rows df dept) = repeat dept 365.
Proof.
  cbv zeta. split; [|split].
  - rewrite <- (length_map department), sample_departments. reflexivity.
  - rewrite sample_departments. reflexivity.
  - intros dept Hd. rewrite sample_dept_rows by assumption. split.
    + rewrite sample_block_dates. reflexivity.
    + rewrite map_map. cbn [sample_row department].
      clear Hd. change 365%nat with (length dates).
      generalize 0%nat. induction dates as [|d l IH]; intros s; simpl; [reflexivity|].
      now rewrite IH.
Qed.

Lemma NoDup_append {A} (l1 l2 : list A) :
  NoDup l1 -> NoDup l2 -> (forall x, In x l1 -> ~ In x l2) -> NoDup (l1 ++ l2).
Proof.
  induction 1 as [|a l1 Hnotin Hnd IH]; intros H2 Hdisj; [exact H2|].
  simpl. constructor.
  - intros H. apply in_app_or in H as [H|H]; [contradiction|].
    apply (Hdisj a); [now left|assumption].
  - apply IH; [assumption|]. intros x Hx. apply Hdisj. now right.
Qed.

Lemma NoDup_list_prod {A B} (l : list A) (l' : list B) :
  NoDup l -> NoDup l' -> NoDup (list_prod l l').
Proof.
  intros Hl Hl'. induction Hl as [|a l Hnotin Hnd IH]; simpl; [constructor|].
  apply NoDup_append; [|assumption|].
  - apply NoDup_map_injective; [|assumption]. intros x y _ _ [= ->]. reflexivity.
  - intros [x y] Hin Hprod. apply in_map_iff in Hin as [y' [[= <- <-] _]].
    apply in_prod_iff in Hprod as [Ha _]. contradiction.
Qed.

Lemma sample_row_keys draws :
  map row_key (generate_sample_data draws) = list_prod departments dates.
Proof.
  rewrite list_prod_as_flat_map. unfold generate_sample_data.
  rewrite flat_map_concat_map, concat_map, map_map, <- flat_map_concat_map.
  apply flat_map_ext. intros dept. rewrite map_map.
  unfold row_key. cbn [sample_row department date].
  generalize 0%nat. induction dates as [|d l IH]; intros s; simpl; [reflexivity|].
  now rewrite IH.
Qed.


(** X14: whatever the random draws, every row of the generated frame has
    staff hours and budget that are not negative and a utilization between
    0 and 100, belongs to one of the five departments and to a day of
    2023, and no two rows have the same department and date. *)
Theorem sample_data_invariants (draws : Draws) :
  let df := generate_sample_data draws in
  (forall r, In r df ->
     0 <= staff_hours r /\
     0 <= budget_spent r /\
     0 <= resource_utilization r <= 100 /\
     In (department r) departments /\
     (first_day <= date r <= last_day)%Z) /\
  NoDup (map row_key df).
Proof.
  cbv zeta. split.
  - intros r Hr. unfold generate_sample_data in Hr.
    apply in_flat_map in Hr as [dept [Hdept Hr]].
    apply in_map_iff in Hr as [[i d] [<- Hp]].
    apply in_combine_r in Hp. cbn [sample_row staff_hours budget_spent
      resource_utilization department date fst snd].
    repeat split.
    + apply Rmax_l.
    + apply Rmax_l.
    + apply Rmin_glb; [lra|apply Rmax_l].
    + apply Rmin_l.
    + assumption.
    + now apply date_range_In in Hp.
    + now apply date_range_In in Hp.
  - rewrite sample_row_keys. apply NoDup_list_prod.
    + apply departments_NoDup.
    + apply date_range_NoDup.
Qed.


Lemma sample_dept_rows_length draws dept :
  In dept departments -> length (dept_rows (generate_sample_data draws) dept) = 365%nat.
Proof.
  intros H. rewrite sample_dept_rows by assumption.
  rewrite length_map, length_combine, length_seq, dates_length. reflexivity.
Qed.


(* ================================================================== *)
(** * [main] *)

Lemma print_actions_run console items : forall i out,
  print_actions console i items out =
  (Ok tt, out ++ map Printed (action_lines console i items)).
Proof.
  induction items as [|a items IH]; intros i out.
  - cbn. now rewrite app_nil_r.
  - cbn [print_actions]. unfold sbind, print. rewrite IH.
    unfold action_lines. cbn [length seq combine map fst snd].
    now rewrite <- app_assoc.
Qed.

(** Every run of [main], case by case. *)
Lemma main_run rt P console draws :
  let self := main_analyzer draws in
  run_script (main rt P console draws) =
  match run (generate_insights_report rt self) with
  | (Raise e, tr) => (Raise e, map Printed opening_lines ++ map Performed tr)
  | (Ok insights, tr) =>
      let shown := map Printed opening_lines ++ map Performed tr in
      match forecast_resources P self with
      | Raise e => (Raise e, shown)
      | Ok _ =>
          let found := shown ++ map Printed (findings_lines console insights) in
          match getitem (ai_recommendations insights) "priority_actions" with
          | Raise e => (Raise e, found)
          | Ok priority_actions =>
              match iter priority_actions with
              | Raise e => (Raise e, found)
              | Ok actions =>
                  (Ok tt, found ++ map Printed (action_lines console 1 actions)
                                ++ map Printed closing_lines)
              end
          end
      end
  end.
Proof.
  cbv zeta. unfold run_script, main, main_analyzer.
  unfold sbind at 1. unfold print at 1. cbn [app].
  unfold sbind at 1. unfold print at 1. cbn [app].
  unfold sbind at 1. unfold perform at 1.
  destruct (run (generate_insights_report rt (init placeholder_key draws)))
    as [[insights|e] tr]; [|reflexivity].
  unfold sbind at 1. unfold check at 1.
  destruct (forecast_resources P (init placeholder_key draws)) as [forecasts|e];
    [|reflexivity].
  do 5 (unfold sbind at 1; unfold print at 1).
  unfold sbind at 1. unfold check at 1.
  destruct (getitem (ai_recommendations insights) "priority_actions")
    as [priority_actions|e].
  2:{ unfold findings_lines. cbn [map]. now rewrite <- !app_assoc. }
  unfold sbind at 1. unfold check at 1.
  destruct (iter priority_actions) as [actions|e].
  2:{ unfold findings_lines. cbn [map]. now rewrite <- !app_assoc. }
  unfold sbind at 1. rewrite print_actions_run.
  unfold sbind, print. unfold findings_lines, closing_lines. cbn [map].
  rewrite <- !app_assoc. reflexivity.
Qed.

Lemma printed_app a b : printed (a ++ b) = printed a ++ printed b.
Proof. apply flat_map_app. Qed.

Lemma performed_app a b : performed (a ++ b) = performed a ++ performed b.
Proof. apply flat_map_app. Qed.

Lemma printed_lines l : printed (map Printed l) = l.
Proof. induction l as [|x l IH]; [reflexivity|]. cbn. now f_equal. Qed.

Lemma printed_events tr : printed (map Performed tr) = [].
Proof. induction tr as [|x l IH]; [reflexivity|]. exact IH. Qed.

Lemma performed_lines l : performed (map Printed l) = [].
Proof. induction l as [|x l IH]; [reflexivity|]. exact IH. Qed.

Lemma performed_events tr : performed (map Performed tr) = tr.
Proof. induction tr as [|x l IH]; [reflexivity|]. cbn. now f_equal. Qed.

Ltac shown :=
  rewrite ?printed_app, ?performed_app, ?printed_lines, ?printed_events,
    ?performed_lines, ?performed_events, ?app_nil_r; cbn [app].

(** The run of the report when the reply decodes and the savings can be
    read. *)
Lemma report_run_ok rt self ai pct :
  synthesized rt self (summary_str rt (metrics_summary_of (df self))) = Ok ai ->
  savings_percent ai = Ok pct ->
  exists insights,
    run (generate_insights_report rt self) =
      (Ok insights,
       [ChatCompletionCreate
          (chat_request_of self (summary_str rt (metrics_summary_of (df self))));
        HtmlWritten "utilization_by_dept.html" (util_by_dept_figure (df self));
        HtmlWritten "budget_trend.html" (budget_trend_figure (df self));
        ClockRead]) /\
    ai_recommendations insights = ai /\
    potential_annual_savings insights = savings_of (metrics_summary_of (df self)) pct.
Proof.
  intros Hai Hpct. unfold run. rewrite generate_insights_report_run. cbv zeta.
  rewrite Hai, Hpct. eexists. split; [reflexivity|]. split; reflexivity.
Qed.

Lemma main_performed rt P console draws :
  performed (snd (run_script (main rt P console draws))) =
  snd (run (generate_insights_report rt (main_analyzer draws))).
Proof.
  rewrite main_run. cbv zeta.
  destruct (run (generate_insights_report rt (main_analyzer draws)))
    as [[insights|e] tr]; cbn [snd]; [|now shown].
  destruct (forecast_resources P (main_analyzer draws)) as [f|e]; cbn [snd];
    [|now shown].
  destruct (getitem (ai_recommendations insights) "priority_actions") as [v|e];
    cbn [snd]; [|now shown].
  destruct (iter v) as [items|e]; cbn [snd]; now shown.
Qed.

(** X16: whatever happens, a run of [main] calls the chat completion
    service exactly once, before anything else it performs, with the
    placeholder key [your-api-key-here] written in [main]; what it
    performs besides printing is what [generate_insights_report] performs
    on the analyzer it builds (forecasting adds nothing), so at most the
    two file writes and one clock read follow the call. *)
Theorem main_calls_the_service_once
    (rt : Runtime) (P : Prophet) (console : Console) (draws : Draws) :
  let out := snd (run_script (main rt P console draws)) in
  performed out = snd (run (generate_insights_report rt (main_analyzer draws))) /\
  exists req rest,
    performed out = ChatCompletionCreate req :: rest /\
    chat_api_key req = "your-api-key-here" /\
    chat_model req = "gpt-3.5-turbo" /\
    (forall req', ~ In (ChatCompletionCreate req') rest) /\
    (length rest <= 3)%nat.
Proof.
  cbv zeta. rewrite main_performed. split; [reflexivity|].
  unfold run. rewrite generate_insights_report_run. cbv zeta.
  set (self := main_analyzer draws).
  set (text := summary_str rt (metrics_summary_of (df self))).
  exists (chat_request_of self text).
  destruct (synthesized rt self text) as [ai|e].
  - destruct (savings_percent ai) as [pct|e]; cbn [snd app]; eexists;
      (split; [reflexivity|]); (split; [reflexivity|]); (split; [reflexivity|]);
      (split; [|cbn; lia]); intros req' H; cbn [In] in H;
      repeat (destruct H as [H|H]; [discriminate|]); exact H.
  - cbn [snd app]. exists []. repeat split; [intros req' []|cbn; lia].
Qed.

Lemma closing_not_opening line :
  In line closing_lines -> ~ In line opening_lines.
Proof.
  unfold closing_lines, opening_lines. cbn [In].
  intros [<-|[<-|[<-|[]]]] [H|[H|[]]]; discriminate H.
Qed.

Lemma closing_not_findings console insights line :
  In line closing_lines -> ~ In line (findings_lines console insights).
Proof.
  unfold closing_lines, findings_lines. cbn [In].
  intros [<-|[<-|[<-|[]]]] [H|[H|[H|[H|[H|[]]]]]]; cbn in H; discriminate H.
Qed.

(** X17: when [main] ends with an exception it has printed none of the
    three closing lines that name the generated files; yet whenever the
    service's reply was decoded, both HTML files had been written by
    then. *)
Theorem main_failure_leaves_files_unannounced
    (rt : Runtime) (P : Prophet) (console : Console) (draws : Draws) (e : exn) :
  let self := main_analyzer draws in
  let result := run_script (main rt P console draws) in
  fst result = Raise e ->
  (forall line, In line closing_lines -> ~ In line (printed (snd result))) /\
  (forall ai,
     synthesized rt self (summary_str rt (metrics_summary_of (df self))) = Ok ai ->
     In (HtmlWritten "utilization_by_dept.html" (util_by_dept_figure (df self)))
        (performed (snd result)) /\
     In (HtmlWritten "budget_trend.html" (budget_trend_figure (df self)))
        (performed (snd result))).
Proof.
  cbv zeta. intros Hfail. split.
  - revert Hfail. rewrite main_run. cbv zeta.
    destruct (run (generate_insights_report rt (main_analyzer draws)))
      as [[insights|e0] tr].
    + destruct (forecast_resources P (main_analyzer draws)) as [f|e1].
      * destruct (getitem (ai_recommendations insights) "priority_actions") as [v|e2].
        -- destruct (iter v) as [items|e3]; [discriminate|].
           intros _ line Hline. cbn [snd]. shown. intros H.
           apply in_app_or in H as [H|H].
           ++ now apply (closing_not_opening line).
           ++ now apply (closing_not_findings console insights line).
        -- intros _ line Hline. cbn [snd]. shown. intros H.
           apply in_app_or in H as [H|H].
           ++ now apply (closing_not_opening line).
           ++ now apply (closing_not_findings console insights line).
      * intros _ line Hline. cbn [snd]. shown. now apply closing_not_opening.
    + intros _ line Hline. cbn [snd]. shown. now apply closing_not_opening.
  - intros ai Hai. rewrite main_performed. unfold run.
    rewrite generate_insights_report_run. cbv zeta. rewrite Hai.
    destruct (savings_percent ai); cbn [snd app In]; split;
      repeat (first [left; reflexivity | right]).
Qed.

(** The run of [main] when the report is built and every fit succeeds. *)
Lemma main_run_reported rt P console draws ai pct forecasts :
  let self := main_analyzer draws in
  synthesized rt self (summary_str rt (metrics_summary_of (df self))) = Ok ai ->
  savings_percent ai = Ok pct ->
  forecast_resources P self = Ok forecasts ->
  exists insights tr,
    run (generate_insights_report rt self) = (Ok insights, tr) /\
    run_script (main rt P console draws) =
    let found := (map Printed opening_lines ++ map Performed tr) ++
                 map Printed (findings_lines console insights) in
    match getitem ai "priority_actions" with
    | Raise e => (Raise e, found)
    | Ok priority_actions =>
        match iter priority_actions with
        | Raise e => (Raise e, found)
        | Ok actions =>
            (Ok tt, found ++ map Printed (action_lines console 1 actions)
                          ++ map Printed closing_lines)
        end
    end.
Proof.
  cbv zeta. intros Hai Hpct Hf.
  destruct (report_run_ok rt (main_analyzer draws) ai pct Hai Hpct)
    as [insights [Hrun [Hrec _]]].
  exists insights. eexists. split; [exact Hrun|].
  rewrite main_run. cbv zeta. rewrite Hrun, Hf, Hrec. reflexivity.
Qed.

Lemma action_lines_strings console (acts : list string) : forall i,
  action_lines console i (map JString acts) =
  map (fun p => (str_nat (fst p) ++ ". " ++ snd p)%string) (combine (seq i (length acts)) acts).
Proof.
  unfold action_lines. induction acts as [|a acts IH]; intros i; [reflexivity|].
  cbn [map length seq combine fst snd format_value]. f_equal. apply IH.
Qed.

(** X18: when the report is built, every fit succeeds and the reply's
    [priority_actions] is a list of strings, [main] ends normally and
    prints, between the findings and the closing lines, one line per
    action: all of them, however many the service returned, in the
    reply's order, each as it is and numbered from 1. *)
Theorem main_prints_every_action
    (rt : Runtime) (P : Prophet) (console : Console) (draws : Draws)
    (ai : json) (pct : num) (forecasts : list (string * list ForecastPoint))
    (acts : list string) :
  let self := main_analyzer draws in
  synthesized rt self (summary_str rt (metrics_summary_of (df self))) = Ok ai ->
  savings_percent ai = Ok pct ->
  forecast_resources P self = Ok forecasts ->
  getitem ai "priority_actions" = Ok (JArray (map JString acts)) ->
  exists insights,
    fst (run (generate_insights_report rt self)) = Ok insights /\
    fst (run_script (main rt P console draws)) = Ok tt /\
    printed (snd (run_script (main rt P console draws))) =
      opening_lines ++ findings_lines console insights ++
      map (fun p => (str_nat (fst p) ++ ". " ++ snd p)%string)
          (combine (seq 1 (length acts)) acts) ++
      closing_lines.
Proof.
  cbv zeta. intros Hai Hpct Hf Hacts.
  destruct (main_run_reported rt P console draws ai pct forecasts Hai Hpct Hf)
    as [insights [tr [Hrun Hmain]]].
  exists insights. rewrite Hrun, Hmain. cbv zeta. rewrite Hacts. cbn [iter fst snd].
  split; [reflexivity|]. split; [reflexivity|].
  shown. rewrite action_lines_strings, <- !app_assoc. reflexivity.
Qed.

Lemma characters_length (s : string) :
  length (list_ascii_of_string s) = String.length s.
Proof. induction s as [|c s IH]; [reflexivity|]. cbn. now f_equal. Qed.

Lemma action_lines_characters console (cs : list ascii) : forall i,
  action_lines console i (map (fun c => JString (String c EmptyString)) cs) =
  map (fun p => (str_nat (fst p) ++ ". " ++ String (snd p) EmptyString)%string)
      (combine (seq i (length cs)) cs).
Proof.
  unfold action_lines. induction cs as [|c cs IH]; intros i; [reflexivity|].
  cbn [map length seq combine fst snd format_value]. f_equal. apply IH.
Qed.

(** X19: when the reply's [priority_actions] is a string instead of a
    list, [main] does not fail: it ends normally and prints one numbered
    line for every character of the string. *)
Theorem main_prints_a_string_by_character
    (rt : Runtime) (P : Prophet) (console : Console) (draws : Draws)
    (ai : json) (pct : num) (forecasts : list (string * list ForecastPoint))
    (sentence : string) :
  let self := main_analyzer draws in
  synthesized rt self (summary_str rt (metrics_summary_of (df self))) = Ok ai ->
  savings_percent ai = Ok pct ->
  forecast_resources P self = Ok forecasts ->
  getitem ai "priority_actions" = Ok (JString sentence) ->
  exists insights,
    fst (run (generate_insights_report rt self)) = Ok insights /\
    fst (run_script (main rt P console draws)) = Ok tt /\
    printed (snd (run_script (main rt P console draws))) =
      opening_lines ++ findings_lines console insights ++
      map (fun p => (str_nat (fst p) ++ ". " ++ String (snd p) EmptyString)%string)
          (combine (seq 1 (String.length sentence)) (list_ascii_of_string sentence)) ++
      closing_lines.
Proof.
  cbv zeta. intros Hai Hpct Hf Hacts.
  destruct (main_run_reported rt P console draws ai pct forecasts Hai Hpct Hf)
    as [insights [tr [Hrun Hmain]]].
  exists insights. rewrite Hrun, Hmain. cbv zeta. rewrite Hacts. cbn [iter fst snd].
  split; [reflexivity|]. split; [reflexivity|].
  shown. rewrite action_lines_characters, <- !app_assoc.
  rewrite characters_length. reflexivity.
Qed.

(** X20: the forecasts [main] computes do not reach its output: with two
    forecasters that both fit every department, the two runs print and
    perform the same and end the same way. *)
Theorem main_output_ignores_forecasts
    (rt : Runtime) (P1 P2 : Prophet) (console : Console) (draws : Draws)
    (forecasts1 forecasts2 : list (string * list ForecastPoint)) :
  forecast_resources P1 (main_analyzer draws) = Ok forecasts1 ->
  forecast_resources P2 (main_analyzer draws) = Ok forecasts2 ->
  run_script (main rt P1 console draws) = run_script (main rt P2 console draws).
Proof.
  intros H1 H2. rewrite !main_run. cbv zeta. now rewrite H1, H2.
Qed.

(** X21: when a fit fails, [main] ends with the exception of
    [forecast_resources] having printed only its two opening lines: the
    report, although built in full (service called, both files written,
    clock read), is not shown. *)
Theorem main_fit_failure_hides_the_report
    (rt : Runtime) (P : Prophet) (console : Console) (draws : Draws)
    (ai : json) (pct : num) (e : exn) :
  let self := main_analyzer draws in
  let text := summary_str rt (metrics_summary_of (df self)) in
  synthesized rt self text = Ok ai ->
  savings_percent ai = Ok pct ->
  forecast_resources P self = Raise e ->
  fst (run_script (main rt P console draws)) = Raise e /\
  printed (snd (run_script (main rt P console draws))) = opening_lines /\
  performed (snd (run_script (main rt P console draws))) =
    [ChatCompletionCreate (chat_request_of self text);
     HtmlWritten "utilization_by_dept.html" (util_by_dept_figure (df self));
     HtmlWritten "budget_trend.html" (budget_trend_figure (df self));
     ClockRead].
Proof.
  cbv zeta. intros Hai Hpct Hf.
  destruct (report_run_ok rt (main_analyzer draws) ai pct Hai Hpct)
    as [insights [Hrun _]].
  rewrite main_run. cbv zeta. rewrite Hrun, Hf. cbn [fst snd].
  split; [reflexivity|]. split; now shown.
Qed.

(** X22: when the decoded reply is an object without [priority_actions]
    (which [analyze_with_gpt] returns and the report accepts) and every
    fit succeeds, [main] prints the findings and the heading of the
    actions and then ends with [KeyError('priority_actions')]; when the
    field is [null], a number or a boolean it ends there with a
    [TypeError]. *)
Theorem main_without_priority_actions
    (rt : Runtime) (P : Prophet) (console : Console) (draws : Draws)
    (fields : list (string * json)) (pct : num)
    (forecasts : list (string * list ForecastPoint)) :
  let self := main_analyzer draws in
  let result := run_script (main rt P console draws) in
  synthesized rt self (summary_str rt (metrics_summary_of (df self))) =
    Ok (JObject fields) ->
  savings_percent (JObject fields) = Ok pct ->
  forecast_resources P self = Ok forecasts ->
  exists insights,
    fst (run (generate_insights_report rt self)) = Ok insights /\
    (dict_get fields "priority_actions" = None ->
       fst result = Raise (KeyError "priority_actions") /\
       printed (snd result) = opening_lines ++ findings_lines console insights) /\
    (forall v, dict_get fields "priority_actions" = Some v ->
       v = JNull \/ (exists b, v = JBool b) \/ (exists n, v = JInt n) \/
       (exists x, v = JFloat x) ->
       fst result = Raise TypeError /\
       printed (snd result) = opening_lines ++ findings_lines console insights).
Proof.
  cbv zeta. intros Hai Hpct Hf.
  destruct (main_run_reported rt P console draws _ pct forecasts Hai Hpct Hf)
    as [insights [tr [Hrun Hmain]]].
  exists insights. rewrite Hrun, Hmain. cbv zeta. cbn [getitem fst].
  split; [reflexivity|]. split.
  - intros ->. cbn [fst snd]. split; [reflexivity|now shown].
  - intros v -> Hv. destruct Hv as [->|[[b ->]|[[n ->]|[x ->]]]];
      cbn [iter fst snd]; (split; [reflexivity|now shown]).
Qed.

(* ================================================================== *)
(** * What [forecast_resources] hands to the forecaster *)




(* ================================================================== *)
(** * Runs on concrete inputs *)

Lemma demo_synthesized content day self text :
  synthesized (Demo.runtime content day) self text = JsonText.loads content.
Proof. reflexivity. Qed.

Lemma it_and_hr_it_rows :
  dept_rows Demo.it_rows "IT" = dept_rows Demo.two_departments "IT".
Proof. reflexivity. Qed.

Lemma anomalies_depend_on_own_department_witness :
  exists out1 out2,
    detect_anomalies Demo.it_rows = Ok out1 /\
    detect_anomalies Demo.two_departments = Ok out2 /\
    anomalies_for "IT" ResourceUtilization out1 =
    anomalies_for "IT" ResourceUtilization out2.
Proof.
  exact (anomalies_depend_on_own_department
           Demo.it_rows Demo.two_departments "IT" ResourceUtilization
           it_and_hr_it_rows).
Defined.

Lemma empty_reply_decoded : JsonText.loads "{}" = Ok (JObject []).
Proof. vm_compute. reflexivity. Qed.

Lemma report_fails_after_writing_files_witness :
  run (generate_insights_report (Demo.runtime "{}" Demo.day)
                                (Demo.analyzer Demo.it_rows)) =
  (Raise (KeyError "potential_savings"),
   [ChatCompletionCreate (chat_request_of (Demo.analyzer Demo.it_rows) "{...}");
    HtmlWritten "utilization_by_dept.html" (util_by_dept_figure Demo.it_rows);
    HtmlWritten "budget_trend.html" (budget_trend_figure Demo.it_rows)]).
Proof.
  destruct (report_fails_after_writing_files
              (Demo.runtime "{}" Demo.day) (Demo.analyzer Demo.it_rows)
              (JObject []) empty_reply_decoded) as [_ [Hkey _]].
  exact (Hkey [] eq_refl eq_refl).
Defined.

(** The run of the report on [rows] with a reply [content] that decodes
    to [ai] and a percentage that reads as [pct]. *)
Lemma demo_report_run rows content ai pct :
  JsonText.loads content = Ok ai ->
  savings_percent ai = Ok pct ->
  let self := Demo.analyzer rows in
  run (generate_insights_report (Demo.runtime content Demo.day) self) =
  (Ok {| metrics_summary := metrics_summary_of rows;
         ai_recommendations := ai;
         anomalies := length (flat_map (dept_anomalies rows)
                                       (unique (map department rows)));
         potential_annual_savings := savings_of (metrics_summary_of rows) pct;
         analysis_date := Demo.day |},
   [ChatCompletionCreate (chat_request_of self "{...}");
    HtmlWritten "utilization_by_dept.html" (util_by_dept_figure rows);
    HtmlWritten "budget_trend.html" (budget_trend_figure rows);
    ClockRead]).
Proof.
  intros Hai Hpct self. unfold run. rewrite generate_insights_report_run. cbv zeta.
  rewrite demo_synthesized, Hai, Hpct. reflexivity.
Qed.

Lemma report_on_empty_frame_witness :
  exists report tr,
    run (generate_insights_report (Demo.runtime Demo.full_reply Demo.day)
                                  (Demo.analyzer [])) = (Ok report, tr) /\
    avg_utilization (metrics_summary report) = NaN /\
    total_budget (metrics_summary report) = Fin 0 /\
    potential_annual_savings report = NaN /\
    anomalies report = 0%nat.
Proof.
  eexists. eexists. split.
  - exact (demo_report_run [] Demo.full_reply Demo.full_recommendations (Fin 10)
                           full_reply_decoded savings_percent_full).
  - destruct (report_on_empty_frame
                (Demo.runtime Demo.full_reply Demo.day) (Demo.analyzer []) _ _
                eq_refl
                (demo_report_run [] Demo.full_reply Demo.full_recommendations (Fin 10)
                                 full_reply_decoded savings_percent_full))
      as [Havg [Htotal [_ [Hsavings [Hcount _]]]]].
    repeat split; assumption.
Defined.


(* ------------------------------------------------------------------ *)
(** ** Runs of [main] *)

Lemma sample_unique_departments draws :
  unique (map department (df (main_analyzer draws))) = departments.
Proof.
  cbn [main_analyzer init df]. rewrite sample_departments. reflexivity.
Qed.

Lemma naive_prophet_fits_sample draws :
  forecast_resources Demo.naive_prophet (main_analyzer draws) =
  Ok (map (fun dept =>
             let history := df_prophet (dept_rows (generate_sample_data draws) dept) in
             (dept, predict Demo.naive_prophet history
                      (make_future_dataframe Demo.naive_prophet history 90)))
          departments).
Proof.
  unfold forecast_resources. rewrite sample_unique_departments.
  apply mapM_ok. intros dept Hdept. unfold forecast_department.
  cbn [main_analyzer init df].
  assert (Hfit : fit Demo.naive_prophet
                     (df_prophet (dept_rows (generate_sample_data draws) dept)) =
                 Ok (df_prophet (dept_rows (generate_sample_data draws) dept))).
  { cbn [fit Demo.naive_prophet]. unfold df_prophet at 1.
    rewrite length_map, (sample_dept_rows_length draws dept Hdept). reflexivity. }
  rewrite Hfit. reflexivity.
Qed.

Lemma silent_prophet_fits_sample draws :
  forecast_resources Trial.silent_prophet (main_analyzer draws) =
  Ok (map (fun dept => (dept, [])) departments).
Proof.
  unfold forecast_resources. rewrite sample_unique_departments.
  apply mapM_ok. intros dept _. reflexivity.
Qed.

Lemma failing_prophet_fails_sample draws :
  forecast_resources Trial.failing_prophet (main_analyzer draws) =
  Raise (ProphetError "fit failed").
Proof.
  unfold forecast_resources. rewrite sample_unique_departments. reflexivity.
Qed.

Lemma sentence_reply_decoded :
  JsonText.loads Trial.sentence_reply = Ok Trial.sentence_recommendations.
Proof. vm_compute. reflexivity. Qed.

Lemma savings_percent_sentence :
  savings_percent Trial.sentence_recommendations = Ok (Fin 10).
Proof. reflexivity. Qed.

Lemma failing_main_raises :
  fst (run_script (main (Demo.runtime Demo.full_reply Demo.day)
                        Trial.failing_prophet Trial.console Trial.draws)) =
  Raise (ProphetError "fit failed").
Proof.
  rewrite main_run. cbv zeta.
  destruct (report_run_ok (Demo.runtime Demo.full_reply Demo.day)
              (main_analyzer Trial.draws) Demo.full_recommendations (Fin 10)
              full_reply_decoded savings_percent_full) as [insights [Hrun _]].
  rewrite Hrun, failing_prophet_fails_sample. reflexivity.
Qed.

Lemma main_failure_leaves_files_unannounced_witness :
  let out := snd (run_script (main (Demo.runtime Demo.full_reply Demo.day)
                                   Trial.failing_prophet Trial.console Trial.draws)) in
  ~ In "- budget_trend.html" (printed out) /\
  In (HtmlWritten "budget_trend.html"
        (budget_trend_figure (generate_sample_data Trial.draws)))
     (performed out).
Proof.
  destruct (main_failure_leaves_files_unannounced
              (Demo.runtime Demo.full_reply Demo.day)
              Trial.failing_prophet Trial.console Trial.draws
              (ProphetError "fit failed") failing_main_raises) as [Hlines Hfiles].
  split.
  - apply Hlines. right. right. left. reflexivity.
  - exact (proj2 (Hfiles Demo.full_recommendations full_reply_decoded)).
Defined.

Lemma main_prints_every_action_witness :
  exists insights,
    fst (run (generate_insights_report (Demo.runtime Demo.full_reply Demo.day)
                                       (main_analyzer Trial.draws))) = Ok insights /\
    fst (run_script (main (Demo.runtime Demo.full_reply Demo.day)
                          Demo.naive_prophet Trial.console Trial.draws)) = Ok tt /\
    printed (snd (run_script (main (Demo.runtime Demo.full_reply Demo.day)
                                   Demo.naive_prophet Trial.console Trial.draws))) =
      opening_lines ++ findings_lines Trial.console insights ++
      ["1. a"; "2. b"; "3. c"] ++ closing_lines.
Proof.
  exact (main_prints_every_action
           (Demo.runtime Demo.full_reply Demo.day)
           Demo.naive_prophet Trial.console Trial.draws
           Demo.full_recommendations (Fin 10) _ ["a"; "b"; "c"]
           full_reply_decoded savings_percent_full
           (naive_prophet_fits_sample Trial.draws) eq_refl).
Defined.

Lemma main_prints_a_string_by_character_witness :
  exists insights,
    fst (run (generate_insights_report (Demo.runtime Trial.sentence_reply Demo.day)
                                       (main_analyzer Trial.draws))) = Ok insights /\
    fst (run_script (main (Demo.runtime Trial.sentence_reply Demo.day)
                          Demo.naive_prophet Trial.console Trial.draws)) = Ok tt /\
    printed (snd (run_script (main (Demo.runtime Trial.sentence_reply Demo.day)
                                   Demo.naive_prophet Trial.console Trial.draws))) =
      opening_lines ++ findings_lines Trial.console insights ++
      ["1. H"; "2. i"; "3. r"; "4. e"] ++ closing_lines.
Proof.
  exact (main_prints_a_string_by_character
           (Demo.runtime Trial.sentence_reply Demo.day)
           Demo.naive_prophet Trial.console Trial.draws
           Trial.sentence_recommendations (Fin 10) _ "Hire"
           sentence_reply_decoded savings_percent_sentence
           (naive_prophet_fits_sample Trial.draws) eq_refl).
Defined.

Lemma main_output_ignores_forecasts_witness :
  run_script (main (Demo.runtime Demo.full_reply Demo.day)
                   Demo.naive_prophet Trial.console Trial.draws) =
  run_script (main (Demo.runtime Demo.full_reply Demo.day)
                   Trial.silent_prophet Trial.console Trial.draws).
Proof.
  exact (main_output_ignores_forecasts
           (Demo.runtime Demo.full_reply Demo.day)
           Demo.naive_prophet Trial.silent_prophet Trial.console Trial.draws _ _
           (naive_prophet_fits_sample Trial.draws)
           (silent_prophet_fits_sample Trial.draws)).
Defined.

Lemma main_fit_failure_hides_the_report_witness :
  fst (run_script (main (Demo.runtime Demo.full_reply Demo.day)
                        Trial.failing_prophet Trial.console Trial.draws)) =
    Raise (ProphetError "fit failed") /\
  printed (snd (run_script (main (Demo.runtime Demo.full_reply Demo.day)
                                 Trial.failing_prophet Trial.console Trial.draws))) =
    ["Initializing Operational Efficiency Analyzer...";
     "Generating insights and forecasts..."].
Proof.
  destruct (main_fit_failure_hides_the_report
              (Demo.runtime Demo.full_reply Demo.day)
              Trial.failing_prophet Trial.console Trial.draws
              Demo.full_recommendations (Fin 10) (ProphetError "fit failed")
              full_reply_decoded savings_percent_full
              (failing_prophet_fails_sample Trial.draws)) as [Hraise [Hprinted _]].
  split; assumption.
Defined.

Lemma main_without_priority_actions_witness :
  fst (run_script (main (Demo.runtime Demo.partial_reply Demo.day)
                        Demo.naive_prophet Trial.console Trial.draws)) =
  Raise (KeyError "priority_actions").
Proof.
  destruct (main_without_priority_actions
              (Demo.runtime Demo.partial_reply Demo.day)
              Demo.naive_prophet Trial.console Trial.draws
              _ (Fin 10) _
              partial_reply_decoded savings_percent_partial
              (naive_prophet_fits_sample Trial.draws)) as [insights [_ [Hmissing _]]].
  exact (proj1 (Hmissing eq_refl)).
Defined.


(* ================================================================== *)
(** * Double precision: facts about the operations *)

Lemma double_abs_round s m e l :
  Double.abs (SpecFloat.binary_round_aux Double.prec Double.emax s m e l) =
  SpecFloat.binary_round_aux Double.prec Double.emax false m e l.
Proof.
  unfold SpecFloat.binary_round_aux.
  destruct (SpecFloat.shr_fexp Double.prec Double.emax m e l) as [mrs' e'].
  destruct (SpecFloat.shr_fexp Double.prec Double.emax _ e' SpecFloat.loc_Exact)
    as [mrs'' e''].
  destruct (SpecFloat.shr_m mrs'') as [|p|p]; [reflexivity| |reflexivity].
  now destruct (Z.leb e'' (Double.emax - Double.prec)).
Qed.

(** The absolute value of a quotient is the quotient of the absolute
    values: rounding is symmetric. *)
Lemma double_abs_div x y :
  Double.abs (Double.div x y) = Double.div (Double.abs x) (Double.abs y).
Proof.
  destruct x as [sx|sx| |sx mx ex], y as [sy|sy| |sy my ey]; try reflexivity.
  unfold Double.div, SpecFloat.SFdiv. cbn [Double.abs SpecFloat.SFabs].
  destruct (SpecFloat.SFdiv_core_binary Double.prec Double.emax
              (Z.pos mx) ex (Z.pos my) ey) as [[mz ez] lz].
  apply double_abs_round.
Qed.

Lemma double_abs_nonnegative x : Double.negative x = false -> Double.abs x = x.
Proof. destruct x as [s|s| |s m e]; cbn; intros H; now rewrite ?H. Qed.

(** The code's [|(v - mean) / std|] is the specification's
    [|v - mean| / std] when [std] is not negative. *)
Lemma double_z_score_spec mean std v :
  Double.negative std = false ->
  Double.abs (Double.div (Double.sub v mean) std) = Double.spec_z_score mean std v.
Proof.
  intros H. unfold Double.spec_z_score.
  now rewrite double_abs_div, (double_abs_nonnegative std H).
Qed.

(** A division by a zero: an infinity, or a nan when the dividend is a
    zero or a nan. *)
Lemma double_abs_div_zero x s :
  Double.abs (Double.div x (SpecFloat.S754_zero s)) =
  if Double.nonzero x then Double.pinf else Double.nan.
Proof. destruct x as [sx|sx| |sx mx ex]; reflexivity. Qed.

Lemma double_div_nan x : Double.div x Double.nan = Double.nan.
Proof. destruct x; reflexivity. Qed.

(** [x - x] is a zero, or a nan when [x] is an infinity or a nan. *)
Lemma double_sub_diag x : Double.nonzero (Double.sub x x) = false.
Proof.
  destruct x as [s|s| |s m e];
    [destruct s; reflexivity|destruct s; reflexivity|reflexivity|].
  unfold Double.sub, SpecFloat.SFsub. cbv zeta.
  match goal with
  | |- context [SpecFloat.binary_normalize _ _ ?z _ _] =>
      replace z with 0%Z by (symmetry; apply Z.sub_diag)
  end.
  reflexivity.
Qed.

(* ================================================================== *)
(** * Double precision: [detect_anomalies] is total and is a filter *)

Lemma double_dept_rows_In df dept r :
  In r (Double.dept_rows df dept) <-> In r df /\ Double.department r = dept.
Proof.
  unfold Double.dept_rows. rewrite filter_In, String.eqb_eq. tauto.
Qed.

Lemma double_date_rows_In df d r :
  In r (Double.date_rows df d) <-> In r df /\ Double.date r = d.
Proof.
  unfold Double.date_rows. rewrite filter_In, Z.eqb_eq. tauto.
Qed.

Lemma double_metric_anomalies_eq pd dept dept_data m :
  Double.metric_anomalies pd dept dept_data m =
  Ok (map (Double.anomaly_of dept dept_data m) (Double.flagged_rows pd dept_data m)).
Proof.
  unfold Double.metric_anomalies, Double.z_scores, Double.column, Double.flagged_rows.
  rewrite !map_map, boolean_index_map, mapM_map.
  apply mapM_ok. intros r Hr.
  apply filter_In in Hr as [Hr _].
  assert (Hin : In r (Double.date_rows dept_data (Double.date r)))
    by (apply double_date_rows_In; split; [assumption|reflexivity]).
  unfold Double.anomaly_of.
  destruct (Double.date_rows dept_data (Double.date r)) as [|r0 rest]; [easy|].
  reflexivity.
Qed.

Lemma double_detect_anomalies_eq pd df :
  Double.detect_anomalies pd df =
  Ok (flat_map (Double.dept_anomalies pd df) (unique (map Double.department df))).
Proof.
  unfold Double.detect_anomalies.
  rewrite (mapM_ok _ (Double.dept_anomalies pd df)).
  - simpl. now rewrite concat_map_flat_map.
  - intros dept _.
    rewrite (mapM_ok _ (fun m =>
               map (Double.anomaly_of dept (Double.dept_rows df dept) m)
                   (Double.flagged_rows pd (Double.dept_rows df dept) m))).
    + simpl. unfold Double.dept_anomalies. simpl. now rewrite !app_nil_r.
    + intros m _. apply double_metric_anomalies_eq.
Qed.

Lemma double_anomalies_for_block dept m dept' dept_data m' rows :
  Double.anomalies_for dept m (map (Double.anomaly_of dept' dept_data m') rows) =
  if String.eqb dept' dept && Metric_eqb m' m
  then map (Double.anomaly_of dept' dept_data m') rows else [].
Proof. unfold Double.anomalies_for. now apply filter_map_const. Qed.

Lemma double_anomalies_for_app dept m l1 l2 :
  Double.anomalies_for dept m (l1 ++ l2) =
  Double.anomalies_for dept m l1 ++ Double.anomalies_for dept m l2.
Proof. apply filter_app. Qed.

Lemma double_anomalies_for_dept pd df dept m dept' :
  Double.anomalies_for dept m (Double.dept_anomalies pd df dept') =
  if String.eqb dept' dept
  then map (Double.anomaly_of dept (Double.dept_rows df dept) m)
           (Double.flagged_rows pd (Double.dept_rows df dept) m)
  else [].
Proof.
  unfold Double.dept_anomalies. cbn [flat_map].
  rewrite !double_anomalies_for_app, !double_anomalies_for_block.
  destruct (String.eqb_spec dept' dept) as [->|Hne]; [|reflexivity].
  destruct m; cbn; now rewrite ?app_nil_r.
Qed.

Lemma double_anomalies_for_flat_map pd df dept m depts :
  NoDup depts ->
  Double.anomalies_for dept m (flat_map (Double.dept_anomalies pd df) depts) =
  if in_dec string_dec dept depts
  then map (Double.anomaly_of dept (Double.dept_rows df dept) m)
           (Double.flagged_rows pd (Double.dept_rows df dept) m)
  else [].
Proof.
  induction 1 as [|d depts Hnotin Hnd IH]; [reflexivity|].
  cbn [flat_map]. rewrite double_anomalies_for_app, double_anomalies_for_dept, IH.
  destruct (String.eqb_spec d dept) as [->|Hne].
  - destruct (in_dec string_dec dept depts); [contradiction|].
    destruct (in_dec string_dec dept (dept :: depts)) as [_|Hn];
      [now rewrite app_nil_r|exfalso; apply Hn; now left].
  - cbn [app].
    destruct (in_dec string_dec dept depts) as [Hi|Hn];
      destruct (in_dec string_dec dept (d :: depts)) as [Hi'|Hn']; try reflexivity.
    + exfalso; apply Hn'; now right.
    + destruct Hi' as [->|Hi']; [now contradiction Hne|contradiction].
Qed.

Lemma double_dept_rows_absent df dept :
  ~ In dept (map Double.department df) -> Double.dept_rows df dept = [].
Proof.
  intros Hn. destruct (Double.dept_rows df dept) as [|r rest] eqn:E; [reflexivity|].
  assert (Hr : In r (Double.dept_rows df dept)) by (rewrite E; now left).
  apply double_dept_rows_In in Hr as [Hr <-]. exfalso. apply Hn. now apply in_map.
Qed.

(** The anomalies reported for a department and a metric are the records
    built from the flagged rows of the department's slice, in order. *)
Lemma double_detect_anomalies_for pd df dept m :
  exists out,
    Double.detect_anomalies pd df = Ok out /\
    Double.anomalies_for dept m out =
    map (Double.anomaly_of dept (Double.dept_rows df dept) m)
        (Double.flagged_rows pd (Double.dept_rows df dept) m).
Proof.
  eexists. split; [apply double_detect_anomalies_eq|].
  rewrite double_anomalies_for_flat_map by apply unique_NoDup.
  destruct (in_dec string_dec dept (unique (map Double.department df))) as [_|Hn];
    [reflexivity|].
  rewrite double_dept_rows_absent; [reflexivity|].
  intros H. apply Hn. now apply unique_In.
Qed.

(* ================================================================== *)
(** * Double precision: the standard deviation is never negative *)

Lemma double_round_sign s m e l :
  Double.negative (SpecFloat.binary_round_aux Double.prec Double.emax s m e l) = true ->
  s = true.
Proof.
  unfold SpecFloat.binary_round_aux.
  destruct (SpecFloat.shr_fexp Double.prec Double.emax m e l) as [mrs' e'].
  destruct (SpecFloat.shr_fexp Double.prec Double.emax _ e' SpecFloat.loc_Exact)
    as [mrs'' e''].
  destruct (SpecFloat.shr_m mrs'') as [|p|p]; [easy| |easy].
  now destruct (Z.leb e'' (Double.emax - Double.prec)).
Qed.

Lemma double_normalize_nonnegative m e :
  (0 <= m)%Z -> Double.negative (Double.scaled m e) = false.
Proof.
  intros Hm. unfold Double.scaled, SpecFloat.binary_normalize.
  destruct m as [|p|p]; [reflexivity| |lia].
  unfold SpecFloat.binary_round.
  destruct (SpecFloat.shl_align p e _) as [mz ez].
  destruct (Double.negative _) eqn:E; [|reflexivity].
  apply double_round_sign in E. discriminate E.
Qed.

Lemma double_of_nat_nonnegative n : Double.negative (Double.of_nat n) = false.
Proof. apply double_normalize_nonnegative. lia. Qed.

Lemma double_square_nonnegative d : Double.negative (Double.mul d d) = false.
Proof.
  destruct d as [s|s| |s m e];
    [destruct s; reflexivity|destruct s; reflexivity|reflexivity|].
  unfold Double.mul, SpecFloat.SFmul.
  destruct (Double.negative _) eqn:E; [|reflexivity].
  apply double_round_sign in E. now destruct s.
Qed.

Lemma double_add_nonnegative x y :
  Double.negative x = false -> Double.negative y = false ->
  Double.negative (Double.add x y) = false.
Proof.
  destruct x as [sx|sx| |sx mx ex], y as [sy|sy| |sy my ey]; cbn;
    intros Hx Hy; subst; try reflexivity.
  apply double_normalize_nonnegative.
  cbn [SpecFloat.cond_Zopp]. lia.
Qed.

Lemma double_div_nonnegative x y :
  Double.negative x = false -> Double.negative y = false ->
  Double.negative (Double.div x y) = false.
Proof.
  destruct x as [sx|sx| |sx mx ex], y as [sy|sy| |sy my ey]; cbn;
    intros Hx Hy; subst; try reflexivity.
  unfold Double.div, SpecFloat.SFdiv.
  destruct (SpecFloat.SFdiv_core_binary _ _ _ _ _ _) as [[mz ez] lz].
  destruct (Double.negative _) eqn:E; [|reflexivity].
  apply double_round_sign in E. discriminate E.
Qed.

Lemma double_sqrt_nonnegative x :
  Double.negative x = false -> Double.negative (Double.sqrt x) = false.
Proof.
  destruct x as [s|s| |s m e]; cbn; intros H; subst; try reflexivity.
  unfold Double.sqrt, SpecFloat.SFsqrt.
  destruct (SpecFloat.SFsqrt_core_binary _ _ _ _) as [[mz ez] lz].
  destruct (Double.negative _) eqn:E; [|reflexivity].
  apply double_round_sign in E. discriminate E.
Qed.

Lemma double_sum_left_nonnegative xs :
  (forall x, In x xs -> Double.negative x = false) ->
  Double.negative (Double.sum_left xs) = false.
Proof.
  unfold Double.sum_left.
  assert (H : forall acc, Double.negative acc = false ->
              (forall x, In x xs -> Double.negative x = false) ->
              Double.negative (fold_left Double.add xs acc) = false).
  { induction xs as [|x xs IH]; intros acc Hacc Hall; [exact Hacc|].
    cbn [fold_left]. apply IH.
    - apply double_add_nonnegative; [exact Hacc|apply Hall; now left].
    - intros y Hy. apply Hall. now right. }
  now apply H.
Qed.

(** With the additions done from left to right the standard deviation is
    a nan, a zero or a positive number: the hypothesis of
    [detect_anomalies_flags_by_rounded_z_score] holds for every series. *)
Lemma sequential_std_nonnegative xs :
  Double.negative (Double.series_std Double.sequential xs) = false.
Proof.
  unfold Double.series_std. apply double_sqrt_nonnegative.
  unfold Double.series_var. cbn [Double.std_sum Double.sequential].
  destruct (length xs <=? 1)%nat; [reflexivity|].
  apply double_div_nonnegative; [|apply double_of_nat_nonnegative].
  apply double_sum_left_nonnegative. intros x Hx.
  apply in_map_iff in Hx as [v [<- _]]. apply double_square_nonnegative.
Qed.

(* ================================================================== *)
(** * Double precision: which rows are flagged *)

(** C1, as the code has it: when the standard deviation that pandas
    returns for a department's series of one of the three metrics is not
    negative, [detect_anomalies] returns, and the anomalies it reports for
    that department and metric are, in order and with nothing besides,
    the rows of the department whose value [v] has [|v - mean| / std > 2],
    the mean and the standard deviation being the doubles that pandas
    returns and the subtraction, the division and the comparison those of
    double precision: one anomaly per such row, carrying the department,
    the metric and the date of the row. *)
Theorem detect_anomalies_flags_by_rounded_z_score
    (pd : Double.Pandas) (df : Double.DataFrame) (dept : string) (m : Metric) :
  let rows := Double.dept_rows df dept in
  let xs := Double.column m rows in
  let mean := Double.series_mean pd xs in
  let std := Double.series_std pd xs in
  let flagged v := Double.gtb (Double.spec_z_score mean std v) (Double.of_Z 2) in
  Double.negative std = false ->
  exists out,
    Double.detect_anomalies pd df = Ok out /\
    Double.anomalies_for dept m out =
      map (Double.anomaly_of dept rows m)
          (filter (fun r => flagged (Double.cell m r)) rows) /\
    (forall a, In a (Double.anomalies_for dept m out) ->
       exists r, In r df /\ Double.department r = dept /\
                 Double.date r = Double.anomaly_date a /\
                 flagged (Double.cell m r) = true) /\
    (forall r, In r df -> Double.department r = dept ->
       flagged (Double.cell m r) = true ->
       exists a, In a out /\ Double.anomaly_department a = dept /\
                 Double.anomaly_metric a = m /\
                 Double.anomaly_date a = Double.date r).
Proof.
  intros rows xs mean std flagged Hstd.
  destruct (double_detect_anomalies_for pd df dept m) as [out [Hout Hfor]].
  assert (Hflag : Double.flagged_rows pd rows m =
                  filter (fun r => flagged (Double.cell m r)) rows).
  { unfold Double.flagged_rows. apply filter_ext. intros r.
    unfold Double.is_anomaly, flagged. fold xs mean std.
    now rewrite double_z_score_spec. }
  fold rows in Hfor. rewrite Hflag in Hfor.
  exists out. split; [exact Hout|]. split; [exact Hfor|]. split.
  - intros a Ha. rewrite Hfor in Ha.
    apply in_map_iff in Ha as [r [<- Hr]]. apply filter_In in Hr as [Hr Hz].
    apply double_dept_rows_In in Hr as [Hr Hd].
    exists r. now repeat split.
  - intros r Hr Hd Hz.
    exists (Double.anomaly_of dept rows m r). split; [|now repeat split].
    assert (Hin : In (Double.anomaly_of dept rows m r)
                     (Double.anomalies_for dept m out)).
    { rewrite Hfor. apply in_map. apply filter_In. split; [|exact Hz].
      now apply double_dept_rows_In. }
    unfold Double.anomalies_for in Hin. now apply filter_In in Hin.
Qed.

(** C3, as the code has it: the division by the standard deviation is
    not guarded.  When the standard deviation that pandas returns is a
    zero, [detect_anomalies] returns, and the anomalies it reports for the
    department and metric are, in order, the rows whose difference from
    the mean, [v - mean] rounded, is not zero: their z-score is an
    infinity, that of the other rows a nan.  A row whose value is the
    computed mean is not flagged. *)
Theorem detect_anomalies_zero_std
    (pd : Double.Pandas) (df : Double.DataFrame) (dept : string) (m : Metric)
    (s : bool) :
  let rows := Double.dept_rows df dept in
  let xs := Double.column m rows in
  let mean := Double.series_mean pd xs in
  Double.series_std pd xs = SpecFloat.S754_zero s ->
  exists out,
    Double.detect_anomalies pd df = Ok out /\
    Double.anomalies_for dept m out =
      map (Double.anomaly_of dept rows m)
          (filter (fun r => Double.nonzero (Double.sub (Double.cell m r) mean)) rows) /\
    Double.z_scores pd xs =
      map (fun v => if Double.nonzero (Double.sub v mean)
                    then Double.pinf else Double.nan) xs /\
    (forall v, v = mean -> Double.is_anomaly pd xs v = false).
Proof.
  intros rows xs mean Hstd.
  destruct (double_detect_anomalies_for pd df dept m) as [out [Hout Hfor]].
  assert (Hz : forall v,
             Double.abs (Double.div (Double.sub v mean) (Double.series_std pd xs)) =
             if Double.nonzero (Double.sub v mean) then Double.pinf else Double.nan).
  { intros v. rewrite Hstd. apply double_abs_div_zero. }
  assert (Htest : forall v, Double.is_anomaly pd xs v =
                            Double.nonzero (Double.sub v mean)).
  { intros v. unfold Double.is_anomaly. fold mean. rewrite Hz.
    now destruct (Double.nonzero (Double.sub v mean)). }
  exists out. split; [exact Hout|]. split; [|split].
  - rewrite Hfor. fold rows. f_equal. unfold Double.flagged_rows.
    apply filter_ext. intros r. fold xs. apply Htest.
  - unfold Double.z_scores. fold mean. apply map_ext. exact Hz.
  - intros v ->. rewrite Htest. apply double_sub_diag.
Qed.

(** A department of one row has a nan for standard deviation, whatever
    the order of the additions: every z-score is a nan and no row of the
    department is flagged. *)
Lemma detect_anomalies_single_row pd df dept m :
  (length (Double.dept_rows df dept) <= 1)%nat ->
  exists out,
    Double.detect_anomalies pd df = Ok out /\ Double.anomalies_for dept m out = [].
Proof.
  intros Hlen.
  destruct (double_detect_anomalies_for pd df dept m) as [out [Hout Hfor]].
  exists out. split; [exact Hout|]. rewrite Hfor.
  unfold Double.flagged_rows. rewrite filter_none; [reflexivity|].
  intros r _. unfold Double.is_anomaly, Double.series_std, Double.series_var.
  unfold Double.column at 2. rewrite length_map.
  apply Nat.leb_le in Hlen. rewrite Hlen.
  change (Double.sqrt Double.nan) with Double.nan.
  now rewrite double_div_nan.
Qed.

(* ================================================================== *)
(** * Double precision: the savings *)


(* ================================================================== *)
(** * Double precision: runs on concrete frames *)

(** C1 on the six-day frame: the day with utilization 10 is the only one
    reported for the utilization of IT. *)
Lemma detect_anomalies_flags_by_rounded_z_score_witness :
  exists out,
    Double.detect_anomalies Double.sequential DoubleDemo.six_days = Ok out /\
    map Double.anomaly_date (Double.anomalies_for "IT" ResourceUtilization out) = [6%Z].
Proof.
  destruct (detect_anomalies_flags_by_rounded_z_score
              Double.sequential DoubleDemo.six_days "IT" ResourceUtilization)
    as [out [Hout [Hfor _]]]; [vm_compute; reflexivity|].
  exists out. split; [exact Hout|]. rewrite Hfor. vm_compute. reflexivity.
Defined.

Lemma tenth_value :
  DoubleDemo.tenth = SpecFloat.S754_finite false 7205759403792794 (-56).
Proof. vm_compute. reflexivity. Qed.

Lemma fifth_value :
  DoubleDemo.fifth = SpecFloat.S754_finite false 7205759403792794 (-55).
Proof. vm_compute. reflexivity. Qed.

Lemma two_fifths_value :
  DoubleDemo.two_fifths = SpecFloat.S754_finite false 7205759403792794 (-54).
Proof. vm_compute. reflexivity. Qed.

Lemma tenth_positive : 0 < Double.to_R DoubleDemo.tenth.
Proof.
  rewrite tenth_value. unfold Double.to_R.
  apply Rmult_lt_0_compat; [lra|]. apply powerRZ_lt. lra.
Qed.

Lemma fifth_is_twice_tenth :
  Double.to_R DoubleDemo.fifth = 2 * Double.to_R DoubleDemo.tenth.
Proof.
  rewrite fifth_value, tenth_value. unfold Double.to_R.
  change (-55)%Z with (1 + -56)%Z. rewrite powerRZ_add by lra.
  change (powerRZ 2 1) with (2 * 1). lra.
Qed.

Lemma two_fifths_is_four_tenths :
  Double.to_R DoubleDemo.two_fifths = 4 * Double.to_R DoubleDemo.tenth.
Proof.
  rewrite two_fifths_value, tenth_value. unfold Double.to_R.
  change (-54)%Z with (2 + -56)%Z. rewrite powerRZ_add by lra.
  change (powerRZ 2 2) with (2 * (2 * 1)). lra.
Qed.

(** The utilizations of [DoubleDemo.on_the_threshold] as real numbers:
    the standard deviation is the real 0.1 of the frame and the z-score
    of the first day is 2. *)
Lemma on_the_threshold_exact :
  let d := Double.to_R DoubleDemo.tenth in
  let xs := [4 * d; d; d; 2 * d; 2 * d; 2 * d; 2 * d] in
  Spec.sample_std xs = d /\ Spec.z_score xs (4 * d) = 2.
Proof.
  intros d xs. pose proof tenth_positive as Hd. fold d in Hd.
  assert (Hmean : Spec.sample_mean xs = 2 * d).
  { unfold Spec.sample_mean, xs, Rsum. cbn [fold_right length INR]. field. }
  assert (Hstd : Spec.sample_std xs = d).
  { unfold Spec.sample_std. rewrite Hmean.
    unfold sum_sq_dev, xs, Rsum. cbn [map fold_right length Nat.sub INR].
    replace ((((4 * d - 2 * d) * (4 * d - 2 * d) +
               ((d - 2 * d) * (d - 2 * d) +
                ((d - 2 * d) * (d - 2 * d) +
                 ((2 * d - 2 * d) * (2 * d - 2 * d) +
                  ((2 * d - 2 * d) * (2 * d - 2 * d) +
                   ((2 * d - 2 * d) * (2 * d - 2 * d) +
                    ((2 * d - 2 * d) * (2 * d - 2 * d) + 0))))))) /
              (1 + 1 + 1 + 1 + 1 + 1))) with (d * d) by field.
    apply sqrt_square. lra. }
  split; [exact Hstd|].
  unfold Spec.z_score. rewrite Hmean, Hstd.
  rewrite Rabs_pos_eq by lra. field. lra.
Qed.

(** C1 at the seven-day frame with the utilizations 0.4, 0.1, 0.1, 0.2,
    0.2, 0.2, 0.2: the standard deviation pandas returns is the double
    0.1, and the first day is reported, its z-score being
    2.0000000000000004 in double precision; in real numbers the standard
    deviation of these seven values is not zero and the z-score of the
    first day is exactly 2, which is not greater than 2. *)
Lemma rounding_flags_a_z_score_of_two :
  let frame := DoubleDemo.on_the_threshold in
  let xs := Double.column ResourceUtilization (Double.dept_rows frame "IT") in
  let exact := map Double.to_R xs in
  Double.series_std Double.sequential xs = DoubleDemo.tenth /\
  Double.detect_anomalies Double.sequential frame =
    Ok [ {| Double.anomaly_department := "IT"; Double.anomaly_date := 1%Z;
            Double.anomaly_metric := ResourceUtilization;
            Double.anomaly_value := DoubleDemo.two_fifths |} ] /\
  Spec.sample_std exact <> 0 /\
  Spec.z_score exact (Double.to_R DoubleDemo.two_fifths) = 2 /\
  Spec.flagged exact (Double.to_R DoubleDemo.two_fifths) = false.
Proof.
  cbv zeta. split; [vm_compute; reflexivity|]. split; [vm_compute; reflexivity|].
  change (map Double.to_R
            (Double.column ResourceUtilization
               (Double.dept_rows DoubleDemo.on_the_threshold "IT")))
    with [Double.to_R DoubleDemo.two_fifths; Double.to_R DoubleDemo.tenth;
          Double.to_R DoubleDemo.tenth; Double.to_R DoubleDemo.fifth;
          Double.to_R DoubleDemo.fifth; Double.to_R DoubleDemo.fifth;
          Double.to_R DoubleDemo.fifth].
  rewrite two_fifths_is_four_tenths, fifth_is_twice_tenth.
  destruct on_the_threshold_exact as [Hstd Hz]. cbv zeta in Hstd, Hz.
  pose proof tenth_positive as Hd.
  split; [rewrite Hstd; lra|]. split; [exact Hz|].
  unfold Spec.flagged. rewrite Hz. apply Rltb_false. lra.
Qed.

(** C3 on three days of utilization 75: the mean is 75, the standard
    deviation a zero, every z-score a nan, and nothing is reported. *)
Lemma detect_anomalies_zero_std_witness :
  exists out,
    Double.detect_anomalies Double.sequential DoubleDemo.constant_75 = Ok out /\
    Double.anomalies_for "IT" ResourceUtilization out = [] /\
    Double.z_scores Double.sequential
      (Double.column ResourceUtilization DoubleDemo.constant_75) =
      [Double.nan; Double.nan; Double.nan].
Proof.
  destruct (detect_anomalies_zero_std
              Double.sequential DoubleDemo.constant_75 "IT" ResourceUtilization false)
    as [out [Hout [Hfor [Hz _]]]]; [vm_compute; reflexivity|].
  exists out. split; [exact Hout|]. split.
  - rewrite Hfor. vm_compute. reflexivity.
  - change (Double.column ResourceUtilization DoubleDemo.constant_75) with
      (Double.column ResourceUtilization
         (Double.dept_rows DoubleDemo.constant_75 "IT")).
    rewrite Hz. vm_compute. reflexivity.
Defined.

(** C3 at three days of the constant utilization 7e-165: the mean pandas
    returns is 7.000000000000001e-165, the squares of the differences
    underflow, the standard deviation is a zero, every z-score is an
    infinity and the three days are reported. *)
Lemma constant_series_is_flagged :
  let frame := DoubleDemo.constant_tiny in
  let xs := Double.column ResourceUtilization (Double.dept_rows frame "IT") in
  xs = [DoubleDemo.tiny; DoubleDemo.tiny; DoubleDemo.tiny] /\
  Double.series_mean Double.sequential xs <> DoubleDemo.tiny /\
  Double.series_std Double.sequential xs = Double.pzero /\
  Double.z_scores Double.sequential xs = [Double.pinf; Double.pinf; Double.pinf] /\
  exists out,
    Double.detect_anomalies Double.sequential frame = Ok out /\
    map Double.anomaly_date (Double.anomalies_for "IT" ResourceUtilization out) =
      [1%Z; 2%Z; 3%Z].
Proof.
  cbv zeta. split; [reflexivity|]. split; [vm_compute; discriminate|].
  split; [vm_compute; reflexivity|]. split; [vm_compute; reflexivity|].
  eexists. split; [vm_compute; reflexivity|]. vm_compute. reflexivity.
Qed.


